(** * Maintenance scripts of the [being] repository: unused-file detectors,
      the destructive cleanup script and the file mover.

    The development embeds the five Python scripts function by function:

    - [Py]          : the pieces of Python's [str], [os.path] and [pathlib]
                      that the scripts call;
    - [OsWalk]      : a directory tree and [os.walk] over it;
    - [Proc]        : [subprocess.run] as a call into an external world;
    - [Report]      : the category-to-files [dict] both detectors fill;
    - [FindUnused]  : [app/find-unused.py] (the threshold variant);
    - [FindTrulyUnused] : [app/find-truly-unused.py] (the boolean variant);
    - [CleanupTempFiles] : [.to_delete_removed/cleanup_temp_files.py];
    - [FinalBatchMove]   : [.to_delete_removed/final_batch_move.py];
    - [Demo]        : small trees and worlds the scripts are run on;
    - [Runs], [Moves]    : views of a run of the detectors and of the mover;
    - [RemovalLaws]      : what the cleanup script expects of a file system;
    - [Phase8bCleanup]   : [temp_consolidation_removed/phase8b_cleanup.py];
    - [Disk]        : a small disk the phase 8B script is run on.

    Strings are sequences of 8-bit characters ([string] of the standard
    library).  A Python [str] read from UTF-8 text is modelled by its
    bytes: substring search, concatenation and splitting at an ASCII
    character commute with the encoding, and the byte-wise order of two
    UTF-8 strings is their code-point order.  [str.strip] removes the
    white space of Unicode, by the encodings of its characters. *)

From Stdlib Require Import Ascii DecimalString DecimalNat Sorting.Sorted.
From Stdlib Require String.
From stdpp Require Import base list sorting strings gmap.

(* ================================================================== *)
(** ** Python's [str], [os.path] and [pathlib] *)
(* ================================================================== *)

Module Py.

(** [needle in haystack] on [str]. *)
Fixpoint str_in (needle haystack : string) : bool :=
  String.prefix needle haystack ||
  match haystack with
  | EmptyString => false
  | String _ rest => str_in needle rest
  end.

(** [s.startswith(p)]. *)
Definition startswith (s p : string) : bool := String.prefix p s.

(** [s.endswith(suf)]: some tail of [s] is [suf]. *)
Fixpoint endswith (s suf : string) : bool :=
  String.eqb s suf ||
  match s with
  | EmptyString => false
  | String _ rest => endswith rest suf
  end.

(** [s.endswith((suf1, suf2, ...))] with a tuple of suffixes. *)
Definition endswith_any (s : string) (sufs : list string) : bool :=
  existsb (endswith s) sufs.

(** White space as [str.strip()] sees it: [s] is the UTF-8 encoding of
    one character that [str.isspace] holds of.  These are, in one byte,
    TAB, LF, VT, FF, CR (9-13), the separators 0x1c-0x1f and the space
    (28-32); in two bytes U+0085 (C2 85) and U+00A0 (C2 A0); in three
    bytes U+1680 (E1 9A 80), U+2000-U+200A (E2 80 80 - E2 80 8A), U+2028,
    U+2029 and U+202F (E2 80 A8, A9, AF), U+205F (E2 81 9F) and U+3000
    (E3 80 80). *)
Definition isspace (s : string) : bool :=
  match s with
  | String a EmptyString =>
      let x := nat_of_ascii a in
      ((9 <=? x) && (x <=? 13)) || ((28 <=? x) && (x <=? 32))
  | String a (String b EmptyString) =>
      let x := nat_of_ascii a in
      let y := nat_of_ascii b in
      (x =? 194) && ((y =? 133) || (y =? 160))
  | String a (String b (String c EmptyString)) =>
      let x := nat_of_ascii a in
      let y := nat_of_ascii b in
      let z := nat_of_ascii c in
      ((x =? 225) && (y =? 154) && (z =? 128)) ||
      ((x =? 226) && (y =? 128) &&
       (((128 <=? z) && (z <=? 138)) ||
        (z =? 168) || (z =? 169) || (z =? 175))) ||
      ((x =? 226) && (y =? 129) && (z =? 159)) ||
      ((x =? 227) && (y =? 128) && (z =? 128))
  | _ => false
  end.

(** [s.lstrip()]: the white-space characters at the start are dropped,
    each with all the bytes of its encoding. *)
Fixpoint lstrip (s : string) : string :=
  match s with
  | EmptyString => EmptyString
  | String a r1 =>
      if isspace (String a EmptyString) then lstrip r1
      else
        match r1 with
        | EmptyString => s
        | String b r2 =>
            if isspace (String a (String b EmptyString)) then lstrip r2
            else
              match r2 with
              | EmptyString => s
              | String c r3 =>
                  if isspace (String a (String b (String c EmptyString)))
                  then lstrip r3
                  else s
              end
        end
  end.

(** [s.rstrip()]: going from the end, what is left of the string from
    one byte on is dropped when it is the encoding of one white-space
    character. *)
Fixpoint rstrip (s : string) : string :=
  match s with
  | EmptyString => EmptyString
  | String c rest =>
      let t := String c (rstrip rest) in
      if isspace t then EmptyString else t
  end.

(** [s.strip()]. *)
Definition strip (s : string) : string := rstrip (lstrip s).

(** [s.split(sep)] for a one-character separator: never the empty list. *)
Fixpoint split (sep : ascii) (s : string) : list string :=
  match s with
  | EmptyString => [EmptyString]
  | String c rest =>
      if Ascii.eqb c sep then EmptyString :: split sep rest
      else match split sep rest with
           | [] => [String c EmptyString]
           | h :: t => String c h :: t
           end
  end.

(** The line feed. *)
Definition newline : ascii := ascii_of_nat 10.

(** [s.rfind(c)]: the last index of [c], [None] for Python's [-1]. *)
Fixpoint rfind (c : ascii) (s : string) : option nat :=
  match s with
  | EmptyString => None
  | String a rest =>
      match rfind c rest with
      | Some i => Some (S i)
      | None => if Ascii.eqb a c then Some 0 else None
      end
  end.

(** The slices [s[i:]] and [s[:i]]. *)
Fixpoint slice_from (i : nat) (s : string) : string :=
  match i, s with
  | 0, _ => s
  | S i', String _ rest => slice_from i' rest
  | S _, EmptyString => EmptyString
  end.

Fixpoint slice_to (i : nat) (s : string) : string :=
  match i, s with
  | 0, _ => EmptyString
  | S i', String c rest => String c (slice_to i' rest)
  | S _, EmptyString => EmptyString
  end.

(** [posixpath.basename]: [i = p.rfind('/') + 1; return p[i:]]. *)
Definition basename (p : string) : string :=
  let i := match rfind "/"%char p with Some k => S k | None => 0 end in
  slice_from i p.

(** The [while] loop of [genericpath._splitext]: is there a character
    other than the dot in [p[filenameIndex:dotIndex]]?  [n] is
    [dotIndex - filenameIndex]. *)
Fixpoint splitext_scan (p : string) (filenameIndex n : nat) : bool :=
  match n with
  | 0 => false
  | S n' =>
      match String.get filenameIndex p with
      | Some c =>
          if Ascii.eqb c "."%char then splitext_scan p (S filenameIndex) n'
          else true
      | None => true
      end
  end.

(** [posixpath.splitext]: split at the last dot of the last component,
    leading dots of that component apart. *)
Definition splitext (p : string) : string * string :=
  let filenameIndex := match rfind "/"%char p with Some k => S k | None => 0 end in
  match rfind "."%char p with
  | Some dotIndex =>
      if (filenameIndex <=? dotIndex) &&
         splitext_scan p filenameIndex (dotIndex - filenameIndex)
      then (slice_to dotIndex p, slice_from dotIndex p)
      else (p, EmptyString)
  | None => (p, EmptyString)
  end.

(** [posixpath.join(a, b)]. *)
Definition join (a b : string) : string :=
  if startswith b "/" then b
  else if String.eqb a EmptyString || endswith a "/" then a +:+ b
  else a +:+ "/" +:+ b.

(** [str(n)] for a non-negative [int]. *)
Definition str_of_nat (n : nat) : string :=
  NilEmpty.string_of_uint (Nat.to_uint n).

(** [c.upper()] on the ASCII letters. *)
Definition upper_ascii (c : ascii) : ascii :=
  let n := nat_of_ascii c in
  if (97 <=? n) && (n <=? 122) then ascii_of_nat (n - 32) else c.

(** [s.upper()]. *)
Fixpoint upper (s : string) : string :=
  match s with
  | EmptyString => EmptyString
  | String c rest => String (upper_ascii c) (upper rest)
  end.

(** [c * n] for a one-character string. *)
Fixpoint repeat_char (c : ascii) (n : nat) : string :=
  match n with
  | 0 => EmptyString
  | S n' => String c (repeat_char c n')
  end.

(** [n] occurs in [h] as a substring. *)
Definition occurs_in (n h : string) : Prop :=
  exists pre post, h = pre +:+ n +:+ post.

(** Line-oriented output: every line followed by a newline. *)
Fixpoint unlines (ls : list string) : string :=
  match ls with
  | [] => EmptyString
  | l :: rest => l +:+ String newline (unlines rest)
  end.


(** [sorted(l)] on a list of [str]: the ascending order of [str.__lt__],
    which compares character by character ([String.le] is [String.leb]). *)
Definition sorted (l : list string) : list string := merge_sort String.le l.

End Py.

(* ================================================================== *)
(** ** [os.walk] over a directory tree *)
(* ================================================================== *)

Module OsWalk.

(** A directory: its sub-directories and its plain files, each in the
    order [os.scandir] lists them. *)
Inductive tree : Type :=
| Dir (subdirs : forest) (files : list string)
with forest : Type :=
| NoDirs
| SubDir (name : string) (t : tree) (rest : forest).

(** The names of the sub-directories, the [dirs] of a triple. *)
Fixpoint dirnames (f : forest) : list string :=
  match f with
  | NoDirs => []
  | SubDir name _ rest => name :: dirnames rest
  end.

(** [os.walk(top)], top-down, on an existing directory: the triple of
    [top] first, then the walks of the sub-directories in turn. *)
Fixpoint walk_dir (top : string) (t : tree)
  : list (string * list string * list string) :=
  match t with
  | Dir subdirs files =>
      (top, dirnames subdirs, files) :: walk_subdirs top subdirs
  end
with walk_subdirs (top : string) (f : forest)
  : list (string * list string * list string) :=
  match f with
  | NoDirs => []
  | SubDir name sub rest =>
      walk_dir (Py.join top name) sub ++ walk_subdirs top rest
  end.

(** [os.walk(top)]: the error of [os.scandir] on a missing [top] is
    ignored ([onerror] is [None]), so nothing is yielded.  [None] is the
    tree of a [top] that does not exist. *)
Definition walk (top : string) (fs : option tree)
  : list (string * list string * list string) :=
  match fs with
  | Some t => walk_dir top t
  | None => []
  end.

End OsWalk.

(* ================================================================== *)
(** ** [subprocess.run] *)
(* ================================================================== *)

Module Proc.

(** What [subprocess.run] can raise. *)
Inductive exn : Type :=
| TimeoutExpired
| FileNotFoundError
| OtherError (msg : string).

(** A call returns a [CompletedProcess] (the exit status is not checked:
    [check] is not set) or raises. *)
Inductive outcome : Type :=
| Completed (returncode : nat) (stdout : string)
| Raised (e : exn).

#[global] Instance exn_eq_dec : EqDecision exn.
Proof. solve_decision. Defined.

#[global] Instance outcome_eq_dec : EqDecision outcome.
Proof. solve_decision. Defined.

(** The world outside the script: running a command line with a timeout
    gives an outcome and the world after the call. *)
Class World (W : Type) : Type :=
  subprocess_run : W -> list string -> nat -> W * outcome.

(** The outcomes of a sequence of calls made one after the other. *)
Fixpoint run_all {W} `{World W} (w : W) (calls : list (list string * nat))
  : list outcome :=
  match calls with
  | [] => []
  | (argv, timeout) :: rest =>
      let (w', o) := subprocess_run w argv timeout in
      o :: run_all w' rest
  end.

(** The world after a sequence of calls. *)
Fixpoint after_all {W} `{World W} (w : W) (calls : list (list string * nat))
  : W :=
  match calls with
  | [] => w
  | (argv, timeout) :: rest =>
      after_all (fst (subprocess_run w argv timeout)) rest
  end.

(** A world in which every call ends the same way. *)
Definition always (o : outcome) : World unit := fun w _ _ => (w, o).

End Proc.

(* ================================================================== *)
(** ** The report of a detector *)
(* ================================================================== *)

(** A report: category name to the files listed under it, a [dict] in
    insertion order. *)
Module Report.

Definition dict : Type := list (string * list string).

(** [d[key].append(v)].  Both scripts append under the literal keys of
    the [dict] they built, so Python's [KeyError] for a missing key does
    not arise; for such a key the model leaves [d] as it is. *)
Fixpoint append (key v : string) (d : dict) : dict :=
  match d with
  | [] => []
  | (k, l) :: rest =>
      if String.eqb k key then (k, l ++ [v]) :: rest
      else (k, l) :: append key v rest
  end.

(** [d[key]], [None] for a missing key. *)
Fixpoint get (key : string) (d : dict) : option (list string) :=
  match d with
  | [] => None
  | (k, l) :: rest => if String.eqb k key then Some l else get key rest
  end.

(** [d.keys()]. *)
Definition keys (d : dict) : list string := map fst d.

(** A file is reported when some category lists it. *)
Definition reported (p : string) (d : dict) : Prop :=
  exists key l, get key d = Some l /\ p ∈ l.

(** The invariant of a scan: every list is a subsequence of the files
    gone through so far, and holds only files of its own category. *)
Definition well_filed (categorize : string -> string) (seen : list string)
    (d : dict) : Prop :=
  Forall (fun e => snd e `sublist_of` seen /\
                   forall p, p ∈ snd e -> categorize p = fst e) d.

End Report.

(* ================================================================== *)
(** ** [app/find-unused.py]: the threshold variant *)
(* ================================================================== *)

Module FindUnused.

Definition SRC_DIR : string := "src".

Definition EXCLUDE_PATTERNS : list string :=
  ["index.ts"; "index.tsx"; ".test.ts"; ".test.tsx"; ".d.ts"; "App.tsx"].

(** The [for pattern in ...: if pattern in filepath: return False] loop. *)
Fixpoint should_check_from (patterns : list string) (filepath : string) : bool :=
  match patterns with
  | [] => true
  | pattern :: rest =>
      if Py.str_in pattern filepath then false
      else should_check_from rest filepath
  end.

(** [should_check]: is the file one to analyse? *)
Definition should_check (filepath : string) : bool :=
  should_check_from EXCLUDE_PATTERNS filepath.

(** The inner loop of [get_all_source_files], over the file names of one
    directory. *)
Definition collect_dir (root : string) (files : list string)
    (filenames : list string) : list string :=
  fold_left
    (fun files filename =>
       if Py.endswith_any filename [".ts"; ".tsx"] then
         let filepath := Py.join root filename in
         if should_check filepath then files ++ [filepath] else files
       else files)
    filenames files.

(** [get_all_source_files]: the [.ts] and [.tsx] files under [src/] that
    pass [should_check], in the order of the walk. *)
Definition get_all_source_files (fs : option OsWalk.tree) : list string :=
  fold_left
    (fun files '(root, _, filenames) => collect_dir root files filenames)
    (OsWalk.walk SRC_DIR fs) [].

(** The command line and the timeout of the search for one base name. *)
Definition rg_call (filename_without_ext src_dir : string)
  : list string * nat :=
  (["rg"; "-l"; filename_without_ext; src_dir], 5).

(** The non-empty lines of the stripped output. *)
Definition matches_of (stdout : string) : list string :=
  filter (fun line => negb (String.eqb line EmptyString))
         (Py.split Py.newline (Py.strip stdout)).

(** What [count_imports] returns on the outcome of its call: the length
    of [matches], and [0] from the bare [except]. *)
Definition count_of (o : Proc.outcome) : nat :=
  match o with
  | Proc.Completed _ stdout => length (matches_of stdout)
  | Proc.Raised _ => 0
  end.

(** [count_imports]: one search for the base name under [src_dir]. *)
Definition count_imports {W} `{Proc.World W} (w : W)
    (filename_without_ext src_dir : string) : W * nat :=
  let (argv, timeout) := rg_call filename_without_ext src_dir in
  let (w', result) := Proc.subprocess_run w argv timeout in
  (w', count_of result).

(** The base name [main] searches for:
    [os.path.splitext(os.path.basename(filepath))[0]]. *)
Definition filename_without_ext (filepath : string) : string :=
  let filename := Py.basename filepath in
  fst (Py.splitext filename).

(** The calls a scan of [files] makes, in order, and the reference count
    it obtains for each file. *)
Definition calls (files : list string) : list (list string * nat) :=
  map (fun filepath => rg_call (filename_without_ext filepath) "src") files.

Definition ref_counts {W} `{Proc.World W} (w : W) (files : list string)
  : list (string * nat) :=
  zip files (map count_of (Proc.run_all w (calls files))).

(** [unused_by_category] as [main] builds it. *)
Definition unused_by_category_init : Report.dict :=
  [("components", []); ("screens", []); ("services", []); ("stores", []);
   ("hooks", []); ("types", []); ("utils", []); ("constants", []);
   ("flows", []); ("contexts", []); ("navigation", []); ("theme", []);
   ("other", [])].

(** The [if]/[elif] chain of [main]: the key whose list gets the file. *)
Definition categorize (filepath : string) : string :=
  if Py.str_in "/components/" filepath then "components"
  else if Py.str_in "/screens/" filepath then "screens"
  else if Py.str_in "/services/" filepath then "services"
  else if Py.str_in "/stores/" filepath then "stores"
  else if Py.str_in "/hooks/" filepath then "hooks"
  else if Py.str_in "/types/" filepath then "types"
  else if Py.str_in "/utils/" filepath then "utils"
  else if Py.str_in "/constants/" filepath then "constants"
  else if Py.str_in "/flows/" filepath then "flows"
  else if Py.str_in "/contexts/" filepath then "contexts"
  else if Py.str_in "/navigation/" filepath then "navigation"
  else if Py.str_in "/theme/" filepath then "theme"
  else "other".

(** One round of the loop of [main] over [sorted(all_files)]. *)
Definition scan_step {W} `{Proc.World W} (st : W * Report.dict)
    (filepath : string) : W * Report.dict :=
  let (w, unused_by_category) := st in
  let (w', ref_count) :=
    count_imports w (filename_without_ext filepath) "src" in
  if ref_count <=? 1 then
    (w', Report.append (categorize filepath) filepath unused_by_category)
  else (w', unused_by_category).

(** The loop of [main]: [for filepath in sorted(all_files)]. *)
Definition scan {W} `{Proc.World W} (w : W) (all_files : list string)
  : W * Report.dict :=
  fold_left scan_step (Py.sorted all_files) (w, unused_by_category_init).

(** What one round does to the report, given the file and its count. *)
Definition record (unused_by_category : Report.dict) (c : string * nat)
  : Report.dict :=
  if snd c <=? 1 then
    Report.append (categorize (fst c)) (fst c) unused_by_category
  else unused_by_category.

(** The printing loop: the lines printed and the running total. *)
Definition print_results (unused_by_category : Report.dict)
  : list string * nat :=
  fold_left
    (fun '(out, total) '(category, files) =>
       match files with
       | [] => (out, total)
       | _ =>
           (out ++
            [String Py.newline (Py.upper category) +:+ " (" +:+
               Py.str_of_nat (length files) +:+ "):";
             Py.repeat_char "-" 60] ++
            map (fun f => "  " +:+ f) files,
            total + length files)
       end)
    unused_by_category ([], 0).

(** What a run leaves: the report, the total and the lines printed. *)
Record run : Type := {
  report : Report.dict;
  total : nat;
  printed : list string
}.

(** [main], from the tree under [src/] (if any) and the world the
    searches run in. *)
Definition main {W} `{Proc.World W} (w : W) (fs : option OsWalk.tree)
  : W * run :=
  let all_files := get_all_source_files fs in
  let (w', unused_by_category) := scan w all_files in
  let (out, total) := print_results unused_by_category in
  (w',
   {| report := unused_by_category;
      total := total;
      printed :=
        [String.append "Analyzing source files for unused imports..."
           (String Py.newline EmptyString)] ++
        out ++
        [String Py.newline (String Py.newline "TOTAL: ") +:+
           Py.str_of_nat total +:+ " potentially unused files";
         String Py.newline "NOTE: Files may be used via:";
         "- Index file re-exports";
         "- Dynamic imports";
         "- App.tsx or other entry points";
         "- Non-import references (like typeof)"] |}).

End FindUnused.

(* ================================================================== *)
(** ** [app/find-truly-unused.py]: the boolean variant *)
(* ================================================================== *)

Module FindTrulyUnused.

Definition SRC_DIR : string := "src".

Definition KNOWN_USED : list string :=
  ["App.tsx"; "CleanRootNavigator.tsx"; "CleanTabNavigator.tsx";
   "EveningFlowNavigator.tsx"; "MorningFlowNavigator.tsx";
   "MiddayFlowNavigator.tsx"].

(** The literal list of [should_skip]. *)
Definition SKIP_PATTERNS : list string :=
  [".test.ts"; ".test.tsx"; ".d.ts"; "index.ts"; "index.tsx"].

(** [x in l] on a list of [str]. *)
Definition list_in (x : string) (l : list string) : bool :=
  existsb (String.eqb x) l.

(** [should_skip]: test files, index files, type definitions, and the
    files of [KNOWN_USED]. *)
Definition should_skip (filepath : string) : bool :=
  if existsb (fun x => Py.str_in x filepath) SKIP_PATTERNS then true
  else
    let filename := Py.basename filepath in
    list_in filename KNOWN_USED.

(** The double quote, as a string. *)
Definition dquote : string := String (ascii_of_nat 34) EmptyString.

(** The four patterns tried for one base name, in order. *)
Definition patterns (filename_base : string) : list string :=
  ["import.*from.*" +:+ filename_base;
   "import.*from.*/" +:+ filename_base;
   "import.*from.*'" +:+ filename_base +:+ "'";
   "import.*from.*" +:+ dquote +:+ filename_base +:+ dquote].

(** The command line and the timeout of the search for one pattern. *)
Definition rg_call (pattern : string) : list string * nat :=
  (["rg"; pattern; "."; "--type"; "typescript"; "--type"; "tsx"], 2).

(** [matches]: the non-empty lines of the stripped output that do not
    contain [file_path]. *)
Definition matches_of (file_path stdout : string) : list string :=
  filter (fun line => negb (String.eqb line EmptyString) &&
                      negb (Py.str_in file_path line))
         (Py.split Py.newline (Py.strip stdout)).

(** The [for pattern in patterns] loop under the [try]: [True] at the
    first pattern with a match, [True] from the bare [except] when a call
    raises, [False] after the last pattern. *)
Fixpoint search_patterns {W} `{Proc.World W} (w : W)
    (pats : list string) (file_path : string) : W * bool :=
  match pats with
  | [] => (w, false)
  | pattern :: rest =>
      let (argv, timeout) := rg_call pattern in
      match Proc.subprocess_run w argv timeout with
      | (w', Proc.Completed _ stdout) =>
          match matches_of file_path stdout with
          | [] => search_patterns w' rest file_path
          | _ :: _ => (w', true)
          end
      | (w', Proc.Raised _) => (w', true)
      end
  end.

(** [search_for_import]: is the file imported somewhere else? *)
Definition search_for_import {W} `{Proc.World W} (w : W)
    (filename_base file_path : string) : W * bool :=
  search_patterns w (patterns filename_base) file_path.

(** The calls [search_for_import] makes when no pattern settles the
    answer early, and whether an outcome settles it: a call that raised,
    or an output with a line left in [matches]. *)
Definition calls (filename_base : string) : list (list string * nat) :=
  map rg_call (patterns filename_base).

Definition settles (file_path : string) (o : Proc.outcome) : bool :=
  match o with
  | Proc.Completed _ stdout =>
      match matches_of file_path stdout with [] => false | _ :: _ => true end
  | Proc.Raised _ => true
  end.

(** The walk at the head of [main]. *)
Definition collect_dir (root : string) (all_files : list string)
    (filenames : list string) : list string :=
  fold_left
    (fun all_files filename =>
       if Py.endswith_any filename [".ts"; ".tsx"] then
         let filepath := Py.join root filename in
         if negb (should_skip filepath) then all_files ++ [filepath]
         else all_files
       else all_files)
    filenames all_files.

(** [all_files] of [main], in the order of the walk. *)
Definition all_source_files (fs : option OsWalk.tree) : list string :=
  fold_left
    (fun all_files '(root, _, filenames) =>
       collect_dir root all_files filenames)
    (OsWalk.walk SRC_DIR fs) [].

(** [truly_unused] as [main] builds it. *)
Definition truly_unused_init : Report.dict :=
  [("documentation", []); ("services", []); ("components", []);
   ("screens", []); ("other", [])].

(** The [if]/[elif] chain of [main]. *)
Definition categorize (filepath : string) : string :=
  let filename := Py.basename filepath in
  if Py.str_in "Guide" filename || Py.str_in "Validation" filename
  then "documentation"
  else if Py.str_in "/services/" filepath then "services"
  else if Py.str_in "/components/" filepath || Py.str_in "/flows/" filepath
  then "components"
  else if Py.str_in "/screens/" filepath then "screens"
  else "other".

(** The base name [main] searches for. *)
Definition filename_base (filepath : string) : string :=
  let filename := Py.basename filepath in
  fst (Py.splitext filename).

(** One round of the loop of [main] over [sorted(all_files)]. *)
Definition scan_step {W} `{Proc.World W} (st : W * Report.dict)
    (filepath : string) : W * Report.dict :=
  let (w, truly_unused) := st in
  let (w', is_used) :=
    search_for_import w (filename_base filepath) filepath in
  if negb is_used then
    (w', Report.append (categorize filepath) filepath truly_unused)
  else (w', truly_unused).

(** The loop of [main]: [for filepath in sorted(all_files)]. *)
Definition scan {W} `{Proc.World W} (w : W) (all_files : list string)
  : W * Report.dict :=
  fold_left scan_step (Py.sorted all_files) (w, truly_unused_init).

(** The printing loop: the lines printed and the running total. *)
Definition print_results (truly_unused : Report.dict) : list string * nat :=
  fold_left
    (fun '(out, total) '(category, files) =>
       match files with
       | [] => (out, total)
       | _ =>
           (out ++
            [String Py.newline (Py.upper category) +:+ ":";
             Py.repeat_char "-" 70] ++
            map (fun f => "  " +:+ f) files,
            total + length files)
       end)
    truly_unused ([], 0).

(** The closing lines, printed when [total > 0]. *)
Definition recommendations : list string :=
  [String Py.newline (Py.repeat_char "=" 70);
   "RECOMMENDATIONS:";
   Py.repeat_char "=" 70;
   "1. Documentation/Guide files: Review if still needed for reference";
   "2. Services: May be infrastructure not yet integrated";
   "3. Components/Screens: Likely deprecated or未実装features";
   "4. Consider moving to archive or deleting to reduce codebase size"].

(** What a run leaves: the report, the total and the lines printed. *)
Record run : Type := {
  report : Report.dict;
  total : nat;
  printed : list string
}.

(** [main], from the tree under [src/] (if any) and the world the
    searches run in. *)
Definition main {W} `{Proc.World W} (w : W) (fs : option OsWalk.tree)
  : W * run :=
  let all_files := all_source_files fs in
  let (w', truly_unused) := scan w all_files in
  let (out, total) := print_results truly_unused in
  (w',
   {| report := truly_unused;
      total := total;
      printed :=
        [String.append "Finding TRULY UNUSED files..."
           (String Py.newline EmptyString);
         String.append "Checking for actual import statements..."
           (String Py.newline EmptyString)] ++
        out ++
        [String Py.newline (String Py.newline "TOTAL TRULY UNUSED: ") +:+
           Py.str_of_nat total +:+ " files"] ++
        (if 0 <? total then recommendations else []) |}).

End FindTrulyUnused.

(* ================================================================== *)
(** ** [.to_delete_removed/cleanup_temp_files.py] *)
(* ================================================================== *)

Module CleanupTempFiles.

Definition files_to_remove : list string :=
  ["/Users/max/Development/active/fullmind/PHASE_6A_HISTORY_AUDIT_REPORT.md";
   "/Users/max/Development/active/fullmind/PHASE_7B_COMPLIANCE_ENVIRONMENT_CONSOLIDATION_REPORT.md";
   "/Users/max/Development/active/fullmind/PHASE_7B_SECURITY_ENVIRONMENT_CONSOLIDATION_COMPLETE.md";
   "/Users/max/Development/active/fullmind/CRISIS_SAFETY_BASELINE_REPORT.md";
   "/Users/max/Development/active/fullmind/batch_remove_script.py";
   "/Users/max/Development/active/fullmind/cleanup-log.txt";
   "/Users/max/Development/active/fullmind/cleanup_examples.sh";
   "/Users/max/Development/active/fullmind/execute_cleanup.py";
   "/Users/max/Development/active/fullmind/final_cleanup.py";
   "/Users/max/Development/active/fullmind/app/PHASE_3B_SERVICE_CONSOLIDATION_PLAN.md";
   "/Users/max/Development/active/fullmind/app/PHASE_3C_GROUP_1_COMPLETION_REPORT.md";
   "/Users/max/Development/active/fullmind/app/PHASE_3C_GROUP_2_COMPLETION_REPORT.md";
   "/Users/max/Development/active/fullmind/app/PHASE_3D_PERFORMANCE_VALIDATION_COMPLETE.md";
   "/Users/max/Development/active/fullmind/app/PHASE_4A_TYPE_SYSTEM_ANALYSIS_REPORT.md";
   "/Users/max/Development/active/fullmind/app/PHASE_4B_TYPE_CONSOLIDATION_QUALITY_REVIEW.md";
   "/Users/max/Development/active/fullmind/app/PHASE_4B_CANONICAL_CONSOLIDATION_REPORT.md";
   "/Users/max/Development/active/fullmind/app/PHASE_4D_TYPE_SAFETY_VALIDATION_REPORT.md";
   "/Users/max/Development/active/fullmind/app/PHASE_5C_GROUP_2_COMPLETION_REPORT.md";
   "/Users/max/Development/active/fullmind/app/PHASE_5C_GROUP_3_CRISIS_MIGRATION_REPORT.md";
   "/Users/max/Development/active/fullmind/app/PHASE_5C_GROUP_1_USER_STORE_CONSOLIDATION_REPORT.md";
   "/Users/max/Development/active/fullmind/app/PHASE_5C_GROUP_2_ASSESSMENT_MIGRATION_COMPLETE.md";
   "/Users/max/Development/active/fullmind/app/PHASE_5C_GROUP_4_COMPLETION_REPORT.md";
   "/Users/max/Development/active/fullmind/app/PHASE_5E_DASHBOARD_INTEGRATION.md";
   "/Users/max/Development/active/fullmind/app/PHASE_5E_COMPLETION_REPORT.md";
   "/Users/max/Development/active/fullmind/app/PHASE_5F_FINAL_VALIDATION_REPORT.md";
   "/Users/max/Development/active/fullmind/app/PHASE_7A_TYPESCRIPT_BUILD_CONSOLIDATION_COMPLETE.md";
   "/Users/max/Development/active/fullmind/app/PHASE_7A_REACT_BUILD_CONSOLIDATION_COMPLETE.md";
   "/Users/max/Development/active/fullmind/app/PHASE_5E_EXECUTION_REPORT.json";
   "/Users/max/Development/active/fullmind/app/PHASE_5F_VALIDATION_REPORT.json";
   "/Users/max/Development/active/fullmind/app/PHASE_5F_STORE_INTEGRATION_REPORT.json";
   "/Users/max/Development/active/fullmind/app/PHASE_5F_PERFORMANCE_REPORT.json";
   "/Users/max/Development/active/fullmind/app/PHASE_5F_PERFORMANCE_VALIDATION_REPORT.json";
   "/Users/max/Development/active/fullmind/app/payment_consolidation_validation_report.json";
   "/Users/max/Development/active/fullmind/app/GROUP_4_MIGRATION_VALIDATION_REPORT.json";
   "/Users/max/Development/active/fullmind/app/IMMEDIATE_CLEANUP_ACTIONS.md";
   "/Users/max/Development/active/fullmind/app/NEW_ARCHITECTURE_COMPLIANCE_VALIDATION.md";
   "/Users/max/Development/active/fullmind/app/SERVICE_CONSOLIDATION_ARCHITECTURE.md";
   "/Users/max/Development/active/fullmind/app/STATE_AGENT_COORDINATION_BRIEF.md";
   "/Users/max/Development/active/fullmind/app/SYNC_TYPES_CANONICAL_MIGRATION_REPORT.md";
   "/Users/max/Development/active/fullmind/app/.phase-3c-group-1-success.json";
   "/Users/max/Development/active/fullmind/app/cleanup-performance-monitor.js";
   "/Users/max/Development/active/fullmind/app/clinical-performance-validation.js";
   "/Users/max/Development/active/fullmind/app/crisis-performance-monitor.js";
   "/Users/max/Development/active/fullmind/app/execute-crisis-clinical-migration.js";
   "/Users/max/Development/active/fullmind/app/migrate-sync-imports.js";
   "/Users/max/Development/active/fullmind/app/migrate-sync-types-canonical.js";
   "/Users/max/Development/active/fullmind/app/performance-baseline-measurement.js";
   "/Users/max/Development/active/fullmind/app/performance-checkpoint-system.js";
   "/Users/max/Development/active/fullmind/app/phase-3c-group-1-health-check.js";
   "/Users/max/Development/active/fullmind/app/phase-3d-integration-test.js";
   "/Users/max/Development/active/fullmind/app/phase-3d-performance-validation.js";
   "/Users/max/Development/active/fullmind/app/update-payment-imports.js";
   "/Users/max/Development/active/fullmind/app/validate-clinical-pattern.js";
   "/Users/max/Development/active/fullmind/app/validate-phase-2c-implementation.js";
   "/Users/max/Development/active/fullmind/app/validate-sync-consolidation.js";
   "/Users/max/Development/active/fullmind/app/validate_payment_consolidation.js"].

Definition dirs_to_remove : list string :=
  ["/Users/max/Development/active/fullmind/.temp_delete";
   "/Users/max/Development/active/fullmind/.to_delete";
   "/Users/max/Development/active/fullmind/app/.temp_payment_types_backup";
   "/Users/max/Development/active/fullmind/app/.to_delete"].

(** The file system as the script uses it: [os.path.exists], and
    [os.remove] and [shutil.rmtree], each of which either returns or
    raises an exception (given by its message); the tree after the call
    is whatever the system left. *)
Class FileSystem (FS : Type) : Type := {
  path_exists : FS -> string -> bool;
  os_remove : FS -> string -> FS * option string;
  shutil_rmtree : FS -> string -> FS * option string
}.

(** The state of the script: the tree, [count] and the lines printed. *)
Record state (FS : Type) : Type := {
  fs : FS;
  count : nat;
  printed : list string
}.
Arguments fs {FS} _.
Arguments count {FS} _.
Arguments printed {FS} _.

(** One round of the loop over [files_to_remove]. *)
Definition remove_file {FS} `{FileSystem FS} (st : state FS)
    (file_path : string) : state FS :=
  if path_exists (fs st) file_path then
    match os_remove (fs st) file_path with
    | (fs', None) =>
        {| fs := fs'; count := count st + 1;
           printed := printed st ++ ["Removed file: " +:+ file_path] |}
    | (fs', Some e) =>
        {| fs := fs'; count := count st;
           printed := printed st ++
             ["Error removing file " +:+ file_path +:+ ": " +:+ e] |}
    end
  else
    {| fs := fs st; count := count st;
       printed := printed st ++ ["File not found: " +:+ file_path] |}.

(** One round of the loop over [dirs_to_remove]. *)
Definition remove_dir {FS} `{FileSystem FS} (st : state FS)
    (dir_path : string) : state FS :=
  if path_exists (fs st) dir_path then
    match shutil_rmtree (fs st) dir_path with
    | (fs', None) =>
        {| fs := fs'; count := count st + 1;
           printed := printed st ++ ["Removed directory: " +:+ dir_path] |}
    | (fs', Some e) =>
        {| fs := fs'; count := count st;
           printed := printed st ++
             ["Error removing directory " +:+ dir_path +:+ ": " +:+ e] |}
    end
  else
    {| fs := fs st; count := count st;
       printed := printed st ++ ["Directory not found: " +:+ dir_path] |}.

(** The number of printed lines that report a removal. *)
Definition removals (lines : list string) : nat :=
  length (filter (fun line => Py.startswith line "Removed ") lines).

(** The two loops on given lists, from [count = 0]. *)
Definition cleanup {FS} `{FileSystem FS} (files dirs : list string)
    (fs0 : FS) : state FS :=
  let st0 := {| fs := fs0; count := 0; printed := [] |} in
  fold_left remove_dir dirs (fold_left remove_file files st0).

(** The whole script, with its closing line. *)
Definition script {FS} `{FileSystem FS} (fs0 : FS) : state FS :=
  let st := cleanup files_to_remove dirs_to_remove fs0 in
  {| fs := fs st; count := count st;
     printed := printed st ++
       [String Py.newline "Cleanup complete. Removed " +:+
          Py.str_of_nat (count st) +:+ " items total."] |}.

End CleanupTempFiles.

(* ================================================================== *)
(** ** [.to_delete_removed/final_batch_move.py] *)
(* ================================================================== *)

Module FinalBatchMove.

(** [pathlib]: paths are kept as their strings.  The paths of the script
    are in normal form (no doubled or trailing slash, no [.] component),
    where the [/] of [pathlib] is [posixpath.join] and [name] is
    [posixpath.basename]. *)
Definition path_div (a b : string) : string := Py.join a b.

(** [PurePath.name]. *)
Definition name (p : string) : string := Py.basename p.

(** [PurePath.suffix]: [i = name.rfind('.')], and [name[i:]] when
    [0 < i < len(name) - 1]. *)
Definition suffix (p : string) : string :=
  let n := name p in
  match Py.rfind "."%char n with
  | Some i =>
      if (0 <? i) && (i <? String.length n - 1) then Py.slice_from i n
      else EmptyString
  | None => EmptyString
  end.

(** [PurePath.stem]: the name without its suffix. *)
Definition stem (p : string) : string :=
  let n := name p in
  match Py.rfind "."%char n with
  | Some i =>
      if (0 <? i) && (i <? String.length n - 1) then Py.slice_to i n
      else n
  | None => n
  end.

Definition base_path : string := "/Users/max/Development/active/fullmind".
Definition app_path : string := path_div base_path "app".
Definition consolidation_path : string :=
  path_div base_path "temp_consolidation".

Definition files_to_move : list string :=
  ["app/PHASE_3B_SERVICE_CONSOLIDATION_PLAN.md";
   "app/PHASE_3C_GROUP_1_COMPLETION_REPORT.md";
   "app/PHASE_3C_GROUP_2_COMPLETION_REPORT.md";
   "app/PHASE_3D_PERFORMANCE_VALIDATION_COMPLETE.md";
   "app/PHASE_4A_TYPE_SYSTEM_ANALYSIS_REPORT.md";
   "app/PHASE_4B_CANONICAL_CONSOLIDATION_REPORT.md";
   "app/PHASE_4B_TYPE_CONSOLIDATION_QUALITY_REVIEW.md";
   "app/PHASE_4D_TYPE_SAFETY_VALIDATION_REPORT.md";
   "app/PHASE_5C_GROUP_1_USER_STORE_CONSOLIDATION_REPORT.md";
   "app/PHASE_5C_GROUP_2_ASSESSMENT_MIGRATION_COMPLETE.md";
   "app/PHASE_5C_GROUP_2_COMPLETION_REPORT.md";
   "app/PHASE_5C_GROUP_3_CRISIS_MIGRATION_REPORT.md";
   "app/PHASE_5C_GROUP_4_COMPLETION_REPORT.md";
   "app/PHASE_5E_COMPLETION_REPORT.md";
   "app/PHASE_5E_DASHBOARD_INTEGRATION.md";
   "app/PHASE_5F_FINAL_VALIDATION_REPORT.md";
   "app/PHASE_7A_REACT_BUILD_CONSOLIDATION_COMPLETE.md";
   "app/PHASE_7A_TYPESCRIPT_BUILD_CONSOLIDATION_COMPLETE.md";
   "app/PHASE_5E_EXECUTION_REPORT.json";
   "app/PHASE_5F_STORE_INTEGRATION_REPORT.json";
   "app/PHASE_5F_VALIDATION_REPORT.json";
   "app/.phase-3c-group-1-success.json";
   "app/payment_consolidation_validation_report.json";
   "app/GROUP_4_MIGRATION_VALIDATION_REPORT.json";
   "app/GROUP_4_INTEGRATION_TEST_REPORT.json";
   "app/clinical-pattern-validation-report.json";
   "app/clinical-performance-validation.json";
   "app/crisis-performance-report-phase-1-group-c-activation.json";
   "app/performance-baseline-report.json";
   "app/phase-3c-group-1-validation-report.json";
   "app/phase-3d-integration-report.json";
   "app/phase-3d-performance-validation-report.json";
   "app/react-native-build-consolidation-report.json";
   "app/typescript-build-report.json";
   "app/PHASE_5F_CLINICAL_ACCURACY_VALIDATION.js";
   "app/PHASE_5F_STORE_INTEGRATION_TEST.js";
   "app/cleanup-performance-monitor.js";
   "app/clinical-performance-validation.js";
   "app/crisis-performance-monitor.js";
   "app/execute-crisis-clinical-migration.js";
   "app/migrate-sync-imports.js";
   "app/migrate-sync-types-canonical.js";
   "app/performance-baseline-measurement.js";
   "app/performance-checkpoint-system.js";
   "app/phase-3c-group-1-health-check.js";
   "app/phase-3d-integration-test.js";
   "app/phase-3d-performance-validation.js";
   "app/update-payment-imports.js";
   "app/validate-clinical-pattern.js";
   "app/validate-phase-2c-implementation.js";
   "app/validate-sync-consolidation.js";
   "app/validate_payment_consolidation.js";
   "app/performance-validation-focused.js";
   "app/performance-validation-phase5f.js";
   "app/test-group-4-integration.js";
   "app/validate-architecture-setup.js";
   "app/validate-group-4-migration.js";
   "app/verify-architecture.js";
   "app/verify-react.js";
   "app/execute-phase-5c-group-1-user-consolidation.js";
   "app/execute-phase-5e-parallel-run.js";
   "app/crisis-migration-final-validation.js";
   "app/crisis-rollback-test.js";
   "app/debug_crisis_detection.js";
   "app/cleanup_payment_services_phase3c.sh";
   "app/cleanup_payment_services_phase3c.log";
   "app/build-ios-simulator.sh";
   "app/SERVICE_CONSOLIDATION_ARCHITECTURE.md";
   "app/STATE_AGENT_COORDINATION_BRIEF.md";
   "app/SYNC_TYPES_CANONICAL_MIGRATION_REPORT.md";
   "app/comprehensive-performance-baseline-report.md";
   "cleanup_temp_files.py";
   "batch_cleanup.sh"].

(** The tree: the paths that exist, each with what is stored there. *)
Abbreviation tree := (gmap string string).

(** [Path.exists]. *)
Definition exists_ (t : tree) (p : string) : bool :=
  bool_decide (is_Some (t !! p)).

(** How a call of [shutil.move] can end: the file is moved; or the call
    raises with the tree untouched; or it raises after the copy (the
    source could not be removed, across file systems). *)
Inductive move_end : Type :=
| Moved
| RaisedUntouched (e : string)
| RaisedAfterCopy (e : string).

(** The system decides how a move ends. *)
Class MoveFaults : Type :=
  move_end_of : tree -> string -> string -> move_end.

(** [shutil.move(src, dst)] for a source that exists and a destination
    that does not: the tree after the call and the exception, if any. *)
Definition shutil_move `{MoveFaults} (t : tree) (src dst : string)
  : tree * option string :=
  match t !! src with
  | Some content =>
      match move_end_of t src dst with
      | Moved => (<[dst := content]> (delete src t), None)
      | RaisedUntouched e => (t, Some e)
      | RaisedAfterCopy e => (<[dst := content]> t, Some e)
      end
  | None => (t, Some "No such file or directory")
  end.

(** The candidate with a counter: [consolidation_path / f"{stem}_{counter}{suffix}"]. *)
Definition numbered (file_path : string) (counter : nat) : string :=
  path_div consolidation_path
    (stem file_path +:+ "_" +:+ Py.str_of_nat counter +:+ suffix file_path).

(** The [while dest_path.exists()] loop, for at most [fuel] rounds;
    [None] when the rounds run out. *)
Fixpoint free_dest (fuel : nat) (t : tree) (file_path dest_path : string)
    (counter : nat) : option string :=
  match fuel with
  | 0 => None
  | S fuel' =>
      if exists_ t dest_path then
        free_dest fuel' t file_path (numbered file_path counter) (S counter)
      else Some dest_path
  end.

(** The state of the script: the tree, [moved_count] and the lines
    printed. *)
Record state : Type := {
  fs : tree;
  moved_count : nat;
  printed : list string
}.

(** One round of the loop over [files_to_move]; [None] if the inner
    [while] loop did not end within [size fs + 2] rounds (one round per
    path that exists, one for the plain name, one for the free name). *)
Definition move_file `{MoveFaults} (st : state) (file_rel_path : string)
  : option state :=
  let file_path := path_div base_path file_rel_path in
  if exists_ (fs st) file_path then
    let dest_path := path_div consolidation_path (name file_path) in
    match free_dest (size (fs st) + 2) (fs st) file_path dest_path 1 with
    | Some dest_path =>
        match shutil_move (fs st) file_path dest_path with
        | (t', None) =>
            Some {| fs := t'; moved_count := moved_count st + 1;
                    printed := printed st ++
                      ["Moved: " +:+ file_rel_path +:+ " -> " +:+
                         name dest_path] |}
        | (t', Some e) =>
            Some {| fs := t'; moved_count := moved_count st;
                    printed := printed st ++
                      ["Error moving " +:+ file_path +:+ ": " +:+ e] |}
        end
    | None => None
    end
  else Some st.

(** The loop over a list of relative paths. *)
Fixpoint move_files `{MoveFaults} (st : state) (files : list string)
  : option state :=
  match files with
  | [] => Some st
  | file_rel_path :: rest =>
      match move_file st file_rel_path with
      | Some st' => move_files st' rest
      | None => None
      end
  end.

(** The whole script. *)
Definition script `{MoveFaults} (t : tree) : option state :=
  match move_files
          {| fs := t; moved_count := 0;
             printed := ["Moving cleanup files to consolidation directory..."] |}
          files_to_move with
  | Some st =>
      Some {| fs := fs st; moved_count := moved_count st;
              printed := printed st ++
                [String Py.newline "Moved " +:+ Py.str_of_nat (moved_count st)
                   +:+ " files to consolidation directory.";
                 "Next step: Remove the entire /temp_consolidation directory."] |}
  | None => None
  end.

End FinalBatchMove.

(* ================================================================== *)
(** ** Small trees and worlds to run the scripts on *)
(* ================================================================== *)

Module Demo.

(** [src/] with [z.ts], [index.ts], [App.tsx], [api.test.ts] and
    [README.md], and the directories [services/] and [a/]. *)
Definition src_tree : OsWalk.tree :=
  OsWalk.Dir
    (OsWalk.SubDir "services"
       (OsWalk.Dir OsWalk.NoDirs
          ["Orphan.ts"; "Used.ts"; "SetupGuide.ts"; "CleanRootNavigator.tsx"])
       (OsWalk.SubDir "a" (OsWalk.Dir OsWalk.NoDirs ["b.ts"])
          OsWalk.NoDirs))
    ["z.ts"; "index.ts"; "App.tsx"; "api.test.ts"; "README.md"].

(** A search that finds nothing: exit status 1 and no output. *)
Definition no_match : Proc.World unit :=
  Proc.always (Proc.Completed 1 EmptyString).

(** A search that always times out. *)
Definition timing_out : Proc.World unit :=
  Proc.always (Proc.Raised Proc.TimeoutExpired).

(** A search whose output is the same two lines for every call. *)
Definition two_files : Proc.World unit :=
  Proc.always
    (Proc.Completed 0 (Py.unlines ["src/App.ts"; "src/services/Used.ts"])).

(** A file system that is the set of the paths that exist: removing
    deletes the path, except that a path with [readonly] in it cannot be
    removed. *)
Definition set_fs : CleanupTempFiles.FileSystem (gset string) := {|
  CleanupTempFiles.path_exists t p := bool_decide (p ∈ t);
  CleanupTempFiles.os_remove t p :=
    if Py.str_in "readonly" p then (t, Some "Permission denied")
    else (t ∖ {[p]}, None);
  CleanupTempFiles.shutil_rmtree t p :=
    if Py.str_in "readonly" p then (t, Some "Permission denied")
    else (t ∖ {[p]}, None)
|}.

(** Moves that always succeed. *)
Definition no_faults : FinalBatchMove.MoveFaults :=
  fun _ _ _ => FinalBatchMove.Moved.

(** A consolidation directory that already holds [notes.md] and
    [notes_1.md], and a new [app/notes.md] to move there. *)
Definition crowded : FinalBatchMove.tree :=
  list_to_map
    [("/Users/max/Development/active/fullmind/app/notes.md", "new notes");
     ("/Users/max/Development/active/fullmind/temp_consolidation/notes.md",
      "old notes");
     ("/Users/max/Development/active/fullmind/temp_consolidation/notes_1.md",
      "older notes")].

Definition crowded_start : FinalBatchMove.state :=
  {| FinalBatchMove.fs := crowded;
     FinalBatchMove.moved_count := 0;
     FinalBatchMove.printed := [] |}.

End Demo.

(* ================================================================== *)
(** ** Views of a run of the detectors *)
(* ================================================================== *)

Module Runs.

(** The source files of one directory that a filter keeps, as paths, in
    the order of the directory listing. *)
Definition kept_of (keep : string -> bool) (root : string)
    (filenames : list string) : list string :=
  filter (fun p => keep p)
    (Py.join root <$>
       filter (fun f => Py.endswith_any f [".ts"; ".tsx"]) filenames).

(** The answer [search_for_import] gives for each file of a scan of the
    boolean variant, in order. *)
Fixpoint verdicts {W} `{Proc.World W} (w : W) (files : list string)
  : list (string * bool) :=
  match files with
  | [] => []
  | filepath :: rest =>
      let (w', is_used) :=
        FindTrulyUnused.search_for_import w
          (FindTrulyUnused.filename_base filepath) filepath in
      (filepath, is_used) :: verdicts w' rest
  end.

(** How many of the calls with outcomes [outs] the pattern loop makes:
    up to and with the first that settles the answer. *)
Fixpoint calls_made (file_path : string) (outs : list Proc.outcome) : nat :=
  match outs with
  | [] => 0
  | o :: rest =>
      if FindTrulyUnused.settles file_path o then 1
      else S (calls_made file_path rest)
  end.

(** All the files a report lists, category after category. *)
Definition listed (d : Report.dict) : list string := concat (map snd d).

(** What one round of a scan does to the report, given the file and
    whether it was judged unused. *)
Definition file_under (categorize : string -> string) (d : Report.dict)
    (c : string * bool) : Report.dict :=
  if snd c then Report.append (categorize (fst c)) (fst c) d else d.

(** The printing loop of both variants, for a given pair of header
    lines: the lines printed and the running total. *)
Definition print_loop (header : string -> list string -> list string)
    (d : Report.dict) (start : list string * nat) : list string * nat :=
  fold_left
    (fun '(out, total) '(category, files) =>
       match files with
       | [] => (out, total)
       | _ =>
           (out ++ header category files ++ map (fun f => "  " +:+ f) files,
            total + length files)
       end)
    d start.

End Runs.

(* ================================================================== *)
(** ** What the cleanup script expects of the file system *)
(* ================================================================== *)

Module RemovalLaws.
Import CleanupTempFiles.

(** A removal that returns has removed its path, and no removal, however
    it ends, brings a path into existence. *)
Record lawful {FS : Type} `{FileSystem FS} : Prop := {
  remove_removes : forall t p t',
    os_remove t p = (t', None) -> path_exists t' p = false;
  rmtree_removes : forall t p t',
    shutil_rmtree t p = (t', None) -> path_exists t' p = false;
  remove_creates_nothing : forall t p q,
    path_exists (fst (os_remove t p)) q = true -> path_exists t q = true;
  rmtree_creates_nothing : forall t p q,
    path_exists (fst (shutil_rmtree t p)) q = true -> path_exists t q = true
}.
Arguments lawful FS {_}.

(** The line a path gets in the first loop, and in the second. *)
Definition file_line (p line : string) : Prop :=
  line = "Removed file: " +:+ p \/ line = "File not found: " +:+ p \/
  exists e, line = "Error removing file " +:+ p +:+ ": " +:+ e.

Definition dir_line (p line : string) : Prop :=
  line = "Removed directory: " +:+ p \/
  line = "Directory not found: " +:+ p \/
  exists e, line = "Error removing directory " +:+ p +:+ ": " +:+ e.

(** What is true of a path once its turn is over: it is absent, or the
    error of a removal was printed. *)
Definition settled {FS : Type} `{FileSystem FS} (st : state FS)
    (p : string) : Prop :=
  path_exists (fs st) p = false \/
  exists line, line ∈ printed st /\
               Py.startswith line "Error removing" = true.

End RemovalLaws.

(* ================================================================== *)
(** ** What becomes of the paths the cleanup script lists *)
(* ================================================================== *)

Module Attempts.
Import CleanupTempFiles.

(** What becomes of one listed path: it was not there, it was removed,
    or its removal raised. *)
Inductive outcome : Type :=
| NotFound
| Removed
| Failed (e : string).

(** One path, as the file system answers: it is removed if it is
    there.  With the outcome, the tree after it. *)
Definition attempt {FS} `{FileSystem FS}
    (remove : FS -> string -> FS * option string) (t : FS) (p : string)
  : outcome * FS :=
  if path_exists t p then
    match remove t p with
    | (t', None) => (Removed, t')
    | (t', Some e) => (Failed e, t')
    end
  else (NotFound, t).

(** The paths of a list in turn, each on the tree that the paths before
    it have left. *)
Fixpoint outcomes {FS} `{FileSystem FS}
    (remove : FS -> string -> FS * option string) (t : FS)
    (paths : list string) : list outcome * FS :=
  match paths with
  | [] => ([], t)
  | p :: rest =>
      let (o, t') := attempt remove t p in
      let (os, t'') := outcomes remove t' rest in
      (o :: os, t'')
  end.

Definition is_removed (o : outcome) : bool :=
  match o with
  | Removed => true
  | _ => false
  end.

(** The number of removals that succeeded. *)
Definition successes (os : list outcome) : nat :=
  length (filter (fun o => is_removed o) os).

(** The line that tells the outcome of a file, and of a directory. *)
Definition file_report (p : string) (o : outcome) : string :=
  match o with
  | NotFound => "File not found: " +:+ p
  | Removed => "Removed file: " +:+ p
  | Failed e => "Error removing file " +:+ p +:+ ": " +:+ e
  end.

Definition dir_report (p : string) (o : outcome) : string :=
  match o with
  | NotFound => "Directory not found: " +:+ p
  | Removed => "Removed directory: " +:+ p
  | Failed e => "Error removing directory " +:+ p +:+ ": " +:+ e
  end.

End Attempts.

(* ================================================================== *)
(** ** Views of a run of the file mover *)
(* ================================================================== *)

Module Moves.

(** What the files of a tree hold, path by path. *)
Definition contents (t : gmap string string) : list string :=
  (map_to_list t).*2.


(** [q] is an entry of the directory [dir] itself. *)
Definition directly_inside (dir q : string) : Prop :=
  exists n, q = dir +:+ "/" +:+ n /\ Py.str_in "/" n = false.

(** No move ends with an exception after the copy. *)
Definition copy_free `{FinalBatchMove.MoveFaults} : Prop :=
  forall t src dst e,
    FinalBatchMove.move_end_of t src dst <> FinalBatchMove.RaisedAfterCopy e.

(** How one round of the loop of the mover ends: the source is missing
    and nothing happens; or the file is moved to a free entry of the
    consolidation directory; or the move raised, with the tree untouched
    or with the copy made. *)
Inductive round `{FinalBatchMove.MoveFaults} (st : FinalBatchMove.state)
    (file_rel_path : string) : FinalBatchMove.state -> Prop :=
| round_skipped :
    FinalBatchMove.fs st !!
      FinalBatchMove.path_div FinalBatchMove.base_path file_rel_path = None ->
    round st file_rel_path st
| round_moved content dest :
    FinalBatchMove.fs st !!
      FinalBatchMove.path_div FinalBatchMove.base_path file_rel_path
      = Some content ->
    FinalBatchMove.fs st !! dest = None ->
    directly_inside FinalBatchMove.consolidation_path dest ->
    round st file_rel_path
      {| FinalBatchMove.fs :=
           <[dest := content]>
             (delete (FinalBatchMove.path_div FinalBatchMove.base_path
                        file_rel_path) (FinalBatchMove.fs st));
         FinalBatchMove.moved_count := FinalBatchMove.moved_count st + 1;
         FinalBatchMove.printed := FinalBatchMove.printed st ++
           ["Moved: " +:+ file_rel_path +:+ " -> " +:+
              FinalBatchMove.name dest] |}
| round_failed content dest e t' :
    FinalBatchMove.fs st !!
      FinalBatchMove.path_div FinalBatchMove.base_path file_rel_path
      = Some content ->
    FinalBatchMove.fs st !! dest = None ->
    directly_inside FinalBatchMove.consolidation_path dest ->
    t' = FinalBatchMove.fs st \/
    t' = <[dest := content]> (FinalBatchMove.fs st) ->
    (copy_free -> t' = FinalBatchMove.fs st) ->
    round st file_rel_path
      {| FinalBatchMove.fs := t';
         FinalBatchMove.moved_count := FinalBatchMove.moved_count st;
         FinalBatchMove.printed := FinalBatchMove.printed st ++
           ["Error moving " +:+
              FinalBatchMove.path_div FinalBatchMove.base_path file_rel_path
              +:+ ": " +:+ e] |}.

End Moves.


(* ================================================================== *)
(** ** src/temp_consolidation_removed/phase8b_cleanup.py *)
(* ================================================================== *)

Module Phase8bCleanup.

(** [base_dir]; paths are kept as their strings, [/] is that of
    [pathlib]. *)
Definition base_dir : string := "/Users/max/Development/active/fullmind".

(** The paths that [main] names. *)
Definition temp_consolidation : string :=
  FinalBatchMove.path_div base_dir "temp_consolidation".

Definition to_delete : string := FinalBatchMove.path_div base_dir ".to_delete".

Definition app_dir : string := FinalBatchMove.path_div base_dir "app".

Definition test_results_dir : string :=
  FinalBatchMove.path_div (FinalBatchMove.path_div base_dir "app")
    "test-results".

Definition cleanup_script : string :=
  FinalBatchMove.path_div base_dir "cleanup_script.sh".

(** The [report] dictionary of [main], with its six keys. *)
Record report : Type := {
  phase : string;
  description : string;
  artifacts_removed : nat;
  directories_removed : list string;
  core_test_infrastructure_preserved : bool;
  timestamp : string
}.

(** The answer of a call that the script guards with a [try]: a boolean,
    or an exception. *)
Inductive checked : Type :=
| Holds (b : bool)
| Raised (e : string).

(** The file system as the script uses it.  [Path.exists] and
    [Path.is_dir] are called outside any [try] and are taken to return;
    [Path.is_file] is called inside one.  [Path.glob] gives the matches of
    a pattern below a directory as they are when the loop starts, in the
    order the system lists them.  [Path.unlink], [shutil.rmtree] and
    writing the report with [json.dump] give the tree after the call and
    the exception, if one was raised. *)
Class FileSystem (FS : Type) : Type := {
  path_exists : FS -> string -> bool;
  is_dir : FS -> string -> bool;
  is_file : FS -> string -> checked;
  glob : FS -> string -> string -> list string;
  unlink : FS -> string -> FS * option string;
  shutil_rmtree : FS -> string -> FS * option string;
  json_dump : FS -> string -> report -> FS * option string
}.

(** The state of the script: the tree and the lines printed. *)
Record state (FS : Type) : Type := {
  fs : FS;
  printed : list string
}.
Arguments fs {FS} _.
Arguments printed {FS} _.

(** [print(line)]. *)
Definition print {FS} (st : state FS) (line : string) : state FS :=
  {| fs := fs st; printed := printed st ++ [line] |}.

(** [remove_directory_safely(dir_path)]. *)
Definition remove_directory_safely {FS} `{FileSystem FS} (st : state FS)
    (dir_path : string) : state FS * bool :=
  if path_exists (fs st) dir_path && is_dir (fs st) dir_path then
    match shutil_rmtree (fs st) dir_path with
    | (fs', None) =>
        ({| fs := fs';
            printed := printed st ++ ["✓ Removed directory: " +:+ dir_path] |},
         true)
    | (fs', Some e) =>
        ({| fs := fs';
            printed := printed st ++
              ["✗ Failed to remove " +:+ dir_path +:+ ": " +:+ e] |},
         false)
    end
  else (st, false).

(** The body of the inner loop of [remove_files_pattern], on the state
    and [removed_count]. *)
Definition remove_match {FS} `{FileSystem FS} (acc : state FS * nat)
    (file_path : string) : state FS * nat :=
  let (st, removed_count) := acc in
  match is_file (fs st) file_path with
  | Holds true =>
      match unlink (fs st) file_path with
      | (fs', None) =>
          ({| fs := fs';
              printed := printed st ++ ["✓ Removed file: " +:+ file_path] |},
           removed_count + 1)
      | (fs', Some e) =>
          ({| fs := fs';
              printed := printed st ++
                ["✗ Failed to remove " +:+ file_path +:+ ": " +:+ e] |},
           removed_count)
      end
  | Holds false => (st, removed_count)
  | Raised e =>
      (print st ("✗ Failed to remove " +:+ file_path +:+ ": " +:+ e),
       removed_count)
  end.

(** The body of the outer loop: the matches of one pattern. *)
Definition remove_pattern {FS} `{FileSystem FS} (base_path : string)
    (acc : state FS * nat) (pattern : string) : state FS * nat :=
  fold_left remove_match (glob (fs (fst acc)) base_path pattern) acc.

(** [remove_files_pattern(base_path, patterns)]. *)
Definition remove_files_pattern {FS} `{FileSystem FS} (st : state FS)
    (base_path : string) (patterns : list string) : state FS * nat :=
  fold_left (remove_pattern base_path) patterns (st, 0).

Definition phase_patterns : list string :=
  ["PHASE_*.md"; "PHASE_*.json"; "*-report*.json"; "*-validation*.json";
   "*performance*.json"].

Definition backup_patterns : list string := ["docs_backup_*.tar.gz"].

Definition cleanup_test_patterns : list string :=
  ["*cleanup*"; "*migration*"; "*phase*"; "*validation*"; "*performance*"].

(** Step 6 of [main]: the cleanup script. *)
Definition remove_cleanup_script {FS} `{FileSystem FS} (st : state FS)
    (artifacts_removed : nat) : state FS * nat :=
  if path_exists (fs st) cleanup_script then
    match unlink (fs st) cleanup_script with
    | (fs', None) =>
        ({| fs := fs';
            printed := printed st ++
              ["✓ Removed cleanup script: " +:+ cleanup_script] |},
         artifacts_removed + 1)
    | (fs', Some e) =>
        ({| fs := fs';
            printed := printed st ++
              ["✗ Failed to remove cleanup script: " +:+ e] |},
         artifacts_removed)
    end
  else (st, artifacts_removed).

(** [main] up to its closing lines: the state and [artifacts_removed]
    before the report is made. *)
Definition cleaning {FS} `{FileSystem FS} (t : FS) : state FS * nat :=
  let st := {| fs := t; printed := [] |} in
  let st := print st
    "Phase 8B: Cleaning remaining test artifacts and consolidated cleanup files" in
  let st := print st (Py.repeat_char "=" 70) in
  let artifacts_removed := 0 in
  let st := print st
    (String Py.newline "1. Removing temp_consolidation directory...") in
  let (st, removed) := remove_directory_safely st temp_consolidation in
  let artifacts_removed :=
    if removed then artifacts_removed + 1 else artifacts_removed in
  let st := print st
    (String Py.newline "2. Removing .to_delete directory...") in
  let (st, removed) := remove_directory_safely st to_delete in
  let artifacts_removed :=
    if removed then artifacts_removed + 1 else artifacts_removed in
  let st := print st
    (String Py.newline "3. Removing remaining PHASE_* files...") in
  let (st, removed_count) := remove_files_pattern st app_dir phase_patterns in
  let artifacts_removed := artifacts_removed + removed_count in
  let st := print st
    (String Py.newline "4. Removing docs backup files...") in
  let (st, removed_count) :=
    remove_files_pattern st base_dir backup_patterns in
  let artifacts_removed := artifacts_removed + removed_count in
  let st := print st
    (String Py.newline
       "5. Cleaning test-results directory (preserving core tests)...") in
  let (st, artifacts_removed) :=
    if path_exists (fs st) test_results_dir then
      let (st, removed_count) :=
        remove_files_pattern st test_results_dir cleanup_test_patterns in
      (st, artifacts_removed + removed_count)
    else (st, artifacts_removed) in
  let (st, artifacts_removed) := remove_cleanup_script st artifacts_removed in
  let st := print st (String Py.newline (Py.repeat_char "=" 70)) in
  let st := print st
    ("Phase 8B Complete: " +:+ Py.str_of_nat artifacts_removed +:+
     " artifacts removed") in
  let st := print st "Core test infrastructure preserved" in
  (st, artifacts_removed).

(** The [report] that [main] makes. *)
Definition completion_report (artifacts_removed : nat) : report :=
  {| phase := "8B";
     description :=
       "Clean remaining test artifacts and consolidated cleanup files";
     artifacts_removed := artifacts_removed;
     directories_removed := ["temp_consolidation"; ".to_delete"];
     core_test_infrastructure_preserved := true;
     timestamp := "2025-09-25" |}.

Definition report_path : string :=
  FinalBatchMove.path_div base_dir "PHASE_8B_COMPLETION_REPORT.json".

(** [main()]: the state at the end, and the value returned or, when
    writing the report raised, the exception that leaves [main]. *)
Definition main {FS} `{FileSystem FS} (t : FS) : state FS * (nat + string) :=
  let (st, artifacts_removed) := cleaning t in
  match json_dump (fs st) report_path (completion_report artifacts_removed) with
  | (fs', None) =>
      ({| fs := fs';
          printed := printed st ++
            ["✓ Completion report saved: " +:+ report_path] |},
       inl artifacts_removed)
  | (fs', Some e) => ({| fs := fs'; printed := printed st |}, inr e)
  end.

(** The number of printed lines that report a removal. *)
Definition removed_marks (lines : list string) : nat :=
  length (filter (fun line => Py.startswith line "✓ Removed") lines).

(** The lines of [new] that report the removal of a file are those of
    the paths [removed], in this order. *)
Definition reports_files (new removed : list string) : Prop :=
  filter (fun line => Py.startswith line "✓ Removed file: ") new =
  map (fun p => "✓ Removed file: " +:+ p) removed.

(** The state of the loops of [remove_files_pattern] that started in
    [st0] with a count [n0]: the files reported as removed so far are
    pairwise different, as many as the count has grown by, were files at
    the start and are none now; and what is a file now was one at the
    start. *)
Definition once {FS} `{FileSystem FS} (st0 : state FS) (n0 : nat)
    (acc : state FS * nat) : Prop :=
  exists new removed,
    printed (fst acc) = printed st0 ++ new /\
    reports_files new removed /\
    NoDup removed /\
    snd acc = n0 + length removed /\
    (forall p, p ∈ removed ->
       is_file (fs st0) p = Holds true /\
       is_file (fs (fst acc)) p <> Holds true) /\
    (forall q, is_file (fs (fst acc)) q = Holds true ->
               is_file (fs st0) q = Holds true).

(** What is expected of a file system: a file that was unlinked is no
    file any more, and unlinking makes no file. *)
Record lawful {FS : Type} `{FileSystem FS} : Prop := {
  unlink_removes : forall t p t',
    unlink t p = (t', None) -> is_file t' p <> Holds true;
  unlink_creates_nothing : forall t p q,
    is_file (fst (unlink t p)) q = Holds true -> is_file t q = Holds true
}.
Arguments lawful FS {_}.

End Phase8bCleanup.

(* ================================================================== *)
(** ** A small disk to run the phase 8B script on *)
(* ================================================================== *)

Module Disk.

(** [fnmatch] for patterns whose only wildcard is [*]. *)
Fixpoint wildcard_match (pattern : string) (s : string) {struct pattern}
  : bool :=
  match pattern with
  | EmptyString => match s with EmptyString => true | _ => false end
  | String c pattern' =>
      if Ascii.eqb c "*" then
        (fix from (s : string) : bool :=
           wildcard_match pattern' s ||
           match s with
           | EmptyString => false
           | String _ s' => from s'
           end) s
      else
        match s with
        | String d s' => Ascii.eqb c d && wildcard_match pattern' s'
        | EmptyString => false
        end
  end.

(** The name of [p] when [p] is an entry of the directory [base]. *)
Definition entry_of (base p : string) : option string :=
  if Py.startswith p (base +:+ "/") then
    let n := Py.slice_from (String.length base + 1) p in
    if Py.str_in "/" n then None else Some n
  else None.

(** [q] is [p] or a path below it. *)
Definition below (p q : string) : bool :=
  String.eqb q p || Py.startswith q (p +:+ "/").

(** [p] is an entry of [base] whose name matches [pattern]. *)
Definition entry_matches (base pattern p : string) : bool :=
  match entry_of base p with
  | Some n => wildcard_match pattern n
  | None => false
  end.

(** A disk maps each path that exists to [true] for a directory and
    [false] for a file.  A path with [readonly] in it cannot be removed;
    removing a directory removes what is below it. *)
Definition disk_fs : Phase8bCleanup.FileSystem (gmap string bool) := {|
  Phase8bCleanup.path_exists t p := bool_decide (is_Some (t !! p));
  Phase8bCleanup.is_dir t p := bool_decide (t !! p = Some true);
  Phase8bCleanup.is_file t p :=
    Phase8bCleanup.Holds (bool_decide (t !! p = Some false));
  Phase8bCleanup.glob t base pattern :=
    filter (fun p => entry_matches base pattern p) (map_to_list t).*1;
  Phase8bCleanup.unlink t p :=
    if Py.str_in "readonly" p then (t, Some "Permission denied")
    else (delete p t, None);
  Phase8bCleanup.shutil_rmtree t p :=
    if Py.str_in "readonly" p then (t, Some "Permission denied")
    else (filter (fun kv => below p (fst kv) = false) t, None);
  Phase8bCleanup.json_dump t p r := (<[p := false]> t, None)
|}.

(** The consolidation directory with one file, a report that two of the
    patterns of step 3 match, a source file, and the cleanup script. *)
Definition leftovers : gmap string bool :=
  list_to_map
    [("/Users/max/Development/active/fullmind/temp_consolidation", true);
     ("/Users/max/Development/active/fullmind/temp_consolidation/notes.md",
      false);
     ("/Users/max/Development/active/fullmind/app", true);
     ("/Users/max/Development/active/fullmind/app/PHASE_7-report.json", false);
     ("/Users/max/Development/active/fullmind/app/App.tsx", false);
     ("/Users/max/Development/active/fullmind/cleanup_script.sh", false)].

End Disk.

(* ================================================================== *)
(** * Tactics *)
(* ================================================================== *)

(** Closed, decidable goals on concrete data, settled by evaluation. *)
Ltac by_eval := apply (bool_decide_unpack _); vm_compute; exact I.


(** Evaluate a [startswith] whose argument begins with a literal. *)
Ltac eval_startswith :=
  match goal with
  | |- context [Py.startswith ?a ?b] =>
      let v := eval vm_compute in (Py.startswith a b) in
      change (Py.startswith a b) with v
  end.

(* ================================================================== *)
(** * The Python helpers on examples *)
(* ================================================================== *)

Example str_in_finds_substring :
  Py.str_in "index.ts" "src/a/index.tsx" = true.
Proof. reflexivity. Qed.

Example strip_both_ends :
  Py.strip (String Py.newline "  a b " +:+ String Py.newline "") = "a b".
Proof. reflexivity. Qed.

Example strip_unicode_space :
  Py.strip (Py.unlines ["src/a.ts";
                        String (ascii_of_nat 194)
                          (String (ascii_of_nat 160) EmptyString)])
  = "src/a.ts".
Proof. reflexivity. Qed.

Example split_keeps_empty_parts :
  Py.split "/"%char "a//b/" = ["a"; ""; "b"; ""].
Proof. reflexivity. Qed.

Example basename_of_path :
  Py.basename "src/a/b.test.ts" = "b.test.ts".
Proof. reflexivity. Qed.

Example splitext_last_dot :
  Py.splitext "b.test.ts" = ("b.test", ".ts").
Proof. reflexivity. Qed.

Example splitext_leading_dot :
  Py.splitext ".bashrc" = (".bashrc", "").
Proof. reflexivity. Qed.

Example splitext_leading_dots :
  Py.splitext "..a.b" = ("..a", ".b").
Proof. reflexivity. Qed.

Example join_adds_separator :
  Py.join "src" "a.ts" = "src/a.ts".
Proof. reflexivity. Qed.

Example str_of_nat_decimal :
  Py.str_of_nat 120 = "120".
Proof. reflexivity. Qed.

Example upper_ascii_letters :
  Py.upper "other_x" = "OTHER_X".
Proof. reflexivity. Qed.

Example sorted_by_code_point :
  Py.sorted ["src/z.ts"; "src/a/b.ts"; "src/Z.ts"] = ["src/Z.ts"; "src/a/b.ts"; "src/z.ts"].
Proof. vm_compute. reflexivity. Qed.

Example endswith_any_suffix :
  Py.endswith_any "a.tsx" [".ts"; ".tsx"] = true.
Proof. reflexivity. Qed.

Example splitext_dot_after_separator :
  Py.splitext "a/.b" = ("a/.b", "").
Proof. reflexivity. Qed.

Example splitext_dot_before_separator :
  Py.splitext "a.b/c" = ("a.b/c", "").
Proof. reflexivity. Qed.

(* ================================================================== *)
(** * Facts about the Python helpers *)
(* ================================================================== *)

Section PyFacts.
Import Py.

Lemma string_app_cons (c : ascii) (s t : string) :
  String c s +:+ t = String c (s +:+ t).
Proof. reflexivity. Qed.

Lemma string_app_empty_l (s : string) : EmptyString +:+ s = s.
Proof. reflexivity. Qed.

Lemma prefix_true_iff (p s : string) :
  String.prefix p s = true <-> exists post, s = p +:+ post.
Proof.
  revert p; induction s as [|d s IH]; intros [|c p]; simpl.
  - split; eauto.
  - split; [discriminate | intros [post Hp]; discriminate].
  - split; eauto.
  - destruct (Ascii.ascii_dec c d) as [->|Hne].
    + rewrite IH. split; intros [post Hp]; exists post;
        rewrite string_app_cons in *; congruence.
    + split; [discriminate|].
      intros [post Hp]; rewrite string_app_cons in Hp; congruence.
Qed.



Lemma str_in_true_iff (n h : string) :
  str_in n h = true <-> occurs_in n h.
Proof.
  unfold occurs_in. induction h as [|c h IH].
  - change (str_in n EmptyString) with (String.prefix n EmptyString || false).
    rewrite orb_false_r, prefix_true_iff. split.
    + intros [post Hp]. exists EmptyString, post. exact Hp.
    + intros [[|a pre] [post Hp]]; [eauto | discriminate].
  - change (str_in n (String c h))
      with (String.prefix n (String c h) || str_in n h).
    rewrite orb_true_iff, prefix_true_iff, IH. split.
    + intros [[post Hp] | (pre & post & Hp)].
      * exists EmptyString, post. exact Hp.
      * exists (String c pre), post. rewrite string_app_cons. congruence.
    + intros [[|a pre] [post Hp]].
      * left; eauto.
      * right. exists pre, post. rewrite string_app_cons in Hp. congruence.
Qed.

Lemma str_in_false_iff (n h : string) :
  str_in n h = false <-> ~ occurs_in n h.
Proof.
  rewrite <- str_in_true_iff. destruct (str_in n h); split; intros; congruence.
Qed.

(** [sorted] gives the ascending rearrangement of its argument. *)
Lemma sorted_StronglySorted (l : list string) :
  StronglySorted String.le (sorted l).
Proof. apply StronglySorted_merge_sort; apply _. Qed.

Lemma sorted_Permutation (l : list string) : sorted l ≡ₚ l.
Proof. apply merge_sort_Permutation. Qed.

Lemma elem_of_sorted (x : string) (l : list string) :
  x ∈ sorted l <-> x ∈ l.
Proof. now rewrite sorted_Permutation. Qed.

End PyFacts.

(* ================================================================== *)
(** * Line-oriented output: [strip] and [split] on [unlines] *)
(* ================================================================== *)

Section Lines.
Import Py.















End Lines.

(* ================================================================== *)
(** * The tree walkers *)
(* ================================================================== *)

Section Walkers.
Import Py.

Lemma should_check_from_true (patterns : list string) (filepath : string) :
  FindUnused.should_check_from patterns filepath = true <->
  forall pattern, pattern ∈ patterns -> ~ occurs_in pattern filepath.
Proof.
  induction patterns as [|q patterns IH]; simpl.
  - split; [intros _ pattern Hin; inversion Hin | reflexivity].
  - destruct (str_in q filepath) eqn:Hq.
    + split; [discriminate|]. intros Hall.
      destruct (Hall q); [left | now apply str_in_true_iff].
    + rewrite IH. apply str_in_false_iff in Hq. split.
      * intros Hall pattern [->|Hin]%elem_of_cons; auto.
      * intros Hall pattern Hin. apply Hall. now right.
Qed.

(** The files the threshold walker keeps from one directory. *)
Lemma elem_of_collect_dir (root : string) (files filenames : list string)
    (p : string) :
  p ∈ FindUnused.collect_dir root files filenames <->
  p ∈ files \/
  exists filename, filename ∈ filenames /\
    endswith_any filename [".ts"; ".tsx"] = true /\
    p = join root filename /\ FindUnused.should_check p = true.
Proof.
  unfold FindUnused.collect_dir.
  revert files; induction filenames as [|f filenames IH]; intros files;
    cbn [fold_left].
  - split; [now left | intros [?|(? & Hin & _)]; [done | inversion Hin]].
  - rewrite IH. clear IH.
    destruct (endswith_any f [".ts"; ".tsx"]) eqn:Hext;
      [destruct (FindUnused.should_check (join root f)) eqn:Hchk|].
    + rewrite elem_of_app, list_elem_of_singleton. split.
      * intros [[?| ->]|(g & Hg & ?)]; [now left| |].
        -- right. exists f. repeat split; auto. now left.
        -- right. exists g. split; [now right | done].
      * intros [?|(g & [->|Hg]%elem_of_cons & He & -> & Hc)]; auto.
        right. now exists g.
    + split.
      * intros [?|(g & Hg & ?)]; [now left|].
        right. exists g. split; [now right | done].
      * intros [?|(g & [->|Hg]%elem_of_cons & He & -> & Hc)];
          [now left | congruence |].
        right. now exists g.
    + split.
      * intros [?|(g & Hg & ?)]; [now left|].
        right. exists g. split; [now right | done].
      * intros [?|(g & [->|Hg]%elem_of_cons & He & -> & Hc)];
          [now left | congruence |].
        right. now exists g.
Qed.

Lemma elem_of_get_all_source_files (fs : option OsWalk.tree) (p : string) :
  p ∈ FindUnused.get_all_source_files fs <->
  exists root dirs filenames filename,
    (root, dirs, filenames) ∈ OsWalk.walk FindUnused.SRC_DIR fs /\
    filename ∈ filenames /\
    endswith_any filename [".ts"; ".tsx"] = true /\
    p = join root filename /\ FindUnused.should_check p = true.
Proof.
  unfold FindUnused.get_all_source_files.
  generalize (OsWalk.walk FindUnused.SRC_DIR fs) as triples.
  enough (forall (triples : list (string * list string * list string)) files,
    p ∈ fold_left (fun files '(root, _, filenames) =>
                     FindUnused.collect_dir root files filenames)
                  triples files <->
    p ∈ files \/
    exists root dirs filenames filename,
      (root, dirs, filenames) ∈ triples /\ filename ∈ filenames /\
      endswith_any filename [".ts"; ".tsx"] = true /\
      p = join root filename /\ FindUnused.should_check p = true) as Hgen.
  { intros triples. rewrite Hgen. split; [intros [Hin|?]; [inversion Hin|done] | now right]. }
  induction triples as [|[[root dirs] filenames] triples IH]; intros files;
    cbn [fold_left].
  - split; [now left | intros [?|(? & ? & ? & ? & Hin & _)]; [done | inversion Hin]].
  - rewrite IH, elem_of_collect_dir. clear IH. split.
    + intros [[?|(f & Hf & ?)]|(r & d & fl & f & Ht & ?)]; [now left| |].
      * right. exists root, dirs, filenames, f. split; [now left | done].
      * right. exists r, d, fl, f. split; [now right | done].
    + intros [?|(r & d & fl & f & [Heq|Ht]%elem_of_cons & ?)]; [now do 2 left| |].
      * injection Heq as -> -> ->. left; right. now exists f.
      * right. now exists r, d, fl, f.
Qed.

Lemma should_skip_false (filepath : string) :
  FindTrulyUnused.should_skip filepath = false <->
  (forall pattern, pattern ∈ FindTrulyUnused.SKIP_PATTERNS ->
     ~ occurs_in pattern filepath) /\
  basename filepath ∉ FindTrulyUnused.KNOWN_USED.
Proof.
  unfold FindTrulyUnused.should_skip, FindTrulyUnused.list_in.
  destruct (existsb _ FindTrulyUnused.SKIP_PATTERNS) eqn:Hpat.
  - split; [discriminate|]. intros [Hall _].
    apply existsb_exists in Hpat as (x & Hx%list_elem_of_In & Hin).
    destruct (Hall x Hx). now apply str_in_true_iff.
  - assert (forall pattern, pattern ∈ FindTrulyUnused.SKIP_PATTERNS ->
              ~ occurs_in pattern filepath) as Hall.
    { intros x Hx%list_elem_of_In. apply str_in_false_iff.
      destruct (str_in x filepath) eqn:Hin; [|done].
      rewrite <- Hpat. symmetry. apply existsb_exists. eauto. }
    destruct (existsb _ FindTrulyUnused.KNOWN_USED) eqn:Hk.
    + split; [discriminate|]. intros [_ Hnot]. destruct Hnot.
      apply existsb_exists in Hk as (x & Hx%list_elem_of_In & ->%String.eqb_eq).
      done.
    + split; [|done]. intros _. split; [done|].
      intros Hin%list_elem_of_In.
      assert (existsb (String.eqb (basename filepath))
                FindTrulyUnused.KNOWN_USED = true) as Ht; [|congruence].
      apply existsb_exists. exists (basename filepath).
      split; [done | apply String.eqb_refl].
Qed.

Lemma elem_of_truly_collect_dir (root : string)
    (all_files filenames : list string) (p : string) :
  p ∈ FindTrulyUnused.collect_dir root all_files filenames <->
  p ∈ all_files \/
  exists filename, filename ∈ filenames /\
    endswith_any filename [".ts"; ".tsx"] = true /\
    p = join root filename /\ FindTrulyUnused.should_skip p = false.
Proof.
  unfold FindTrulyUnused.collect_dir.
  revert all_files; induction filenames as [|f filenames IH];
    intros all_files; cbn [fold_left].
  - split; [now left | intros [?|(? & Hin & _)]; [done | inversion Hin]].
  - rewrite IH. clear IH.
    destruct (endswith_any f [".ts"; ".tsx"]) eqn:Hext;
      [destruct (FindTrulyUnused.should_skip (join root f)) eqn:Hchk|];
      cbn [negb].
    + split.
      * intros [?|(g & Hg & ?)]; [now left|].
        right. exists g. split; [now right | done].
      * intros [?|(g & [->|Hg]%elem_of_cons & He & -> & Hc)];
          [now left | congruence |].
        right. now exists g.
    + rewrite elem_of_app, list_elem_of_singleton. split.
      * intros [[?| ->]|(g & Hg & ?)]; [now left| |].
        -- right. exists f. repeat split; auto. now left.
        -- right. exists g. split; [now right | done].
      * intros [?|(g & [->|Hg]%elem_of_cons & He & -> & Hc)]; auto.
        right. now exists g.
    + split.
      * intros [?|(g & Hg & ?)]; [now left|].
        right. exists g. split; [now right | done].
      * intros [?|(g & [->|Hg]%elem_of_cons & He & -> & Hc)];
          [now left | congruence |].
        right. now exists g.
Qed.

Lemma elem_of_all_source_files (fs : option OsWalk.tree) (p : string) :
  p ∈ FindTrulyUnused.all_source_files fs <->
  exists root dirs filenames filename,
    (root, dirs, filenames) ∈ OsWalk.walk FindTrulyUnused.SRC_DIR fs /\
    filename ∈ filenames /\
    endswith_any filename [".ts"; ".tsx"] = true /\
    p = join root filename /\ FindTrulyUnused.should_skip p = false.
Proof.
  unfold FindTrulyUnused.all_source_files.
  generalize (OsWalk.walk FindTrulyUnused.SRC_DIR fs) as triples.
  enough (forall (triples : list (string * list string * list string))
            all_files,
    p ∈ fold_left (fun all_files '(root, _, filenames) =>
                     FindTrulyUnused.collect_dir root all_files filenames)
                  triples all_files <->
    p ∈ all_files \/
    exists root dirs filenames filename,
      (root, dirs, filenames) ∈ triples /\ filename ∈ filenames /\
      endswith_any filename [".ts"; ".tsx"] = true /\
      p = join root filename /\ FindTrulyUnused.should_skip p = false) as Hgen.
  { intros triples. rewrite Hgen. split; [intros [Hin|?]; [inversion Hin|done] | now right]. }
  induction triples as [|[[root dirs] filenames] triples IH];
    intros all_files; cbn [fold_left].
  - split; [now left | intros [?|(? & ? & ? & ? & Hin & _)]; [done | inversion Hin]].
  - rewrite IH, elem_of_truly_collect_dir. clear IH. split.
    + intros [[?|(f & Hf & ?)]|(r & d & fl & f & Ht & ?)]; [now left| |].
      * right. exists root, dirs, filenames, f. split; [now left | done].
      * right. exists r, d, fl, f. split; [now right | done].
    + intros [?|(r & d & fl & f & [Heq|Ht]%elem_of_cons & ?)]; [now do 2 left| |].
      * injection Heq as -> -> ->. left; right. now exists f.
      * right. now exists r, d, fl, f.
Qed.

End Walkers.

(** C3.  No path the walker of either variant yields contains one of
    that variant's exclusion patterns, and none of the boolean variant
    has a base name in [KNOWN_USED]. *)
Theorem walkers_yield_no_excluded_file (fs : option OsWalk.tree) (p : string) :
  (p ∈ FindUnused.get_all_source_files fs ->
   forall pattern, pattern ∈ FindUnused.EXCLUDE_PATTERNS ->
                   ~ Py.occurs_in pattern p) /\
  (p ∈ FindTrulyUnused.all_source_files fs ->
   (forall pattern, pattern ∈ FindTrulyUnused.SKIP_PATTERNS ->
                    ~ Py.occurs_in pattern p) /\
   Py.basename p ∉ FindTrulyUnused.KNOWN_USED).
Proof.
  split.
  - intros (root & dirs & filenames & filename & _ & _ & _ & _ & Hchk)
      %elem_of_get_all_source_files.
    now apply should_check_from_true.
  - intros (root & dirs & filenames & filename & _ & _ & _ & _ & Hskip)
      %elem_of_all_source_files.
    now apply should_skip_false.
Qed.

Lemma walkers_yield_no_excluded_file_witness :
  ~ Py.occurs_in "index.ts" "src/services/Orphan.ts" /\
  ~ Py.occurs_in ".test.ts" "src/services/Orphan.ts" /\
  Py.basename "src/services/Orphan.ts" ∉ FindTrulyUnused.KNOWN_USED.
Proof.
  destruct (walkers_yield_no_excluded_file (Some Demo.src_tree)
              "src/services/Orphan.ts") as [Hthreshold Hboolean].
  split; [|split].
  - apply Hthreshold; by_eval.
  - apply Hboolean; by_eval.
  - apply Hboolean; by_eval.
Defined.

(* ================================================================== *)
(** * Reports, and what a scan keeps true of them *)
(* ================================================================== *)

Section ReportFacts.
Import Report.

Lemma get_append (k key v : string) (d : dict) :
  get k (append key v d) =
  if String.eqb k key then (fun l => l ++ [v]) <$> get k d else get k d.
Proof.
  induction d as [|[k' l] d IH]; simpl.
  - now destruct (String.eqb k key).
  - destruct (String.eqb k' key) eqn:Hk'; simpl.
    + apply String.eqb_eq in Hk' as ->.
      rewrite (String.eqb_sym key k). now destruct (String.eqb k key).
    + rewrite IH. destruct (String.eqb k' k) eqn:Hkk; [|done].
      apply String.eqb_eq in Hkk as ->. now rewrite Hk'.
Qed.

Lemma keys_append (key v : string) (d : dict) :
  keys (append key v d) = keys d.
Proof.
  unfold keys. induction d as [|[k l] d IH]; simpl; [done|].
  destruct (String.eqb k key); simpl; congruence.
Qed.

Lemma get_is_Some (k : string) (d : dict) :
  is_Some (get k d) <-> k ∈ keys d.
Proof.
  unfold keys. induction d as [|[k' l] d IH]; simpl.
  - split; [intros [? ?]; discriminate | intros Hin; inversion Hin].
  - rewrite elem_of_cons. destruct (String.eqb k' k) eqn:Hk.
    + apply String.eqb_eq in Hk as ->. split; [now left | eauto].
    + apply String.eqb_neq in Hk. rewrite IH.
      split; [now right | intros [?|?]; [congruence | done]].
Qed.

(** Appending under a key of the report lists the file there and moves
    nothing else. *)
Lemma reported_append (p key v : string) (d : dict) :
  key ∈ keys d ->
  reported p (append key v d) <-> reported p d \/ p = v.
Proof.
  intros [l0 Hl0]%get_is_Some. unfold reported. split.
  - intros (k & l & Hget & Hin). rewrite get_append in Hget.
    destruct (String.eqb k key) eqn:Hk.
    + apply String.eqb_eq in Hk as ->. rewrite Hl0 in Hget.
      injection Hget as <-.
      apply elem_of_app in Hin as [Hin| ->%list_elem_of_singleton]; eauto.
    + eauto.
  - intros [(k & l & Hget & Hin)| ->].
    + destruct (String.eqb k key) eqn:Hk.
      * exists k, (l ++ [v]). rewrite get_append, Hk, Hget.
        split; [done | apply elem_of_app; now left].
      * exists k, l. now rewrite get_append, Hk.
    + exists key, (l0 ++ [v]). rewrite get_append, String.eqb_refl, Hl0.
      split; [done | apply elem_of_app; right; now left].
Qed.

End ReportFacts.

Section ScanInvariant.
Import Report.

Lemma get_elem_of (k : string) (l : list string) (d : dict) :
  get k d = Some l -> (k, l) ∈ d.
Proof.
  induction d as [|[k' l'] d IH]; simpl; [discriminate|].
  destruct (String.eqb_spec k' k) as [->|].
  - intros [= ->]. now left.
  - intros Hget. right. auto.
Qed.

Lemma append_Forall (P Q : string -> list string -> Prop)
    (key v : string) (d : dict) :
  (forall k l, P k l -> Q k l) ->
  (forall l, P key l -> Q key (l ++ [v])) ->
  Forall (fun e => P (fst e) (snd e)) d ->
  Forall (fun e => Q (fst e) (snd e)) (append key v d).
Proof.
  intros Hweak Hadd. induction 1 as [|[k l] d Hkl Hd IH]; simpl; [done|].
  destruct (String.eqb_spec k key) as [->|].
  - constructor; [now apply Hadd|]. eapply Forall_impl; [exact Hd|].
    intros [k' l']; apply Hweak.
  - constructor; [now apply Hweak | done].
Qed.

Lemma well_filed_skip categorize seen f d :
  well_filed categorize seen d -> well_filed categorize (seen ++ [f]) d.
Proof.
  intros Hd. eapply Forall_impl; [exact Hd|].
  intros [k l] [Hsub Hcat]. split; [|done].
  now apply sublist_inserts_r.
Qed.

Lemma well_filed_append categorize seen f d :
  well_filed categorize seen d ->
  well_filed categorize (seen ++ [f]) (append (categorize f) f d).
Proof.
  apply (append_Forall
    (fun k l => l `sublist_of` seen /\ forall p, p ∈ l -> categorize p = k)
    (fun k l => l `sublist_of` seen ++ [f] /\
                forall p, p ∈ l -> categorize p = k)).
  - intros k l [Hsub Hcat]. split; [now apply sublist_inserts_r | done].
  - intros l [Hsub Hcat]. split; [now apply sublist_app|].
    intros p [Hin| ->%list_elem_of_singleton]%elem_of_app; auto.
Qed.

Lemma well_filed_fold {St : Type} (categorize : string -> string)
    (step : St * dict -> string -> St * dict) :
  (forall st d f, snd (step (st, d) f) = d \/
                  snd (step (st, d) f) = append (categorize f) f d) ->
  forall files seen st d,
    well_filed categorize seen d ->
    well_filed categorize (seen ++ files) (snd (fold_left step files (st, d))).
Proof.
  intros Hstep. induction files as [|f files IH]; intros seen st d Hd.
  - now rewrite app_nil_r.
  - cbn [fold_left]. destruct (step (st, d) f) as [st' d'] eqn:Hs.
    replace (seen ++ f :: files) with ((seen ++ [f]) ++ files)
      by now rewrite <- app_assoc.
    apply IH. destruct (Hstep st d f) as [Heq|Heq];
      rewrite Hs in Heq; cbn [snd] in Heq; subst d'.
    + now apply well_filed_skip.
    + now apply well_filed_append.
Qed.

Lemma well_filed_init categorize (d : dict) :
  Forall (fun e => snd e = []) d -> well_filed categorize [] d.
Proof.
  intros Hd. eapply Forall_impl; [exact Hd|].
  intros [k l]; cbn. intros ->. split; [done|].
  intros p Hin. inversion Hin.
Qed.

Lemma StronglySorted_sublist {A} (R : relation A) (l k : list A) :
  l `sublist_of` k -> StronglySorted R k -> StronglySorted R l.
Proof.
  induction 1 as [|x l k Hsub IH|x l k Hsub IH]; intros Hk.
  - constructor.
  - apply StronglySorted_inv in Hk as [Hk Hx]. constructor; [auto|].
    apply Forall_forall. intros y Hy.
    rewrite Forall_forall in Hx. apply Hx. eauto using elem_of_sublist.
  - apply StronglySorted_inv in Hk as [Hk _]. auto.
Qed.

End ScanInvariant.

(* ================================================================== *)
(** * The threshold variant *)
(* ================================================================== *)

Section Threshold.
Context {W : Type} `{Proc.World W}.
Import FindUnused.

Lemma categorize_key (filepath : string) :
  categorize filepath ∈ Report.keys unused_by_category_init.
Proof.
  unfold categorize.
  repeat match goal with
         | |- context [if ?b then _ else _] => destruct b
         end; vm_compute; set_solver.
Qed.

Lemma ref_counts_cons (w : W) (filepath : string) (files : list string) :
  ref_counts w (filepath :: files) =
  (filepath, snd (count_imports w (filename_without_ext filepath) "src")) ::
  ref_counts (fst (count_imports w (filename_without_ext filepath) "src"))
             files.
Proof.
  unfold ref_counts, count_imports. simpl.
  now destruct (Proc.subprocess_run w _ 5) as [w' o].
Qed.

Lemma scan_step_record (w : W) (d : Report.dict) (filepath : string) :
  scan_step (w, d) filepath =
  (fst (count_imports w (filename_without_ext filepath) "src"),
   record d
     (filepath, snd (count_imports w (filename_without_ext filepath) "src"))).
Proof.
  unfold scan_step, record.
  destruct (count_imports w _ "src") as [w' n]. cbn [fst snd].
  now destruct (n <=? 1).
Qed.

Lemma after_all_calls_cons (w : W) (filepath : string) (files : list string) :
  Proc.after_all w (calls (filepath :: files)) =
  Proc.after_all
    (fst (count_imports w (filename_without_ext filepath) "src"))
    (calls files).
Proof.
  unfold count_imports. simpl.
  now destruct (Proc.subprocess_run w _ 5) as [w' o].
Qed.

(** The loop of [main] is the fold of [record] over the counts obtained. *)
Lemma scan_steps (files : list string) (w : W) (d : Report.dict) :
  fold_left scan_step files (w, d) =
  (Proc.after_all w (calls files), fold_left record (ref_counts w files) d).
Proof.
  revert w d; induction files as [|filepath files IH]; intros w d; [done|].
  rewrite ref_counts_cons, after_all_calls_cons. cbn [fold_left].
  now rewrite scan_step_record, IH.
Qed.

Lemma keys_record (cs : list (string * nat)) (d : Report.dict) :
  Report.keys (fold_left record cs d) = Report.keys d.
Proof.
  revert d; induction cs as [|c cs IH]; intros d; simpl; [done|].
  rewrite IH. unfold record. destruct (snd c <=? 1); [|done].
  apply keys_append.
Qed.

Lemma reported_record (p : string) (cs : list (string * nat))
    (d : Report.dict) :
  Report.keys d = Report.keys unused_by_category_init ->
  Report.reported p (fold_left record cs d) <->
  Report.reported p d \/ exists n, (p, n) ∈ cs /\ n <= 1.
Proof.
  revert d; induction cs as [|[q m] cs IH]; intros d Hkeys; simpl.
  - split; [now left | intros [?|(n & Hin & _)]; [done | inversion Hin]].
  - rewrite IH.
    2:{ unfold record. destruct (_ <=? 1); [|done]. now rewrite keys_append. }
    unfold record; cbn [fst snd]. destruct (Nat.leb_spec m 1) as [Hm|Hm].
    + rewrite reported_append by (rewrite Hkeys; apply categorize_key).
      split.
      * intros [[?| ->]|(n & Hin & Hn)]; [now left| |].
        -- right. exists m. split; [now left | done].
        -- right. exists n. split; [now right | done].
      * intros [?|(n & [Heq|Hin]%elem_of_cons & Hn)]; [now do 2 left| |].
        -- injection Heq as -> ->. left; now right.
        -- right. eauto.
    + split.
      * intros [?|(n & Hin & Hn)]; [now left|].
        right. exists n. split; [now right | done].
      * intros [?|(n & [Heq|Hin]%elem_of_cons & Hn)]; [now left| |].
        -- injection Heq as -> ->. lia.
        -- right. eauto.
Qed.

Lemma not_reported_init (p : string) :
  ~ Report.reported p unused_by_category_init.
Proof.
  intros (k & l & Hget & Hin). unfold unused_by_category_init in Hget.
  simpl in Hget.
  repeat match type of Hget with
         | (if ?b then _ else _) = _ =>
             destruct b; [injection Hget as <-; inversion Hin|]
         end.
  discriminate.
Qed.

Lemma report_main (w : W) (fs : option OsWalk.tree) :
  report (snd (main w fs)) =
  fold_left record
    (ref_counts w (Py.sorted (get_all_source_files fs)))
    unused_by_category_init.
Proof.
  unfold main, scan. rewrite scan_steps.
  now destruct (print_results _).
Qed.

Lemma fst_ref_counts (w : W) (files : list string) :
  (ref_counts w files).*1 = files.
Proof.
  revert w; induction files as [|f files IH]; intros w; [done|].
  rewrite ref_counts_cons. cbn. now rewrite IH.
Qed.

End Threshold.

(** C1.  In the threshold variant a file is reported (listed under some
    category) exactly when it is a candidate whose reference count, as
    [count_imports] returned it during the scan, is at most 1; every
    candidate gets a count; and a candidate whose count is above 1 is
    not reported. *)
Theorem threshold_reported_iff_count_le_1
    {W : Type} `{Proc.World W} (w : W) (fs : option OsWalk.tree) :
  let files := Py.sorted (FindUnused.get_all_source_files fs) in
  let counts := FindUnused.ref_counts w files in
  counts.*1 = files /\
  (forall p, Report.reported p (FindUnused.report (snd (FindUnused.main w fs)))
             <-> exists n, (p, n) ∈ counts /\ n <= 1) /\
  (forall p, (forall n, (p, n) ∈ counts -> 1 < n) ->
             ~ Report.reported p (FindUnused.report (snd (FindUnused.main w fs)))).
Proof.
  intros files counts.
  assert (forall p,
    Report.reported p (FindUnused.report (snd (FindUnused.main w fs))) <->
    exists n, (p, n) ∈ counts /\ n <= 1) as Hiff.
  { intros p. rewrite report_main, reported_record by done.
    split; [intros [Hinit|?]; [|done] | now right].
    now apply not_reported_init in Hinit. }
  split; [apply fst_ref_counts | split; [exact Hiff|]].
  intros p Habove [n [Hin Hn]]%Hiff. apply Habove in Hin. lia.
Qed.

Lemma threshold_reported_iff_count_le_1_witness :
  Report.reported "src/services/Orphan.ts"
    (FindUnused.report
       (snd (@FindUnused.main _ Demo.no_match tt (Some Demo.src_tree)))) /\
  ~ Report.reported "src/services/Used.ts"
    (FindUnused.report
       (snd (@FindUnused.main _ Demo.two_files tt (Some Demo.src_tree)))).
Proof.
  split.
  - destruct (@threshold_reported_iff_count_le_1 _ Demo.no_match tt
                (Some Demo.src_tree)) as (_ & Hiff & _).
    apply Hiff. exists 0. split; [by_eval | lia].
  - destruct (@threshold_reported_iff_count_le_1 _ Demo.two_files tt
                (Some Demo.src_tree)) as (_ & _ & Habove).
    apply Habove. intros n Hin.
    set (counts := FindUnused.ref_counts _ _) in Hin.
    assert (counts =
              [("src/a/b.ts", 2); ("src/services/CleanRootNavigator.tsx", 2);
               ("src/services/Orphan.ts", 2);
               ("src/services/SetupGuide.ts", 2);
               ("src/services/Used.ts", 2); ("src/z.ts", 2)]) as Hcounts
      by (vm_compute; reflexivity).
    rewrite Hcounts in Hin.
    repeat (apply elem_of_cons in Hin as [Heq|Hin];
            [apply (f_equal snd) in Heq; cbn [snd] in Heq; lia|]).
    inversion Hin.
Defined.

(* ================================================================== *)
(** * The boolean variant *)
(* ================================================================== *)

Section Boolean.
Context {W : Type} `{Proc.World W}.
Import FindTrulyUnused.

(** The answer of the pattern loop: has some call settled it? *)
Lemma search_patterns_settles (pats : list string) (w : W)
    (file_path : string) :
  snd (search_patterns w pats file_path) =
  existsb (settles file_path) (Proc.run_all w (map rg_call pats)).
Proof.
  revert w; induction pats as [|pattern pats IH]; intros w; [done|].
  cbn [search_patterns map Proc.run_all]. unfold rg_call.
  destruct (Proc.subprocess_run w _ 2) as [w' [rc stdout|e]];
    cbn [existsb settles]; [|done].
  destruct (matches_of file_path stdout); [apply IH | done].
Qed.

Lemma search_for_import_settles (w : W) (filename_base file_path : string) :
  snd (search_for_import w filename_base file_path) =
  existsb (settles file_path) (Proc.run_all w (calls filename_base)).
Proof. apply search_patterns_settles. Qed.

Lemma search_for_import_true (w : W) (filename_base file_path : string) :
  snd (search_for_import w filename_base file_path) = true <->
  exists o, o ∈ Proc.run_all w (calls filename_base) /\
            settles file_path o = true.
Proof.
  rewrite search_for_import_settles, existsb_exists.
  now setoid_rewrite list_elem_of_In.
Qed.

Lemma truly_scan_step_eq (w : W) (d : Report.dict) (filepath : string) :
  snd (scan_step (w, d) filepath) =
  if snd (search_for_import w (filename_base filepath) filepath) then d
  else Report.append (categorize filepath) filepath d.
Proof.
  unfold scan_step.
  destruct (search_for_import w _ filepath) as [w' is_used]. cbn [snd].
  now destruct is_used.
Qed.

End Boolean.

(** C2.  When the search raises, [count_imports] of the threshold variant
    returns 0, so that [main] lists the candidate, and [search_for_import]
    of the boolean variant returns [True], so that [main] leaves the
    candidate out.  For the boolean variant the calls are those of the
    four patterns in turn; the loop makes them up to the first one that
    settles the answer, and a raising call among them gives [True]. *)
Theorem error_defaults_are_opposite {W : Type} `{Proc.World W} (w : W) :
  (forall name src_dir w' e,
     Proc.subprocess_run w ["rg"; "-l"; name; src_dir] 5 = (w', Proc.Raised e) ->
     FindUnused.count_imports w name src_dir = (w', 0)) /\
  (forall d filepath w' e,
     Proc.subprocess_run w
       ["rg"; "-l"; FindUnused.filename_without_ext filepath; "src"] 5
       = (w', Proc.Raised e) ->
     FindUnused.scan_step (w, d) filepath =
     (w', Report.append (FindUnused.categorize filepath) filepath d)) /\
  (forall filename_base file_path e,
     Proc.Raised e ∈ Proc.run_all w (FindTrulyUnused.calls filename_base) ->
     snd (FindTrulyUnused.search_for_import w filename_base file_path)
     = true) /\
  (forall d filepath e,
     Proc.Raised e ∈
       Proc.run_all w
         (FindTrulyUnused.calls (FindTrulyUnused.filename_base filepath)) ->
     snd (FindTrulyUnused.scan_step (w, d) filepath) = d).
Proof.
  assert (forall filename_base file_path e,
     Proc.Raised e ∈ Proc.run_all w (FindTrulyUnused.calls filename_base) ->
     snd (FindTrulyUnused.search_for_import w filename_base file_path)
     = true) as Hbool.
  { intros b p e Hin. apply search_for_import_true. now exists (Proc.Raised e). }
  repeat split.
  - intros name src_dir w' e Hrun.
    unfold FindUnused.count_imports, FindUnused.rg_call. now rewrite Hrun.
  - intros d filepath w' e Hrun.
    unfold FindUnused.scan_step, FindUnused.count_imports, FindUnused.rg_call.
    now rewrite Hrun.
  - exact Hbool.
  - intros d filepath e Hin. rewrite truly_scan_step_eq.
    now rewrite (Hbool _ filepath e Hin).
Qed.

Lemma error_defaults_are_opposite_witness :
  @FindUnused.count_imports _ Demo.timing_out tt "Orphan" "src" = (tt, 0) /\
  snd (@FindTrulyUnused.search_for_import _ Demo.timing_out tt
         "Orphan" "src/services/Orphan.ts") = true.
Proof.
  destruct (@error_defaults_are_opposite _ Demo.timing_out tt)
    as (Hcount & _ & Hsearch & _).
  split.
  - apply (Hcount "Orphan" "src" tt Proc.TimeoutExpired). reflexivity.
  - apply (Hsearch "Orphan" "src/services/Orphan.ts" Proc.TimeoutExpired).
    by_eval.
Defined.






(** C6 (as the code has it).  The boolean variant drops from [matches]
    every line that contains the candidate's path; the threshold variant
    has no such filter: its count is the number of lines the boolean
    filter would keep plus the number of lines that contain the path. *)
Theorem own_file_lines_are_dropped_by_the_boolean_variant
    (file_path stdout : string) :
  (forall line,
     line ∈ FindTrulyUnused.matches_of file_path stdout <->
     line ∈ Py.split Py.newline (Py.strip stdout) /\
     line <> EmptyString /\ ~ Py.occurs_in file_path line) /\
  (forall rc,
     FindUnused.count_of (Proc.Completed rc stdout) =
     length (FindTrulyUnused.matches_of file_path stdout) +
     length (filter (fun line => Py.str_in file_path line)
                    (FindUnused.matches_of stdout))).
Proof.
  split.
  - intros line. unfold FindTrulyUnused.matches_of.
    rewrite list_elem_of_filter, <- str_in_false_iff.
    destruct (String.eqb_spec line EmptyString);
      destruct (Py.str_in file_path line); cbn; intuition congruence.
  - intros rc. cbn [FindUnused.count_of].
    unfold FindUnused.matches_of, FindTrulyUnused.matches_of.
    induction (Py.split Py.newline (Py.strip stdout)) as [|x xs IH]; [done|].
    rewrite !filter_cons. 
    destruct (String.eqb x EmptyString); cbn [negb andb];
      repeat case_decide; try done.
    all: rewrite ?filter_cons; destruct (Py.str_in file_path x);
      repeat case_decide; cbn [length] in *; try done; lia.
Qed.

(** C6 as the specification words it does not hold of the threshold
    variant: when the only file the search lists is the candidate
    itself, the count is 1, where dropping the lines that contain the
    path leaves none. *)
Lemma threshold_counts_the_candidate_itself :
  @FindUnused.count_imports _
     (Proc.always (Proc.Completed 0 (Py.unlines ["src/services/Orphan.ts"])))
     tt (FindUnused.filename_without_ext "src/services/Orphan.ts") "src"
  = (tt, 1) /\
  length (FindTrulyUnused.matches_of "src/services/Orphan.ts"
            (Py.unlines ["src/services/Orphan.ts"])) = 0.
Proof. split; vm_compute; reflexivity. Qed.

(* ================================================================== *)
(** * Whole runs of the two detectors *)
(* ================================================================== *)

Section Scans.
Context {W : Type} `{Proc.World W}.

Lemma threshold_well_filed (w : W) (fs : option OsWalk.tree) :
  Report.well_filed FindUnused.categorize
    (Py.sorted (FindUnused.get_all_source_files fs))
    (FindUnused.report (snd (FindUnused.main w fs))).
Proof.
  unfold FindUnused.main, FindUnused.scan.
  pose proof (well_filed_fold FindUnused.categorize FindUnused.scan_step)
    as Hfold.
  specialize (Hfold (fun st d f =>
    ltac:(rewrite scan_step_record; unfold FindUnused.record; cbn [fst snd];
          destruct (_ <=? 1); auto))).
  specialize (Hfold (Py.sorted (FindUnused.get_all_source_files fs)) [] w
                FindUnused.unused_by_category_init).
  destruct (fold_left _ _ _) as [w' d]. destruct (FindUnused.print_results d).
  apply Hfold, well_filed_init. repeat constructor.
Qed.

Lemma boolean_well_filed (w : W) (fs : option OsWalk.tree) :
  Report.well_filed FindTrulyUnused.categorize
    (Py.sorted (FindTrulyUnused.all_source_files fs))
    (FindTrulyUnused.report (snd (FindTrulyUnused.main w fs))).
Proof.
  unfold FindTrulyUnused.main, FindTrulyUnused.scan.
  pose proof (well_filed_fold FindTrulyUnused.categorize
                FindTrulyUnused.scan_step) as Hfold.
  specialize (Hfold (fun st d f =>
    ltac:(rewrite truly_scan_step_eq;
          destruct (snd (FindTrulyUnused.search_for_import _ _ _)); auto))).
  specialize (Hfold (Py.sorted (FindTrulyUnused.all_source_files fs)) [] w
                FindTrulyUnused.truly_unused_init).
  destruct (fold_left _ _ _) as [w' d].
  destruct (FindTrulyUnused.print_results d).
  apply Hfold, well_filed_init. repeat constructor.
Qed.

End Scans.

(** C8.  With no root directory the walk yields nothing, no search is
    run, every category stays empty, the total is 0 and the run prints
    its fixed lines only. *)
Theorem missing_root_gives_empty_report {W : Type} `{Proc.World W} (w : W) :
  OsWalk.walk FindUnused.SRC_DIR None = [] /\
  FindUnused.get_all_source_files None = [] /\
  FindTrulyUnused.all_source_files None = [] /\
  FindUnused.main w None =
    (w, {| FindUnused.report := FindUnused.unused_by_category_init;
           FindUnused.total := 0;
           FindUnused.printed :=
             [String.append "Analyzing source files for unused imports..."
                (String Py.newline EmptyString);
              String Py.newline (String Py.newline
                "TOTAL: 0 potentially unused files");
              String Py.newline "NOTE: Files may be used via:";
              "- Index file re-exports";
              "- Dynamic imports";
              "- App.tsx or other entry points";
              "- Non-import references (like typeof)"] |}) /\
  FindTrulyUnused.main w None =
    (w, {| FindTrulyUnused.report := FindTrulyUnused.truly_unused_init;
           FindTrulyUnused.total := 0;
           FindTrulyUnused.printed :=
             [String.append "Finding TRULY UNUSED files..."
                (String Py.newline EmptyString);
              String.append "Checking for actual import statements..."
                (String Py.newline EmptyString);
              String Py.newline (String Py.newline
                "TOTAL TRULY UNUSED: 0 files")] |}) /\
  (forall p, ~ Report.reported p FindUnused.unused_by_category_init) /\
  (forall p, ~ Report.reported p FindTrulyUnused.truly_unused_init).
Proof.
  repeat split.
  - apply not_reported_init.
  - intros p (k & l & Hget & Hin). simpl in Hget.
    repeat match type of Hget with
           | (if ?b then _ else _) = _ =>
               destruct b; [injection Hget as <-; inversion Hin|]
           end.
    discriminate.
Qed.

(** C5 (as the code has it).  In both variants every list of the report
    is a subsequence of [sorted(all_files)]: the files of a category are
    listed in ascending order of their paths, which is the order [main]
    goes through the candidates in. *)
Theorem report_lists_follow_sorted_order
    {W : Type} `{Proc.World W} (w : W) (fs : option OsWalk.tree) :
  Forall (fun e => snd e `sublist_of`
                     Py.sorted (FindUnused.get_all_source_files fs) /\
                   StronglySorted String.le (snd e))
         (FindUnused.report (snd (FindUnused.main w fs))) /\
  Forall (fun e => snd e `sublist_of`
                     Py.sorted (FindTrulyUnused.all_source_files fs) /\
                   StronglySorted String.le (snd e))
         (FindTrulyUnused.report (snd (FindTrulyUnused.main w fs))).
Proof.
  split.
  - eapply Forall_impl; [apply threshold_well_filed|].
    intros [k l] [Hsub _]. split; [done|].
    eapply StronglySorted_sublist; [exact Hsub | apply sorted_StronglySorted].
  - eapply Forall_impl; [apply boolean_well_filed|].
    intros [k l] [Hsub _]. split; [done|].
    eapply StronglySorted_sublist; [exact Hsub | apply sorted_StronglySorted].
Qed.

(** C5 as the specification words it does not hold: [src/z.ts] is
    walked before [src/a/b.ts] and listed after it, in both variants. *)
Lemma report_order_is_not_walk_order :
  FindUnused.get_all_source_files (Some Demo.src_tree) =
    ["src/z.ts"; "src/services/Orphan.ts"; "src/services/Used.ts";
     "src/services/SetupGuide.ts"; "src/services/CleanRootNavigator.tsx";
     "src/a/b.ts"] /\
  Report.get "other"
    (FindUnused.report
       (snd (@FindUnused.main _ Demo.no_match tt (Some Demo.src_tree))))
    = Some ["src/a/b.ts"; "src/z.ts"] /\
  FindTrulyUnused.all_source_files (Some Demo.src_tree) =
    ["src/z.ts"; "src/services/Orphan.ts"; "src/services/Used.ts";
     "src/services/SetupGuide.ts"; "src/a/b.ts"] /\
  Report.get "other"
    (FindTrulyUnused.report
       (snd (@FindTrulyUnused.main _ Demo.no_match tt (Some Demo.src_tree))))
    = Some ["src/a/b.ts"; "src/z.ts"].
Proof. repeat split; vm_compute; reflexivity. Qed.

(* ================================================================== *)
(** * Categories *)
(* ================================================================== *)

Section Categories.

Lemma truly_categorize_key (filepath : string) :
  FindTrulyUnused.categorize filepath ∈
  Report.keys FindTrulyUnused.truly_unused_init.
Proof.
  unfold FindTrulyUnused.categorize.
  repeat match goal with
         | |- context [if ?b then _ else _] => destruct b
         end; by_eval.
Qed.

(** The directory checks of the threshold variant, in the order of its
    [if]/[elif] chain. *)
Lemma threshold_categorize_order (p : string) :
  FindUnused.categorize p =
  match find (fun k => Py.str_in ("/" +:+ k +:+ "/") p)
          ["components"; "screens"; "services"; "stores"; "hooks"; "types";
           "utils"; "constants"; "flows"; "contexts"; "navigation"; "theme"]
  with
  | Some k => k
  | None => "other"
  end.
Proof.
  unfold FindUnused.categorize. cbn [find].
  repeat match goal with
         | |- context [if Py.str_in ?n p then _ else _] =>
             change n with (ltac:(let v := eval vm_compute in n in exact v));
             destruct (Py.str_in _ p); [reflexivity|]
         end.
  reflexivity.
Qed.

End Categories.

(** C7 (as the code has it).  In both variants a reported file stands
    only under the category its path is given by that variant's chain of
    checks, which is always a key of the report, with "other" when no
    check matches.  The boolean variant tests the file name for "Guide"
    or "Validation" before any directory; the threshold variant has no
    such check and no "documentation" category: it goes by directory
    alone (components, screens, services, stores, hooks, types, utils,
    constants, flows, contexts, navigation, theme, in this order). *)
Theorem categorization_is_total_and_single
    {W : Type} `{Proc.World W} (w : W) (fs : option OsWalk.tree) :
  (forall key l p,
     Report.get key (FindUnused.report (snd (FindUnused.main w fs))) = Some l ->
     p ∈ l -> key = FindUnused.categorize p) /\
  (forall key l p,
     Report.get key (FindTrulyUnused.report (snd (FindTrulyUnused.main w fs)))
       = Some l ->
     p ∈ l -> key = FindTrulyUnused.categorize p) /\
  (forall p, FindUnused.categorize p ∈
             Report.keys FindUnused.unused_by_category_init) /\
  (forall p, FindTrulyUnused.categorize p ∈
             Report.keys FindTrulyUnused.truly_unused_init) /\
  (forall p,
     Py.occurs_in "Guide" (Py.basename p) \/
     Py.occurs_in "Validation" (Py.basename p) ->
     FindTrulyUnused.categorize p = "documentation") /\
  (forall p,
     ~ Py.occurs_in "Guide" (Py.basename p) ->
     ~ Py.occurs_in "Validation" (Py.basename p) ->
     FindTrulyUnused.categorize p =
     if Py.str_in "/services/" p then "services"
     else if Py.str_in "/components/" p || Py.str_in "/flows/" p
          then "components"
     else if Py.str_in "/screens/" p then "screens"
     else "other") /\
  (forall p,
     FindUnused.categorize p =
     match find (fun k => Py.str_in ("/" +:+ k +:+ "/") p)
             ["components"; "screens"; "services"; "stores"; "hooks";
              "types"; "utils"; "constants"; "flows"; "contexts";
              "navigation"; "theme"]
     with
     | Some k => k
     | None => "other"
     end) /\
  "documentation" ∉ Report.keys FindUnused.unused_by_category_init.
Proof.
  split; [|split; [|split; [|split; [|split; [|split; [|split]]]]]].
  - intros key l p Hget%get_elem_of Hin.
    pose proof (threshold_well_filed w fs) as Hwf.
    unfold Report.well_filed in Hwf. rewrite Forall_forall in Hwf.
    destruct (Hwf _ Hget) as [_ Hcat].
    symmetry. now apply Hcat.
  - intros key l p Hget%get_elem_of Hin.
    pose proof (boolean_well_filed w fs) as Hwf.
    unfold Report.well_filed in Hwf. rewrite Forall_forall in Hwf.
    destruct (Hwf _ Hget) as [_ Hcat].
    symmetry. now apply Hcat.
  - apply categorize_key.
  - apply truly_categorize_key.
  - intros p Hdoc. unfold FindTrulyUnused.categorize.
    rewrite <- !str_in_true_iff in Hdoc.
    apply orb_true_iff in Hdoc. now rewrite Hdoc.
  - intros p Hg%str_in_false_iff Hv%str_in_false_iff.
    unfold FindTrulyUnused.categorize. now rewrite Hg, Hv.
  - apply threshold_categorize_order.
  - by_eval.
Qed.

Lemma categorization_is_total_and_single_witness :
  FindTrulyUnused.categorize "src/services/SetupGuide.ts" = "documentation" /\
  FindTrulyUnused.categorize "src/services/Orphan.ts" = "services" /\
  "services" = FindUnused.categorize "src/services/SetupGuide.ts".
Proof.
  destruct (@categorization_is_total_and_single _ Demo.no_match tt
              (Some Demo.src_tree))
    as (Hsingle & _ & _ & _ & Hdoc & Hdirs & _).
  split; [|split].
  - apply Hdoc. left. apply str_in_true_iff. reflexivity.
  - rewrite Hdirs; [reflexivity| |]; apply str_in_false_iff; reflexivity.
  - apply (Hsingle "services"
             ["src/services/CleanRootNavigator.tsx"; "src/services/Orphan.ts";
              "src/services/SetupGuide.ts"; "src/services/Used.ts"]);
      [reflexivity | by_eval].
Defined.

(** C7 as the specification words it does not hold of the threshold
    variant: a file whose name contains "Guide" goes by its directory
    there. *)
Lemma threshold_has_no_documentation_check :
  FindUnused.categorize "src/services/SetupGuide.ts" = "services" /\
  FindTrulyUnused.categorize "src/services/SetupGuide.ts" = "documentation" /\
  Report.get "documentation" FindUnused.unused_by_category_init = None /\
  Report.get "services"
    (FindUnused.report
       (snd (@FindUnused.main _ Demo.no_match tt (Some Demo.src_tree))))
  = Some ["src/services/CleanRootNavigator.tsx"; "src/services/Orphan.ts";
          "src/services/SetupGuide.ts"; "src/services/Used.ts"].
Proof. repeat split; vm_compute; reflexivity. Qed.

(* ================================================================== *)
(** * The cleanup script *)
(* ================================================================== *)

Section Cleanup.
Context {FS : Type} `{CleanupTempFiles.FileSystem FS}.
Import CleanupTempFiles.

Lemma removals_snoc (lines : list string) (line : string) :
  removals (lines ++ [line]) =
  removals lines + (if Py.startswith line "Removed " then 1 else 0).
Proof.
  unfold removals. rewrite filter_app, length_app.
  destruct (Py.startswith line "Removed ") eqn:Hline.
  - now rewrite filter_cons_True by (cbn; now rewrite Hline).
  - now rewrite filter_cons_False by (cbn; now rewrite Hline).
Qed.

Lemma remove_file_count (st : state FS) (file_path : string) :
  count st = removals (printed st) ->
  count (remove_file st file_path) =
  removals (printed (remove_file st file_path)).
Proof.
  intros Hst. unfold remove_file.
  destruct (path_exists (fs st) file_path);
    [destruct (os_remove (fs st) file_path) as [fs' [e|]]|];
    cbn [count printed]; rewrite removals_snoc, Hst; eval_startswith; cbv iota; lia.
Qed.

Lemma remove_dir_count (st : state FS) (dir_path : string) :
  count st = removals (printed st) ->
  count (remove_dir st dir_path) =
  removals (printed (remove_dir st dir_path)).
Proof.
  intros Hst. unfold remove_dir.
  destruct (path_exists (fs st) dir_path);
    [destruct (shutil_rmtree (fs st) dir_path) as [fs' [e|]]|];
    cbn [count printed]; rewrite removals_snoc, Hst; eval_startswith; cbv iota; lia.
Qed.

Lemma fold_count (step : state FS -> string -> state FS) :
  (forall st p, count st = removals (printed st) ->
                count (step st p) = removals (printed (step st p))) ->
  forall paths st, count st = removals (printed st) ->
    count (fold_left step paths st) =
    removals (printed (fold_left step paths st)).
Proof.
  intros Hstep. induction paths as [|p paths IH]; intros st Hst; [done|].
  cbn [fold_left]. auto.
Qed.

Lemma cleanup_count (files dirs : list string) (fs0 : FS) :
  count (cleanup files dirs fs0) = removals (printed (cleanup files dirs fs0)).
Proof.
  unfold cleanup.
  apply (fold_count remove_dir remove_dir_count).
  now apply (fold_count remove_file remove_file_count).
Qed.

Lemma remove_file_attempt (st : state FS) (file_path : string) :
  remove_file st file_path =
  {| fs := snd (Attempts.attempt os_remove (fs st) file_path);
     count := count st +
       (if Attempts.is_removed
             (fst (Attempts.attempt os_remove (fs st) file_path))
        then 1 else 0);
     printed := printed st ++
       [Attempts.file_report file_path
          (fst (Attempts.attempt os_remove (fs st) file_path))] |}.
Proof.
  unfold remove_file, Attempts.attempt.
  destruct (path_exists (fs st) file_path).
  - destruct (os_remove (fs st) file_path) as [t' [e|]]; cbn;
      now rewrite ?Nat.add_0_r.
  - cbn. now rewrite Nat.add_0_r.
Qed.

Lemma remove_dir_attempt (st : state FS) (dir_path : string) :
  remove_dir st dir_path =
  {| fs := snd (Attempts.attempt shutil_rmtree (fs st) dir_path);
     count := count st +
       (if Attempts.is_removed
             (fst (Attempts.attempt shutil_rmtree (fs st) dir_path))
        then 1 else 0);
     printed := printed st ++
       [Attempts.dir_report dir_path
          (fst (Attempts.attempt shutil_rmtree (fs st) dir_path))] |}.
Proof.
  unfold remove_dir, Attempts.attempt.
  destruct (path_exists (fs st) dir_path).
  - destruct (shutil_rmtree (fs st) dir_path) as [t' [e|]]; cbn;
      now rewrite ?Nat.add_0_r.
  - cbn. now rewrite Nat.add_0_r.
Qed.

Lemma fold_outcomes (remove : FS -> string -> FS * option string)
    (report : string -> Attempts.outcome -> string)
    (step : state FS -> string -> state FS) :
  (forall st p,
     step st p =
     {| fs := snd (Attempts.attempt remove (fs st) p);
        count := count st +
          (if Attempts.is_removed (fst (Attempts.attempt remove (fs st) p))
           then 1 else 0);
        printed := printed st ++
          [report p (fst (Attempts.attempt remove (fs st) p))] |}) ->
  forall paths st,
    fold_left step paths st =
    {| fs := snd (Attempts.outcomes remove (fs st) paths);
       count := count st +
         Attempts.successes (fst (Attempts.outcomes remove (fs st) paths));
       printed := printed st ++
         zip_with report paths
           (fst (Attempts.outcomes remove (fs st) paths)) |}.
Proof.
  intros Hstep paths. induction paths as [|p paths IH]; intros st.
  - cbn. rewrite app_nil_r, Nat.add_0_r. now destruct st.
  - cbn [fold_left Attempts.outcomes]. rewrite IH, Hstep. cbn [fs count printed].
    destruct (Attempts.attempt remove (fs st) p) as [o t']. cbn [fst snd].
    destruct (Attempts.outcomes remove t' paths) as [os t''].
    cbn [fst snd zip_with]. unfold Attempts.successes.
    rewrite <- app_assoc. cbn [app].
    destruct o; cbn [Attempts.is_removed];
      rewrite ?filter_cons_True, ?filter_cons_False by (cbn; auto);
      cbn [length]; f_equal; lia.
Qed.

Lemma cleanup_outcomes (files dirs : list string) (fs0 : FS) :
  let file_outcomes := Attempts.outcomes os_remove fs0 files in
  let dir_outcomes :=
    Attempts.outcomes shutil_rmtree (snd file_outcomes) dirs in
  cleanup files dirs fs0 =
  {| fs := snd dir_outcomes;
     count := Attempts.successes (fst file_outcomes) +
              Attempts.successes (fst dir_outcomes);
     printed := zip_with Attempts.file_report files (fst file_outcomes) ++
                zip_with Attempts.dir_report dirs (fst dir_outcomes) |}.
Proof.
  intros file_outcomes dir_outcomes. unfold cleanup.
  rewrite (fold_outcomes os_remove Attempts.file_report remove_file
             remove_file_attempt).
  rewrite (fold_outcomes shutil_rmtree Attempts.dir_report remove_dir
             remove_dir_attempt).
  cbn [fs count printed]. reflexivity.
Qed.

End Cleanup.

(** C9.  A listed path that does not exist gets its not-found notice
    and nothing else: the tree and the count stay as they are, and the
    loop goes on with the paths after it.  The count is the number of
    removals reported, on any lists and in the script itself.  A path
    that exists is counted exactly when its removal returns; when the
    removal raises, the count stays, the error is printed and the loop
    goes on.  So the whole run is fixed by what the file system answers
    path after path: the tree at the end, the lines printed, and the
    count, which is the number of removals that returned. *)
Theorem missing_paths_are_skipped_and_not_counted
    {FS : Type} `{CleanupTempFiles.FileSystem FS} :
  (forall st file_path,
     CleanupTempFiles.path_exists (CleanupTempFiles.fs st) file_path = false ->
     CleanupTempFiles.remove_file st file_path =
     {| CleanupTempFiles.fs := CleanupTempFiles.fs st;
        CleanupTempFiles.count := CleanupTempFiles.count st;
        CleanupTempFiles.printed :=
          CleanupTempFiles.printed st ++ ["File not found: " +:+ file_path] |}) /\
  (forall st dir_path,
     CleanupTempFiles.path_exists (CleanupTempFiles.fs st) dir_path = false ->
     CleanupTempFiles.remove_dir st dir_path =
     {| CleanupTempFiles.fs := CleanupTempFiles.fs st;
        CleanupTempFiles.count := CleanupTempFiles.count st;
        CleanupTempFiles.printed :=
          CleanupTempFiles.printed st ++
          ["Directory not found: " +:+ dir_path] |}) /\
  (forall before file_path after st,
     let st' := fold_left CleanupTempFiles.remove_file before st in
     CleanupTempFiles.path_exists (CleanupTempFiles.fs st') file_path = false ->
     fold_left CleanupTempFiles.remove_file (before ++ file_path :: after) st =
     fold_left CleanupTempFiles.remove_file after
       {| CleanupTempFiles.fs := CleanupTempFiles.fs st';
          CleanupTempFiles.count := CleanupTempFiles.count st';
          CleanupTempFiles.printed :=
            CleanupTempFiles.printed st' ++
            ["File not found: " +:+ file_path] |}) /\
  (forall files dirs fs0,
     CleanupTempFiles.count (CleanupTempFiles.cleanup files dirs fs0) =
     length (filter (fun line => Py.startswith line "Removed ")
               (CleanupTempFiles.printed
                  (CleanupTempFiles.cleanup files dirs fs0)))) /\
  (forall fs0,
     CleanupTempFiles.count (CleanupTempFiles.script fs0) =
     length (filter (fun line => Py.startswith line "Removed ")
               (CleanupTempFiles.printed (CleanupTempFiles.script fs0)))) /\
  (forall st file_path fs',
     CleanupTempFiles.path_exists (CleanupTempFiles.fs st) file_path = true ->
     CleanupTempFiles.os_remove (CleanupTempFiles.fs st) file_path
       = (fs', None) ->
     CleanupTempFiles.remove_file st file_path =
     {| CleanupTempFiles.fs := fs';
        CleanupTempFiles.count := CleanupTempFiles.count st + 1;
        CleanupTempFiles.printed :=
          CleanupTempFiles.printed st ++ ["Removed file: " +:+ file_path] |}) /\
  (forall st file_path fs' e,
     CleanupTempFiles.path_exists (CleanupTempFiles.fs st) file_path = true ->
     CleanupTempFiles.os_remove (CleanupTempFiles.fs st) file_path
       = (fs', Some e) ->
     CleanupTempFiles.remove_file st file_path =
     {| CleanupTempFiles.fs := fs';
        CleanupTempFiles.count := CleanupTempFiles.count st;
        CleanupTempFiles.printed :=
          CleanupTempFiles.printed st ++
          ["Error removing file " +:+ file_path +:+ ": " +:+ e] |}) /\
  (forall st dir_path fs',
     CleanupTempFiles.path_exists (CleanupTempFiles.fs st) dir_path = true ->
     CleanupTempFiles.shutil_rmtree (CleanupTempFiles.fs st) dir_path
       = (fs', None) ->
     CleanupTempFiles.remove_dir st dir_path =
     {| CleanupTempFiles.fs := fs';
        CleanupTempFiles.count := CleanupTempFiles.count st + 1;
        CleanupTempFiles.printed :=
          CleanupTempFiles.printed st ++
          ["Removed directory: " +:+ dir_path] |}) /\
  (forall st dir_path fs' e,
     CleanupTempFiles.path_exists (CleanupTempFiles.fs st) dir_path = true ->
     CleanupTempFiles.shutil_rmtree (CleanupTempFiles.fs st) dir_path
       = (fs', Some e) ->
     CleanupTempFiles.remove_dir st dir_path =
     {| CleanupTempFiles.fs := fs';
        CleanupTempFiles.count := CleanupTempFiles.count st;
        CleanupTempFiles.printed :=
          CleanupTempFiles.printed st ++
          ["Error removing directory " +:+ dir_path +:+ ": " +:+ e] |}) /\
  (forall files dirs fs0,
     let file_outcomes :=
       Attempts.outcomes CleanupTempFiles.os_remove fs0 files in
     let dir_outcomes :=
       Attempts.outcomes CleanupTempFiles.shutil_rmtree
         (snd file_outcomes) dirs in
     CleanupTempFiles.cleanup files dirs fs0 =
     {| CleanupTempFiles.fs := snd dir_outcomes;
        CleanupTempFiles.count :=
          Attempts.successes (fst file_outcomes) +
          Attempts.successes (fst dir_outcomes);
        CleanupTempFiles.printed :=
          zip_with Attempts.file_report files (fst file_outcomes) ++
          zip_with Attempts.dir_report dirs (fst dir_outcomes) |}) /\
  (forall fs0,
     let file_outcomes :=
       Attempts.outcomes CleanupTempFiles.os_remove fs0
         CleanupTempFiles.files_to_remove in
     let dir_outcomes :=
       Attempts.outcomes CleanupTempFiles.shutil_rmtree
         (snd file_outcomes) CleanupTempFiles.dirs_to_remove in
     let removed :=
       Attempts.successes (fst file_outcomes) +
       Attempts.successes (fst dir_outcomes) in
     CleanupTempFiles.script fs0 =
     {| CleanupTempFiles.fs := snd dir_outcomes;
        CleanupTempFiles.count := removed;
        CleanupTempFiles.printed :=
          (zip_with Attempts.file_report CleanupTempFiles.files_to_remove
             (fst file_outcomes) ++
           zip_with Attempts.dir_report CleanupTempFiles.dirs_to_remove
             (fst dir_outcomes)) ++
          [String Py.newline "Cleanup complete. Removed " +:+
             Py.str_of_nat removed +:+ " items total."] |}).
Proof.
  assert (forall st file_path,
     CleanupTempFiles.path_exists (CleanupTempFiles.fs st) file_path = false ->
     CleanupTempFiles.remove_file st file_path =
     {| CleanupTempFiles.fs := CleanupTempFiles.fs st;
        CleanupTempFiles.count := CleanupTempFiles.count st;
        CleanupTempFiles.printed :=
          CleanupTempFiles.printed st ++ ["File not found: " +:+ file_path] |})
    as Hfile.
  { intros st p Hp. unfold CleanupTempFiles.remove_file. now rewrite Hp. }
  split; [exact Hfile|]. repeat apply conj.
  - intros st p Hp. unfold CleanupTempFiles.remove_dir. now rewrite Hp.
  - intros before p after st st' Hp.
    rewrite fold_left_app. cbn [fold_left]. fold st'. now rewrite Hfile.
  - intros files dirs fs0. apply cleanup_count.
  - intros fs0. unfold CleanupTempFiles.script.
    cbn [CleanupTempFiles.count CleanupTempFiles.printed].
    rewrite cleanup_count. fold (CleanupTempFiles.removals (CleanupTempFiles.printed
      (CleanupTempFiles.cleanup CleanupTempFiles.files_to_remove
         CleanupTempFiles.dirs_to_remove fs0))).
    change (length (filter _ ?l)) with (CleanupTempFiles.removals l).
    now rewrite removals_snoc, Nat.add_0_r.
  - intros st p fs' Hp Hrm. unfold CleanupTempFiles.remove_file.
    now rewrite Hp, Hrm.
  - intros st p fs' e Hp Hrm. unfold CleanupTempFiles.remove_file.
    now rewrite Hp, Hrm.
  - intros st p fs' Hp Hrm. unfold CleanupTempFiles.remove_dir.
    now rewrite Hp, Hrm.
  - intros st p fs' e Hp Hrm. unfold CleanupTempFiles.remove_dir.
    now rewrite Hp, Hrm.
  - intros files dirs fs0. apply cleanup_outcomes.
  - intros fs0 file_outcomes dir_outcomes removed.
    unfold CleanupTempFiles.script. rewrite cleanup_outcomes.
    reflexivity.
Qed.

Lemma missing_paths_are_skipped_and_not_counted_witness :
  @CleanupTempFiles.remove_file _ Demo.set_fs
    {| CleanupTempFiles.fs := ({["/tmp/a.md"]} : gset string);
       CleanupTempFiles.count := 3;
       CleanupTempFiles.printed := [] |}
    "/tmp/b.md" =
  {| CleanupTempFiles.fs := ({["/tmp/a.md"]} : gset string);
     CleanupTempFiles.count := 3;
     CleanupTempFiles.printed := ["File not found: /tmp/b.md"] |} /\
  @CleanupTempFiles.remove_file _ Demo.set_fs
    {| CleanupTempFiles.fs := ({["/tmp/readonly.md"]} : gset string);
       CleanupTempFiles.count := 3;
       CleanupTempFiles.printed := [] |}
    "/tmp/readonly.md" =
  {| CleanupTempFiles.fs := ({["/tmp/readonly.md"]} : gset string);
     CleanupTempFiles.count := 3;
     CleanupTempFiles.printed :=
       ["Error removing file /tmp/readonly.md: Permission denied"] |}.
Proof.
  destruct (@missing_paths_are_skipped_and_not_counted _ Demo.set_fs)
    as (Hfile & _ & _ & _ & _ & _ & Hfailed & _).
  split.
  - rewrite Hfile by (vm_compute; reflexivity). reflexivity.
  - rewrite (Hfailed _ "/tmp/readonly.md" ({["/tmp/readonly.md"]} : gset string)
               "Permission denied")
      by (vm_compute; reflexivity).
    reflexivity.
Defined.

Example cleanup_run :
  let st := @CleanupTempFiles.cleanup _ Demo.set_fs
              ["/tmp/a.md"; "/tmp/b.md"; "/tmp/readonly.md"] ["/tmp/d"]
              ({["/tmp/a.md"; "/tmp/readonly.md"; "/tmp/d"]} : gset string) in
  CleanupTempFiles.count st = 2 /\
  CleanupTempFiles.printed st =
    ["Removed file: /tmp/a.md"; "File not found: /tmp/b.md";
     "Error removing file /tmp/readonly.md: Permission denied";
     "Removed directory: /tmp/d"].
Proof. vm_compute. split; reflexivity. Qed.

(* ================================================================== *)
(** * The file mover *)
(* ================================================================== *)

Section Mover.
Import FinalBatchMove.

Lemma str_of_nat_inj (n m : nat) : Py.str_of_nat n = Py.str_of_nat m -> n = m.
Proof.
  unfold Py.str_of_nat. intros Heq. apply Unsigned.to_uint_inj.
  pose proof (NilEmpty.usu (Nat.to_uint n)) as Hn.
  rewrite Heq, NilEmpty.usu in Hn. congruence.
Qed.

Lemma string_length_app (a b : string) :
  String.length (a +:+ b) = String.length a + String.length b.
Proof. induction a as [|c a IH]; [done|]. rewrite string_app_cons. simpl. lia. Qed.

Lemma string_app_inv_tail (a b s : string) : a +:+ s = b +:+ s -> a = b.
Proof.
  revert b; induction a as [|c a IH]; intros [|d b] Heq.
  - done.
  - apply (f_equal String.length) in Heq.
    rewrite string_app_empty_l, string_app_cons in Heq. simpl in Heq.
    rewrite string_length_app in Heq. lia.
  - apply (f_equal String.length) in Heq.
    rewrite string_app_empty_l, string_app_cons in Heq. simpl in Heq.
    rewrite string_length_app in Heq. lia.
  - rewrite !string_app_cons in Heq. injection Heq as -> Heq. f_equal. auto.
Qed.

Lemma prefix_empty (s : string) : String.prefix EmptyString s = true.
Proof. now destruct s. Qed.

Lemma startswith_app_fixed (s r r' : string) :
  Py.startswith (s +:+ "_" +:+ r) "/" = Py.startswith (s +:+ "_" +:+ r') "/".
Proof.
  destruct s as [|c s]; [reflexivity|].
  rewrite !string_app_cons. unfold Py.startswith. cbn [String.prefix].
  destruct (Ascii.ascii_dec "/" c); [|done]. now rewrite !prefix_empty.
Qed.

(** The numbered candidates of one file are pairwise different. *)
Lemma numbered_inj (file_path : string) (j k : nat) :
  numbered file_path j = numbered file_path k -> j = k.
Proof.
  unfold numbered, path_div, Py.join.
  rewrite (startswith_app_fixed _ _
             (Py.str_of_nat k +:+ suffix file_path)).
  destruct (Py.startswith _ "/");
    [|destruct (_ || _)]; intros Heq;
    repeat apply String.app_inj in Heq;
    now apply string_app_inv_tail, str_of_nat_inj in Heq.
Qed.

Lemma exists_dom (t : gmap string string) (p : string) :
  exists_ t p = true <-> p ∈ dom t.
Proof.
  unfold exists_. rewrite bool_decide_eq_true. symmetry. apply elem_of_dom.
Qed.

Lemma exists_false (t : gmap string string) (p : string) :
  exists_ t p = false <-> t !! p = None.
Proof.
  unfold exists_. rewrite bool_decide_eq_false, eq_None_not_Some. done.
Qed.

(** Once the numbered names are tried, the loop ends before its rounds
    run out: the candidates found to exist ([seen]) are all different. *)
Lemma free_dest_numbered_ends (t : gmap string string) (file_path : string)
    (fuel counter : nat) (seen : gset string) :
  seen ⊆ dom t ->
  (forall j, counter <= j -> numbered file_path j ∉ seen) ->
  size t < size seen + fuel ->
  is_Some (free_dest fuel t file_path (numbered file_path counter) (S counter)).
Proof.
  revert counter seen; induction fuel as [|fuel IH];
    intros counter seen Hsub Hfresh Hsize.
  - apply subseteq_size in Hsub. rewrite size_dom in Hsub. lia.
  - cbn [free_dest].
    destruct (exists_ t (numbered file_path counter)) eqn:Hex; [|eauto].
    apply exists_dom in Hex.
    apply (IH (S counter) ({[numbered file_path counter]} ∪ seen)).
    + apply union_subseteq. split; [|done]. now apply singleton_subseteq_l.
    + intros j Hj [Heq%elem_of_singleton|Hin]%elem_of_union.
      * apply numbered_inj in Heq. lia.
      * apply (Hfresh j); [lia | done].
    + rewrite size_union
        by (apply disjoint_singleton_l, Hfresh; lia).
      rewrite size_singleton. lia.
Qed.

(** The [while] loop always ends with the rounds [move_file] grants. *)
Lemma free_dest_ends (t : gmap string string) (file_path dest_path : string) :
  is_Some (free_dest (size t + 2) t file_path dest_path 1).
Proof.
  replace (size t + 2) with (S (S (size t))) by lia. cbn [free_dest].
  destruct (exists_ t dest_path); [|eauto].
  apply (free_dest_numbered_ends t file_path (S (size t)) 1 ∅).
  - apply empty_subseteq.
  - intros j _. apply not_elem_of_empty.
  - rewrite size_empty. lia.
Qed.

(** What the loop returns: the plain name if it is free, otherwise the
    numbered name with the least counter from [counter] on that is free. *)
Lemma free_dest_result (t : gmap string string) (file_path : string)
    (fuel : nat) (dest_path : string) (counter : nat) (d : string) :
  free_dest fuel t file_path dest_path counter = Some d ->
  t !! d = None /\
  (t !! dest_path = None -> d = dest_path) /\
  (is_Some (t !! dest_path) ->
   exists k, counter <= k /\ d = numbered file_path k /\
             forall j, counter <= j < k ->
                       is_Some (t !! numbered file_path j)).
Proof.
  revert dest_path counter; induction fuel as [|fuel IH];
    intros dest_path counter; [discriminate|].
  cbn [free_dest]. destruct (exists_ t dest_path) eqn:Hex.
  - intros Hd. apply IH in Hd as (Hfree & Hplain & Hnum).
    apply exists_dom, elem_of_dom in Hex.
    split; [done|]. split.
    { intros Hnone. rewrite Hnone in Hex. now destruct Hex. }
    intros _. destruct (t !! numbered file_path counter) as [c|] eqn:Hc.
    + destruct Hnum as (k & Hk & -> & Hbelow); [eauto|].
      exists k. split; [lia|]. split; [done|].
      intros j Hj. destruct (decide (j = counter)) as [->|]; [eauto|].
      apply Hbelow. lia.
    + exists counter. split; [done|]. split; [now apply Hplain|].
      intros j Hj. lia.
  - intros [= <-]. apply exists_false in Hex. split; [done|].
    split; [done|]. intros [c Hc]. congruence.
Qed.

Context `{MoveFaults}.

(** A move to a free destination touches the source and the destination
    only. *)
Lemma shutil_move_frame (t : gmap string string) (src dst q : string) :
  q <> src -> q <> dst ->
  fst (shutil_move t src dst) !! q = t !! q.
Proof.
  intros Hsrc Hdst. unfold shutil_move.
  destruct (t !! src) as [content|]; [|done].
  destruct (move_end_of t src dst); cbn [fst]; [|done|].
  - now rewrite lookup_insert_ne, lookup_delete_ne.
  - now rewrite lookup_insert_ne.
Qed.

Lemma shutil_move_done (t : gmap string string) (src dst : string) :
  src <> dst -> snd (shutil_move t src dst) = None ->
  fst (shutil_move t src dst) !! dst = t !! src /\
  fst (shutil_move t src dst) !! src = None.
Proof.
  intros Hne. unfold shutil_move.
  destruct (t !! src) as [content|] eqn:Hsrc; [|discriminate].
  destruct (move_end_of t src dst); cbn [fst snd]; [|discriminate..].
  intros _. rewrite lookup_insert_eq, lookup_insert_ne, lookup_delete_eq by done.
  done.
Qed.

(** One round of the loop, for a source that exists. *)
Lemma move_file_spec (st : state) (file_rel_path : string) :
  let file_path := path_div base_path file_rel_path in
  let plain := path_div consolidation_path (name file_path) in
  is_Some (fs st !! file_path) ->
  exists dest st',
    move_file st file_rel_path = Some st' /\
    fs st !! dest = None /\
    (fs st !! plain = None -> dest = plain) /\
    (is_Some (fs st !! plain) ->
     exists k, 1 <= k /\ dest = numbered file_path k /\
               forall j, 1 <= j < k ->
                         is_Some (fs st !! numbered file_path j)) /\
    (forall q, q <> file_path -> q <> dest -> fs st' !! q = fs st !! q) /\
    (moved_count st' = moved_count st + 1 ->
     fs st' !! dest = fs st !! file_path /\ fs st' !! file_path = None) /\
    (moved_count st' = moved_count st \/
     moved_count st' = moved_count st + 1).
Proof.
  intros file_path plain Hsrc. unfold move_file.
  fold file_path. fold plain.
  rewrite (proj2 (exists_dom (fs st) file_path)) by now apply elem_of_dom.
  destruct (free_dest_ends (fs st) file_path plain) as [dest Hdest].
  rewrite Hdest.
  destruct (free_dest_result _ _ _ _ _ _ Hdest) as (Hfree & Hplain & Hnum).
  assert (file_path <> dest) as Hne.
  { intros ->. rewrite Hfree in Hsrc. now destruct Hsrc. }
  pose proof (shutil_move_frame (fs st) file_path dest) as Hframe.
  pose proof (shutil_move_done (fs st) file_path dest Hne) as Hdone.
  destruct (shutil_move (fs st) file_path dest) as [t' [e|]];
    cbn [fst snd] in *; eexists dest, _; (split; [reflexivity|]);
    cbn [fs moved_count]; repeat split; auto; try lia;
    now apply Hdone.
Qed.

End Mover.

(** C10.  For a source that exists, one round of the loop ends, and the
    destination it moves to did not exist before: it is the plain name
    in the consolidation directory when that is free, and otherwise the
    numbered name [stem_k suffix] with the least [k >= 1] that is free.
    Whatever the end of the move, every other path keeps what it held,
    so no file that was there is overwritten; after a move that
    succeeded the destination holds what the source held.  Over a whole
    list the loop ends, and a file that is not one of the sources still
    holds at the end what it held at the start. *)
Theorem mover_never_overwrites `{FinalBatchMove.MoveFaults}
    (st : FinalBatchMove.state) :
  (forall file_rel_path,
     let file_path :=
       FinalBatchMove.path_div FinalBatchMove.base_path file_rel_path in
     let plain :=
       FinalBatchMove.path_div FinalBatchMove.consolidation_path
         (FinalBatchMove.name file_path) in
     is_Some (FinalBatchMove.fs st !! file_path) ->
     exists dest st',
       FinalBatchMove.move_file st file_rel_path = Some st' /\
       FinalBatchMove.fs st !! dest = None /\
       (FinalBatchMove.fs st !! plain = None -> dest = plain) /\
       (is_Some (FinalBatchMove.fs st !! plain) ->
        exists k, 1 <= k /\ dest = FinalBatchMove.numbered file_path k /\
                  forall j, 1 <= j < k ->
                    is_Some (FinalBatchMove.fs st !!
                               FinalBatchMove.numbered file_path j)) /\
       (forall q, q <> file_path -> q <> dest ->
                  FinalBatchMove.fs st' !! q = FinalBatchMove.fs st !! q) /\
       (FinalBatchMove.moved_count st' = FinalBatchMove.moved_count st + 1 ->
        FinalBatchMove.fs st' !! dest = FinalBatchMove.fs st !! file_path /\
        FinalBatchMove.fs st' !! file_path = None)) /\
  (forall files,
     exists st',
       FinalBatchMove.move_files st files = Some st' /\
       forall q content,
         FinalBatchMove.fs st !! q = Some content ->
         (forall file_rel_path, file_rel_path ∈ files ->
            q <> FinalBatchMove.path_div FinalBatchMove.base_path
                   file_rel_path) ->
         FinalBatchMove.fs st' !! q = Some content).
Proof.
  split.
  - intros rel file_path plain Hsrc.
    destruct (move_file_spec st rel Hsrc)
      as (dest & st' & ? & ? & ? & ? & ? & ? & _).
    exists dest, st'. repeat split; auto; tauto.
  - intros files. revert st. induction files as [|rel files IH]; intros st.
    + exists st. split; [done | auto].
    + cbn [FinalBatchMove.move_files].
      destruct (FinalBatchMove.fs st !!
                  FinalBatchMove.path_div FinalBatchMove.base_path rel)
        as [c|] eqn:Hsrc.
      * destruct (move_file_spec st rel (mk_is_Some _ _ Hsrc))
          as (dest & st1 & -> & Hfree & _ & _ & Hframe & _).
        destruct (IH st1) as (st' & -> & Hkeep).
        exists st'. split; [done|]. intros q content Hq Hnot.
        apply Hkeep.
        -- rewrite Hframe; [done | apply Hnot; now left |].
           intros ->. congruence.
        -- intros r Hr. apply Hnot. now right.
      * unfold FinalBatchMove.move_file.
        rewrite (proj2 (exists_false _ _) Hsrc).
        destruct (IH st) as (st' & -> & Hkeep).
        exists st'. split; [done|]. intros q content Hq Hnot.
        apply Hkeep; [done|]. intros r Hr. apply Hnot. now right.
Qed.

Lemma mover_never_overwrites_witness :
  is_Some (Demo.crowded !!
             "/Users/max/Development/active/fullmind/app/notes.md") /\
  exists dest st',
    @FinalBatchMove.move_file Demo.no_faults Demo.crowded_start "app/notes.md"
      = Some st' /\
    Demo.crowded !! dest = None.
Proof.
  assert (is_Some (Demo.crowded !!
             "/Users/max/Development/active/fullmind/app/notes.md")) as Hsrc.
  { exists "new notes". vm_compute. reflexivity. }
  split; [exact Hsrc|].
  destruct (@mover_never_overwrites Demo.no_faults Demo.crowded_start)
    as [Hstep _].
  destruct (Hstep "app/notes.md" Hsrc) as (dest & st' & Hmove & Hfree & _).
  exists dest, st'. split; [exact Hmove | exact Hfree].
Defined.

(** The new file goes to [notes_2.md]; the two files that were there keep
    their contents. *)
Example mover_run :
  (st' ← @FinalBatchMove.move_file Demo.no_faults Demo.crowded_start
           "app/notes.md";
   Some (FinalBatchMove.fs st' !!
           "/Users/max/Development/active/fullmind/temp_consolidation/notes_2.md",
         FinalBatchMove.fs st' !!
           "/Users/max/Development/active/fullmind/temp_consolidation/notes_1.md",
         FinalBatchMove.fs st' !!
           "/Users/max/Development/active/fullmind/temp_consolidation/notes.md",
         FinalBatchMove.fs st' !!
           "/Users/max/Development/active/fullmind/app/notes.md",
         FinalBatchMove.moved_count st', FinalBatchMove.printed st'))
  = Some (Some "new notes", Some "older notes", Some "old notes", None, 1,
          ["Moved: app/notes.md -> notes_2.md"]).
Proof. vm_compute. reflexivity. Qed.

(* ================================================================== *)
(** * More on the tree walkers *)
(* ================================================================== *)

Section WalkerForms.
Import Py.

Lemma fold_left_concat {A B : Type} (g : list B -> A -> list B)
    (h : A -> list B) (l : list A) (acc : list B) :
  (forall acc x, g acc x = acc ++ h x) ->
  fold_left g l acc = acc ++ concat (map h l).
Proof.
  intros Hg. revert acc; induction l as [|x l IH]; intros acc;
    cbn [fold_left map concat].
  - now rewrite app_nil_r.
  - now rewrite IH, Hg, app_assoc.
Qed.

Lemma kept_of_cons (keep : string -> bool) (root f : string)
    (filenames : list string) :
  Runs.kept_of keep root (f :: filenames) =
  (if endswith_any f [".ts"; ".tsx"] && keep (join root f)
   then [join root f] else []) ++ Runs.kept_of keep root filenames.
Proof.
  unfold Runs.kept_of. rewrite filter_cons.
  destruct (endswith_any f [".ts"; ".tsx"]); case_decide; try done.
  rewrite fmap_cons, filter_cons. cbn [andb].
  destruct (keep (join root f)); now case_decide.
Qed.

Lemma collect_dir_kept (root : string) (files filenames : list string) :
  FindUnused.collect_dir root files filenames =
  files ++ Runs.kept_of FindUnused.should_check root filenames.
Proof.
  unfold FindUnused.collect_dir.
  revert files; induction filenames as [|f filenames IH]; intros files;
    cbn [fold_left].
  - unfold Runs.kept_of. now rewrite app_nil_r.
  - rewrite IH, kept_of_cons.
    destruct (endswith_any f [".ts"; ".tsx"]); cbn [andb]; [|done].
    destruct (FindUnused.should_check (join root f)); [|done].
    now rewrite <- app_assoc.
Qed.

Lemma truly_collect_dir_kept (root : string)
    (all_files filenames : list string) :
  FindTrulyUnused.collect_dir root all_files filenames =
  all_files ++
  Runs.kept_of (fun p => negb (FindTrulyUnused.should_skip p)) root filenames.
Proof.
  unfold FindTrulyUnused.collect_dir.
  revert all_files; induction filenames as [|f filenames IH];
    intros all_files; cbn [fold_left].
  - unfold Runs.kept_of. now rewrite app_nil_r.
  - rewrite IH, kept_of_cons.
    destruct (endswith_any f [".ts"; ".tsx"]); cbn [andb]; [|done].
    destruct (FindTrulyUnused.should_skip (join root f)); cbn [negb]; [done|].
    now rewrite <- app_assoc.
Qed.

Lemma endswith_app (a s suf : string) :
  endswith s suf = true -> endswith (a +:+ s) suf = true.
Proof.
  intros Hs. induction a as [|c a IH]; [done|].
  rewrite string_app_cons. cbn [endswith]. rewrite IH. apply orb_true_r.
Qed.

Lemma endswith_any_join (root f : string) (sufs : list string) :
  endswith_any f sufs = true -> endswith_any (join root f) sufs = true.
Proof.
  unfold endswith_any. rewrite !existsb_exists.
  intros (suf & Hin & Hsuf). exists suf. split; [done|].
  unfold join. destruct (startswith f "/"); [done|].
  destruct (_ || _); repeat apply endswith_app; done.
Qed.

Lemma elem_of_kept_of (keep : string -> bool) (root : string)
    (filenames : list string) (p : string) :
  p ∈ Runs.kept_of keep root filenames ->
  endswith_any p [".ts"; ".tsx"] = true /\ keep p = true.
Proof.
  unfold Runs.kept_of.
  intros [Hkeep (f & -> & [Hext _]%list_elem_of_filter)%list_elem_of_fmap]
    %list_elem_of_filter.
  split; [|now apply Is_true_true].
  now apply endswith_any_join, Is_true_true.
Qed.

End WalkerForms.

(** X1.  Each walker yields, directory after directory in the order of
    [os.walk], the files of the directory whose name ends in [.ts] or
    [.tsx] and whose path passes the variant's filter, in the order of
    the listing; so every path yielded ends in [.ts] or [.tsx]. *)
Theorem walkers_keep_source_files_in_walk_order (fs : option OsWalk.tree) :
  FindUnused.get_all_source_files fs =
    concat (map (fun '(root, _, filenames) =>
                   Runs.kept_of FindUnused.should_check root filenames)
                (OsWalk.walk FindUnused.SRC_DIR fs)) /\
  FindTrulyUnused.all_source_files fs =
    concat (map (fun '(root, _, filenames) =>
                   Runs.kept_of
                     (fun p => negb (FindTrulyUnused.should_skip p))
                     root filenames)
                (OsWalk.walk FindTrulyUnused.SRC_DIR fs)) /\
  (forall p,
     p ∈ FindUnused.get_all_source_files fs \/
     p ∈ FindTrulyUnused.all_source_files fs ->
     Py.endswith_any p [".ts"; ".tsx"] = true).
Proof.
  assert (FindUnused.get_all_source_files fs =
    concat (map (fun '(root, _, filenames) =>
                   Runs.kept_of FindUnused.should_check root filenames)
                (OsWalk.walk FindUnused.SRC_DIR fs))) as Hthreshold.
  { unfold FindUnused.get_all_source_files.
    rewrite (fold_left_concat _
               (fun '(root, _, filenames) =>
                  Runs.kept_of FindUnused.should_check root filenames)).
    - done.
    - intros acc [[root dirs] filenames]. apply collect_dir_kept. }
  assert (FindTrulyUnused.all_source_files fs =
    concat (map (fun '(root, _, filenames) =>
                   Runs.kept_of
                     (fun p => negb (FindTrulyUnused.should_skip p))
                     root filenames)
                (OsWalk.walk FindTrulyUnused.SRC_DIR fs))) as Hboolean.
  { unfold FindTrulyUnused.all_source_files.
    rewrite (fold_left_concat _
               (fun '(root, _, filenames) =>
                  Runs.kept_of
                    (fun p => negb (FindTrulyUnused.should_skip p))
                    root filenames)).
    - done.
    - intros acc [[root dirs] filenames]. apply truly_collect_dir_kept. }
  split; [exact Hthreshold | split; [exact Hboolean|]].
  intros p [Hin|Hin].
  - rewrite Hthreshold in Hin.
    apply list_elem_of_In, in_concat in Hin as (l & Hl & Hp).
    apply in_map_iff in Hl as ([[root dirs] filenames] & <- & _).
    now apply list_elem_of_In, elem_of_kept_of in Hp as [Hext _].
  - rewrite Hboolean in Hin.
    apply list_elem_of_In, in_concat in Hin as (l & Hl & Hp).
    apply in_map_iff in Hl as ([[root dirs] filenames] & <- & _).
    now apply list_elem_of_In, elem_of_kept_of in Hp as [Hext _].
Qed.

Lemma walkers_keep_source_files_in_walk_order_witness :
  Py.endswith_any "src/services/Orphan.ts" [".ts"; ".tsx"] = true.
Proof.
  destruct (walkers_keep_source_files_in_walk_order (Some Demo.src_tree))
    as (_ & _ & Hext).
  apply Hext. left. by_eval.
Defined.

Section Patterns.
Import Py.

Lemma string_app_assoc (a b c : string) : (a +:+ b) +:+ c = a +:+ b +:+ c.
Proof.
  induction a as [|x a IH]; [done|].
  rewrite !string_app_cons. now rewrite IH.
Qed.

(** Where a string occurs, each of its prefixes occurs. *)
Lemma occurs_in_prefix (a b h : string) :
  occurs_in (a +:+ b) h -> occurs_in a h.
Proof.
  intros (pre & post & ->). exists pre, (b +:+ post).
  now rewrite string_app_assoc.
Qed.

Lemma should_check_four (p : string) :
  FindUnused.should_check p = true <->
  ~ occurs_in "index.ts" p /\ ~ occurs_in ".test.ts" p /\
  ~ occurs_in ".d.ts" p /\ ~ occurs_in "App.tsx" p.
Proof.
  unfold FindUnused.should_check. rewrite should_check_from_true. split.
  - intros Hall. repeat split; apply Hall; by_eval.
  - intros (Hindex & Htest & Hd & Happ) pattern Hin.
    unfold FindUnused.EXCLUDE_PATTERNS in Hin.
    repeat (apply elem_of_cons in Hin as [->|Hin]); try done.
    + intros Hocc. apply Hindex. now apply (occurs_in_prefix "index.ts" "x").
    + intros Hocc. apply Htest. now apply (occurs_in_prefix ".test.ts" "x").
    + inversion Hin.
Qed.

Lemma should_skip_three (p : string) :
  FindTrulyUnused.should_skip p = false <->
  ~ occurs_in ".test.ts" p /\ ~ occurs_in ".d.ts" p /\
  ~ occurs_in "index.ts" p /\
  basename p ∉ FindTrulyUnused.KNOWN_USED.
Proof.
  rewrite should_skip_false. split.
  - intros [Hall Hknown]. repeat split; try done; apply Hall; by_eval.
  - intros (Htest & Hd & Hindex & Hknown). split; [|done].
    intros pattern Hin. unfold FindTrulyUnused.SKIP_PATTERNS in Hin.
    repeat (apply elem_of_cons in Hin as [->|Hin]); try done.
    + intros Hocc. apply Htest. now apply (occurs_in_prefix ".test.ts" "x").
    + intros Hocc. apply Hindex. now apply (occurs_in_prefix "index.ts" "x").
    + inversion Hin.
Qed.

End Patterns.

(** X2.  Of the exclusion patterns, [index.tsx] and [.test.tsx] exclude
    nothing that [index.ts] and [.test.ts] do not exclude already: a path
    passes [should_check] exactly when none of [index.ts], [.test.ts],
    [.d.ts] and [App.tsx] occurs in it, and [should_skip] lets a path
    through exactly when none of [.test.ts], [.d.ts] and [index.ts]
    occurs in it and its base name is not in [KNOWN_USED]. *)
Theorem longer_patterns_exclude_nothing_more (p : string) :
  (FindUnused.should_check p = true <->
   ~ Py.occurs_in "index.ts" p /\ ~ Py.occurs_in ".test.ts" p /\
   ~ Py.occurs_in ".d.ts" p /\ ~ Py.occurs_in "App.tsx" p) /\
  (FindTrulyUnused.should_skip p = false <->
   ~ Py.occurs_in ".test.ts" p /\ ~ Py.occurs_in ".d.ts" p /\
   ~ Py.occurs_in "index.ts" p /\
   Py.basename p ∉ FindTrulyUnused.KNOWN_USED).
Proof. split; [apply should_check_four | apply should_skip_three]. Qed.

(** X3.  On one tree the two walkers differ only by their treatment of
    entry points: a candidate of the threshold variant whose base name
    is not in [KNOWN_USED] is a candidate of the boolean variant, and a
    candidate of the boolean variant in whose path [App.tsx] does not
    occur is a candidate of the threshold variant. *)
Theorem walkers_differ_by_entry_points (fs : option OsWalk.tree) (p : string) :
  (p ∈ FindUnused.get_all_source_files fs ->
   Py.basename p ∉ FindTrulyUnused.KNOWN_USED ->
   p ∈ FindTrulyUnused.all_source_files fs) /\
  (p ∈ FindTrulyUnused.all_source_files fs ->
   ~ Py.occurs_in "App.tsx" p ->
   p ∈ FindUnused.get_all_source_files fs).
Proof.
  split.
  - intros (root & dirs & filenames & f & Hwalk & Hf & Hext & -> & Hchk)
      %elem_of_get_all_source_files Hknown.
    apply elem_of_all_source_files. exists root, dirs, filenames, f.
    repeat split; try done.
    apply should_check_four in Hchk as (? & ? & ? & ?).
    now apply should_skip_three.
  - intros (root & dirs & filenames & f & Hwalk & Hf & Hext & -> & Hskip)
      %elem_of_all_source_files Happ.
    apply elem_of_get_all_source_files. exists root, dirs, filenames, f.
    repeat split; try done.
    apply should_skip_three in Hskip as (? & ? & ? & ?).
    now apply should_check_four.
Qed.

Lemma walkers_differ_by_entry_points_witness :
  "src/services/Orphan.ts" ∈
    FindTrulyUnused.all_source_files (Some Demo.src_tree) /\
  "src/a/b.ts" ∈ FindUnused.get_all_source_files (Some Demo.src_tree).
Proof.
  split.
  - apply (walkers_differ_by_entry_points (Some Demo.src_tree)); by_eval.
  - apply (walkers_differ_by_entry_points (Some Demo.src_tree));
      [by_eval|]. apply str_in_false_iff. reflexivity.
Defined.

(* ================================================================== *)
(** * What a report lists, and the total *)
(* ================================================================== *)

Section Listed.
Import Report.

Lemma listed_cons (k : string) (l : list string) (d : dict) :
  Runs.listed ((k, l) :: d) = l ++ Runs.listed d.
Proof. reflexivity. Qed.

Lemma listed_append (key v : string) (d : dict) :
  key ∈ keys d -> Runs.listed (append key v d) ≡ₚ Runs.listed d ++ [v].
Proof.
  unfold keys. induction d as [|[k l] d IH]; cbn [map fst append].
  - intros Hin. inversion Hin.
  - destruct (String.eqb_spec k key) as [->|Hne].
    + intros _. rewrite !listed_cons, <- !app_assoc.
      apply Permutation_app_head, Permutation_app_comm.
    + intros [Heq|Hin]%elem_of_cons; [congruence|].
      now rewrite !listed_cons, IH, app_assoc.
Qed.

(** Filing the files judged unused lists each of them once more. *)
Lemma listed_file_under (categorize : string -> string)
    (flags : list (string * bool)) (d : dict) :
  (forall p, categorize p ∈ keys d) ->
  keys (fold_left (Runs.file_under categorize) flags d) = keys d /\
  Runs.listed (fold_left (Runs.file_under categorize) flags d) ≡ₚ
  Runs.listed d ++ (filter (fun c => snd c = true) flags).*1.
Proof.
  revert d; induction flags as [|[p b] flags IH]; intros d Hkeys;
    cbn [fold_left].
  - now rewrite filter_nil, app_nil_r.
  - unfold Runs.file_under at 2 4. cbn [fst snd]. rewrite filter_cons.
    cbn [snd]. destruct b; case_decide; try done.
    + destruct (IH (append (categorize p) p d)) as [Hk Hl].
      { intros q. rewrite keys_append. apply Hkeys. }
      rewrite Hk, keys_append. split; [done|].
      rewrite Hl, listed_append by apply Hkeys.
      now rewrite fmap_cons, <- app_assoc.
    + now apply IH.
Qed.


End Listed.

Section ThresholdTotals.
Context {W : Type} `{Proc.World W}.
Import FindUnused.




End ThresholdTotals.


Section BooleanTotals.
Context {W : Type} `{Proc.World W}.
Import FindTrulyUnused.

Lemma truly_scan_step_file_under (w : W) (d : Report.dict) (filepath : string) :
  scan_step (w, d) filepath =
  (fst (search_for_import w (filename_base filepath) filepath),
   Runs.file_under categorize d
     (filepath,
      negb (snd (search_for_import w (filename_base filepath) filepath)))).
Proof.
  unfold scan_step, Runs.file_under.
  destruct (search_for_import w _ filepath) as [w' is_used]. cbn [fst snd].
  now destruct is_used.
Qed.

Lemma verdicts_cons (w : W) (filepath : string) (files : list string) :
  Runs.verdicts w (filepath :: files) =
  (filepath, snd (search_for_import w (filename_base filepath) filepath)) ::
  Runs.verdicts
    (fst (search_for_import w (filename_base filepath) filepath)) files.
Proof.
  cbn [Runs.verdicts]. now destruct (search_for_import w _ filepath).
Qed.

Lemma truly_scan_verdicts (files : list string) (w : W) (d : Report.dict) :
  snd (fold_left scan_step files (w, d)) =
  fold_left (Runs.file_under categorize)
    (map (fun v => (fst v, negb (snd v))) (Runs.verdicts w files)) d.
Proof.
  revert w d; induction files as [|filepath files IH]; intros w d; [done|].
  rewrite verdicts_cons. cbn [fold_left map fst snd].
  now rewrite truly_scan_step_file_under, IH.
Qed.



Lemma truly_report_main (w : W) (fs : option OsWalk.tree) :
  report (snd (main w fs)) =
  fold_left (Runs.file_under categorize)
    (map (fun v => (fst v, negb (snd v)))
       (Runs.verdicts w (Py.sorted (all_source_files fs))))
    truly_unused_init.
Proof.
  unfold main, scan. rewrite <- truly_scan_verdicts.
  destruct (fold_left _ _ _) as [w' d]. now destruct (print_results d).
Qed.


(** The pattern loop leaves the world as it is after the calls it made. *)
Lemma search_patterns_world (pats : list string) (w : W) (file_path : string) :
  fst (search_patterns w pats file_path) =
  Proc.after_all w
    (take (Runs.calls_made file_path (Proc.run_all w (map rg_call pats)))
          (map rg_call pats)).
Proof.
  revert w; induction pats as [|pattern pats IH]; intros w; [done|].
  cbn [search_patterns map Proc.run_all]. unfold rg_call.
  destruct (Proc.subprocess_run w _ 2) as [w' [rc stdout|e]] eqn:Hrun;
    cbn [Runs.calls_made settles].
  - destruct (matches_of file_path stdout);
      cbn [take Proc.after_all]; rewrite Hrun; cbn [fst]; [apply IH | done].
  - cbn [take Proc.after_all]. now rewrite Hrun.
Qed.

Lemma calls_made_bounds (file_path : string) (outs : list Proc.outcome) :
  Runs.calls_made file_path outs <= length outs /\
  (outs <> [] -> 1 <= Runs.calls_made file_path outs).
Proof.
  induction outs as [|o outs [IHle IHge]]; [done|].
  cbn [Runs.calls_made length].
  destruct (settles file_path o); split; intros; lia.
Qed.

Lemma length_run_all (w : W) (calls : list (list string * nat)) :
  length (Proc.run_all w calls) = length calls.
Proof.
  revert w; induction calls as [|[argv timeout] calls IH]; intros w; [done|].
  cbn [Proc.run_all]. destruct (Proc.subprocess_run w argv timeout).
  cbn [length]. now rewrite IH.
Qed.

End BooleanTotals.


(** X6.  The threshold variant runs one search for each candidate, in the
    ascending order of the paths.  The boolean variant runs, for a
    candidate, the searches of its four patterns in turn up to and with
    the first that settles the answer (a line left in [matches], or an
    exception): at least one and at most four. *)
Theorem searches_run_per_candidate
    {W : Type} `{Proc.World W} (w : W) :
  (forall fs,
     fst (FindUnused.main w fs) =
     Proc.after_all w
       (FindUnused.calls (Py.sorted (FindUnused.get_all_source_files fs))) /\
     length (FindUnused.calls
               (Py.sorted (FindUnused.get_all_source_files fs))) =
     length (FindUnused.get_all_source_files fs)) /\
  (forall filename_base file_path,
     let made :=
       Runs.calls_made file_path
         (Proc.run_all w (FindTrulyUnused.calls filename_base)) in
     fst (FindTrulyUnused.search_for_import w filename_base file_path) =
     Proc.after_all w (take made (FindTrulyUnused.calls filename_base)) /\
     1 <= made <= 4).
Proof.
  split.
  - intros fs. split.
    + unfold FindUnused.main, FindUnused.scan. rewrite scan_steps.
      now destruct (FindUnused.print_results _).
    + unfold FindUnused.calls. rewrite length_map.
      now rewrite sorted_Permutation.
  - intros filename_base file_path made. split.
    + apply search_patterns_world.
    + destruct (calls_made_bounds file_path
                  (Proc.run_all w (FindTrulyUnused.calls filename_base)))
        as [Hle Hge].
      rewrite length_run_all in Hle. split; [|exact Hle].
      apply Hge. intros Hnil. apply (f_equal length) in Hnil.
      rewrite length_run_all in Hnil. discriminate.
Qed.

(* ================================================================== *)
(** * What is printed *)
(* ================================================================== *)

Section Printed.
Import Report.

Lemma elem_of_listed (p : string) (d : dict) :
  p ∈ Runs.listed d <-> exists k l, (k, l) ∈ d /\ p ∈ l.
Proof.
  induction d as [|[k l] d IH].
  - split; [intros Hin; inversion Hin | intros (? & ? & Hin & _); inversion Hin].
  - rewrite listed_cons, elem_of_app, IH. split.
    + intros [Hl|(k' & l' & Hin & Hp)].
      * exists k, l. split; [now left | done].
      * exists k', l'. split; [now right | done].
    + intros (k' & l' & [Heq|Hin]%elem_of_cons & Hp).
      * injection Heq as -> ->. now left.
      * right. eauto.
Qed.

(** With distinct keys, the files listed are the files reported. *)
Lemma reported_listed (p : string) (d : dict) :
  NoDup (keys d) -> reported p d <-> p ∈ Runs.listed d.
Proof.
  intros Hnodup. rewrite elem_of_listed. unfold reported. split.
  - intros (k & l & Hget%get_elem_of & Hp). eauto.
  - intros (k & l & Hin & Hp). exists k, l. split; [|done].
    clear Hp. induction d as [|[k' l'] d IH]; [inversion Hin|].
    unfold keys in Hnodup. cbn [map fst] in Hnodup.
    apply NoDup_cons in Hnodup as [Hfresh Hnodup]. cbn [get].
    apply elem_of_cons in Hin as [Heq|Hin].
    + injection Heq as -> ->. now rewrite String.eqb_refl.
    + destruct (String.eqb_spec k' k) as [->|]; [|auto].
      destruct Hfresh. apply list_elem_of_fmap. now exists (k, l).
Qed.

(** The lines of the printing loop: those printed before, and for each
    category with files its header lines and one indented line a file. *)
Lemma print_loop_lines (header : string -> list string -> list string)
    (d : dict) (out : list string) (total : nat) (line : string) :
  line ∈ fst (Runs.print_loop header d (out, total)) <->
  line ∈ out \/
  exists k l, (k, l) ∈ d /\ l <> [] /\
    (line ∈ header k l \/ exists p, p ∈ l /\ line = "  " +:+ p).
Proof.
  unfold Runs.print_loop.
  revert out total; induction d as [|[k l] d IH]; intros out total;
    cbn [fold_left].
  - split; [now left | intros [?|(? & ? & Hin & _)]; [done | inversion Hin]].
  - destruct l as [|f l].
    + rewrite IH. split.
      * intros [?|(k' & l' & Hin & ?)]; [now left|].
        right. exists k', l'. split; [now right | done].
      * intros [?|(k' & l' & [Heq|Hin]%elem_of_cons & Hne & ?)];
          [now left | | right; eauto].
        injection Heq as -> ->. done.
    + rewrite IH, !elem_of_app. split.
      * intros [[?|[Hh|Hf]]|(k' & l' & Hin & ?)]; [now left | | |].
        -- right. exists k, (f :: l). split; [now left|]. split; [done|].
           now left.
        -- right. exists k, (f :: l). split; [now left|]. split; [done|].
           right. apply list_elem_of_fmap in Hf as (p & -> & Hp). eauto.
        -- right. exists k', l'. split; [now right | done].
      * intros [?|(k' & l' & [Heq|Hin]%elem_of_cons & Hne & Hline)];
          [now do 2 left | | right; eauto].
        injection Heq as -> ->. left; right.
        destruct Hline as [Hh|(p & Hp & ->)]; [now left|].
        right. apply list_elem_of_fmap. eauto.
Qed.

Lemma indent_inj (p q : string) : "  " +:+ p = "  " +:+ q -> p = q.
Proof. apply String.app_inj. Qed.

(** The indented lines of the printing loop, when no header line starts
    with a space, are those of the files listed. *)
Lemma print_loop_indented (header : string -> list string -> list string)
    (d : dict) (p : string) :
  (forall k l, "  " +:+ p ∉ header k l) ->
  "  " +:+ p ∈ fst (Runs.print_loop header d ([], 0)) <->
  p ∈ Runs.listed d.
Proof.
  intros Hheader. rewrite print_loop_lines, elem_of_listed. split.
  - intros [Hin|(k & l & Hin & _ & [Hh|(q & Hq & ->%indent_inj)])].
    + inversion Hin.
    + now apply Hheader in Hh.
    + eauto.
  - intros (k & l & Hin & Hp). right. exists k, l. split; [done|].
    split; [intros ->; inversion Hp|]. right. eauto.
Qed.

End Printed.

(** X7.  In both variants a path is printed as an indented line
    (["  " + path]) exactly when the report lists it under some
    category: the headers, the rules and the fixed lines of [main] are
    never mistaken for a file. *)
Theorem printed_files_are_the_reported_files
    {W : Type} `{Proc.World W} (w : W) (fs : option OsWalk.tree) (p : string) :
  ("  " +:+ p ∈ FindUnused.printed (snd (FindUnused.main w fs)) <->
   Report.reported p (FindUnused.report (snd (FindUnused.main w fs)))) /\
  ("  " +:+ p ∈ FindTrulyUnused.printed (snd (FindTrulyUnused.main w fs)) <->
   Report.reported p
     (FindTrulyUnused.report (snd (FindTrulyUnused.main w fs)))).
Proof.
  split.
  - rewrite reported_listed.
    2:{ unfold FindUnused.main, FindUnused.scan. rewrite scan_steps.
        destruct (FindUnused.print_results _). cbn [snd FindUnused.report].
        rewrite keys_record. by_eval. }
    unfold FindUnused.main. destruct (FindUnused.scan w _) as [w' d].
    pose proof (print_loop_indented
      (fun category files =>
         [String Py.newline (Py.upper category) +:+ " (" +:+
            Py.str_of_nat (length files) +:+ "):";
          Py.repeat_char "-" 60]) d p) as Hloop.
    change (Runs.print_loop _ d ([], 0)) with (FindUnused.print_results d)
      in Hloop.
    destruct (FindUnused.print_results d) as [out total].
    cbn [snd fst FindUnused.printed FindUnused.report] in *.
    rewrite <- Hloop.
    2:{ intros k l Hin.
        repeat (apply elem_of_cons in Hin as [Hin|Hin]; [discriminate|]).
        inversion Hin. }
    rewrite !elem_of_app. split; [|tauto].
    intros [Hin|[?|Hin]]; [|done|];
      repeat (apply elem_of_cons in Hin as [Hin|Hin]; [discriminate|]);
      inversion Hin.
  - rewrite reported_listed.
    2:{ rewrite truly_report_main.
        destruct (listed_file_under FindTrulyUnused.categorize
          (map (fun v => (fst v, negb (snd v)))
             (Runs.verdicts w
                (Py.sorted (FindTrulyUnused.all_source_files fs))))
          FindTrulyUnused.truly_unused_init truly_categorize_key)
          as [-> _].
        by_eval. }
    unfold FindTrulyUnused.main.
    destruct (FindTrulyUnused.scan w _) as [w' d].
    pose proof (print_loop_indented
      (fun category files =>
         [String Py.newline (Py.upper category) +:+ ":";
          Py.repeat_char "-" 70]) d p) as Hloop.
    change (Runs.print_loop _ d ([], 0))
      with (FindTrulyUnused.print_results d) in Hloop.
    destruct (FindTrulyUnused.print_results d) as [out total].
    cbn [snd fst FindTrulyUnused.printed FindTrulyUnused.report] in *.
    rewrite <- Hloop.
    2:{ intros k l Hin.
        repeat (apply elem_of_cons in Hin as [Hin|Hin]; [discriminate|]).
        inversion Hin. }
    rewrite !elem_of_app. split; [|tauto].
    intros [Hin|[?|[Hin|Hin]]]; [|done| |].
    + repeat (apply elem_of_cons in Hin as [Hin|Hin]; [discriminate|]).
      inversion Hin.
    + repeat (apply elem_of_cons in Hin as [Hin|Hin]; [discriminate|]).
      inversion Hin.
    + destruct (0 <? total); [|inversion Hin].
      unfold FindTrulyUnused.recommendations in Hin.
      repeat (apply elem_of_cons in Hin as [Hin|Hin]; [discriminate|]).
      inversion Hin.
Qed.

(* ================================================================== *)
(** * More on the cleanup script *)
(* ================================================================== *)

Section CleanupLines.
Context {FS : Type} `{CleanupTempFiles.FileSystem FS}.
Import CleanupTempFiles RemovalLaws.

Lemma remove_file_line (st : state FS) (p : string) :
  exists line,
    printed (remove_file st p) = printed st ++ [line] /\ file_line p line /\
    count st <= count (remove_file st p) <= count st + 1.
Proof.
  unfold remove_file, file_line.
  destruct (path_exists (fs st) p);
    [destruct (os_remove (fs st) p) as [fs' [e|]]|];
    cbn [printed count]; eexists; (split; [reflexivity|]); split; eauto; lia.
Qed.

Lemma remove_dir_line (st : state FS) (p : string) :
  exists line,
    printed (remove_dir st p) = printed st ++ [line] /\ dir_line p line /\
    count st <= count (remove_dir st p) <= count st + 1.
Proof.
  unfold remove_dir, dir_line.
  destruct (path_exists (fs st) p);
    [destruct (shutil_rmtree (fs st) p) as [fs' [e|]]|];
    cbn [printed count]; eexists; (split; [reflexivity|]); split; eauto; lia.
Qed.

(** A loop that prints one line of its own for each path. *)
Lemma fold_lines (step : state FS -> string -> state FS)
    (about : string -> string -> Prop) :
  (forall st p, exists line,
     printed (step st p) = printed st ++ [line] /\ about p line /\
     count st <= count (step st p) <= count st + 1) ->
  forall paths st, exists lines,
    printed (fold_left step paths st) = printed st ++ lines /\
    Forall2 about paths lines /\
    count st <= count (fold_left step paths st) <= count st + length paths.
Proof.
  intros Hstep. induction paths as [|p paths IH]; intros st; cbn [fold_left].
  - exists []. rewrite app_nil_r. repeat split; [constructor | lia | cbn; lia].
  - destruct (Hstep st p) as (line & Hline & Habout & Hcount).
    destruct (IH (step st p)) as (lines & Hlines & Hall & Hcounts).
    exists (line :: lines). rewrite Hlines, Hline, <- app_assoc.
    repeat split; [now constructor | lia | cbn [length]; lia].
Qed.

End CleanupLines.

(** X8.  The cleanup script prints exactly one line for each listed path,
    in the order of the two lists: a removal, a not-found notice, or the
    error of a removal that raised, after which the loop goes on.  The
    count is at most the number of paths. *)
Theorem cleanup_prints_one_line_per_path
    {FS : Type} `{CleanupTempFiles.FileSystem FS}
    (files dirs : list string) (fs0 : FS) :
  exists file_lines dir_lines,
    CleanupTempFiles.printed (CleanupTempFiles.cleanup files dirs fs0) =
      file_lines ++ dir_lines /\
    Forall2 RemovalLaws.file_line files file_lines /\
    Forall2 RemovalLaws.dir_line dirs dir_lines /\
    CleanupTempFiles.count (CleanupTempFiles.cleanup files dirs fs0)
      <= length files + length dirs.
Proof.
  unfold CleanupTempFiles.cleanup.
  destruct (fold_lines CleanupTempFiles.remove_file RemovalLaws.file_line
              remove_file_line files
              {| CleanupTempFiles.fs := fs0; CleanupTempFiles.count := 0;
                 CleanupTempFiles.printed := [] |})
    as (file_lines & Hfiles & Hfile_lines & Hcount1).
  destruct (fold_lines CleanupTempFiles.remove_dir RemovalLaws.dir_line
              remove_dir_line dirs
              (fold_left CleanupTempFiles.remove_file files
                 {| CleanupTempFiles.fs := fs0; CleanupTempFiles.count := 0;
                    CleanupTempFiles.printed := [] |}))
    as (dir_lines & Hdirs & Hdir_lines & Hcount2).
  exists file_lines, dir_lines. rewrite Hdirs, Hfiles.
  cbn [CleanupTempFiles.printed CleanupTempFiles.count] in *.
  repeat split; try done. lia.
Qed.

Section CleanupPost.
Context {FS : Type} `{CleanupTempFiles.FileSystem FS}.
Import CleanupTempFiles RemovalLaws.
Hypothesis laws : lawful FS.

Lemma remove_file_absent (st : state FS) (p q : string) :
  path_exists (fs st) q = false ->
  path_exists (fs (remove_file st p)) q = false.
Proof.
  intros Hq. unfold remove_file.
  destruct (path_exists (fs st) p); [|done].
  pose proof (remove_creates_nothing laws (fs st) p q) as Hlaw.
  destruct (os_remove (fs st) p) as [fs' [e|]]; cbn [fs fst] in *;
    destruct (path_exists fs' q); auto; rewrite Hlaw in Hq; done.
Qed.

Lemma remove_dir_absent (st : state FS) (p q : string) :
  path_exists (fs st) q = false ->
  path_exists (fs (remove_dir st p)) q = false.
Proof.
  intros Hq. unfold remove_dir.
  destruct (path_exists (fs st) p); [|done].
  pose proof (rmtree_creates_nothing laws (fs st) p q) as Hlaw.
  destruct (shutil_rmtree (fs st) p) as [fs' [e|]]; cbn [fs fst] in *;
    destruct (path_exists fs' q); auto; rewrite Hlaw in Hq; done.
Qed.

Lemma remove_file_settles (st : state FS) (p : string) :
  settled (remove_file st p) p.
Proof.
  unfold settled, remove_file.
  destruct (path_exists (fs st) p) eqn:Hp; [|now left].
  pose proof (remove_removes laws (fs st) p) as Hlaw.
  destruct (os_remove (fs st) p) as [fs' [e|]]; cbn [fs printed].
  - right. eexists. split; [apply elem_of_app; right; now left|]. reflexivity.
  - left. now apply Hlaw.
Qed.

Lemma remove_dir_settles (st : state FS) (p : string) :
  settled (remove_dir st p) p.
Proof.
  unfold settled, remove_dir.
  destruct (path_exists (fs st) p) eqn:Hp; [|now left].
  pose proof (rmtree_removes laws (fs st) p) as Hlaw.
  destruct (shutil_rmtree (fs st) p) as [fs' [e|]]; cbn [fs printed].
  - right. eexists. split; [apply elem_of_app; right; now left|]. reflexivity.
  - left. now apply Hlaw.
Qed.

Lemma settled_kept (step : state FS -> string -> state FS) :
  (forall st p q, path_exists (fs st) q = false ->
                  path_exists (fs (step st p)) q = false) ->
  (forall st p, exists line, printed (step st p) = printed st ++ [line]) ->
  forall st p q, settled st q -> settled (step st p) q.
Proof.
  intros Habsent Hline st p q [Hq|(line & Hin & Herr)].
  - left. now apply Habsent.
  - right. exists line. split; [|done].
    destruct (Hline st p) as [l ->]. apply elem_of_app. now left.
Qed.

Lemma fold_settles (step : state FS -> string -> state FS) :
  (forall st p q, settled st q -> settled (step st p) q) ->
  (forall st p, settled (step st p) p) ->
  forall paths st q,
    settled st q \/ q ∈ paths -> settled (fold_left step paths st) q.
Proof.
  intros Hkept Hdone. induction paths as [|p paths IH]; intros st q;
    cbn [fold_left].
  - intros [?|Hin]; [done | inversion Hin].
  - intros [Hq|[->|Hin]%elem_of_cons]; apply IH; auto.
Qed.

Lemma remove_file_kept (st : state FS) (p q : string) :
  settled st q -> settled (remove_file st p) q.
Proof.
  apply (settled_kept remove_file); [apply remove_file_absent|].
  intros st' p'. destruct (remove_file_line st' p') as (line & ? & _). eauto.
Qed.

Lemma remove_dir_kept (st : state FS) (p q : string) :
  settled st q -> settled (remove_dir st p) q.
Proof.
  apply (settled_kept remove_dir); [apply remove_dir_absent|].
  intros st' p'. destruct (remove_dir_line st' p') as (line & ? & _). eauto.
Qed.

Lemma cleanup_settles (files dirs : list string) (fs0 : FS) (p : string) :
  p ∈ files ++ dirs -> settled (cleanup files dirs fs0) p.
Proof.
  intros [Hin|Hin]%elem_of_app; unfold cleanup.
  - apply (fold_settles remove_dir remove_dir_kept remove_dir_settles).
    left.
    apply (fold_settles remove_file remove_file_kept remove_file_settles).
    now right.
  - apply (fold_settles remove_dir remove_dir_kept remove_dir_settles).
    now right.
Qed.

(** Where every path is absent, a loop removes nothing. *)
Lemma fold_absent (paths : list string) (st : state FS) :
  (forall p, p ∈ paths -> path_exists (fs st) p = false) ->
  fs (fold_left remove_file paths st) = fs st /\
  count (fold_left remove_file paths st) = count st.
Proof.
  revert st; induction paths as [|p paths IH]; intros st Habsent; [done|].
  cbn [fold_left].
  assert (remove_file st p =
          {| fs := fs st; count := count st;
             printed := printed st ++ ["File not found: " +:+ p] |}) as ->.
  { unfold remove_file. rewrite Habsent; [done | now left]. }
  destruct (IH {| fs := fs st; count := count st;
                  printed := printed st ++ ["File not found: " +:+ p] |})
    as [-> ->]; [|done].
  intros q Hq. apply Habsent. now right.
Qed.

Lemma fold_absent_dirs (paths : list string) (st : state FS) :
  (forall p, p ∈ paths -> path_exists (fs st) p = false) ->
  fs (fold_left remove_dir paths st) = fs st /\
  count (fold_left remove_dir paths st) = count st.
Proof.
  revert st; induction paths as [|p paths IH]; intros st Habsent; [done|].
  cbn [fold_left].
  assert (remove_dir st p =
          {| fs := fs st; count := count st;
             printed := printed st ++ ["Directory not found: " +:+ p] |}) as ->.
  { unfold remove_dir. rewrite Habsent; [done | now left]. }
  destruct (IH {| fs := fs st; count := count st;
                  printed := printed st ++ ["Directory not found: " +:+ p] |})
    as [-> ->]; [|done].
  intros q Hq. apply Habsent. now right.
Qed.

End CleanupPost.

(** X9.  On a file system where a removal that returns has removed its
    path and no removal creates a path, every listed path is absent when
    the script ends, unless the error of a removal was printed.  After a
    run that printed no error, a second run finds nothing to remove: it
    leaves the tree as it is and counts 0. *)
Theorem cleanup_leaves_listed_paths_absent
    {FS : Type} `{CleanupTempFiles.FileSystem FS}
    (laws : RemovalLaws.lawful FS)
    (files dirs : list string) (fs0 : FS) :
  let st := CleanupTempFiles.cleanup files dirs fs0 in
  (forall p, p ∈ files ++ dirs ->
     CleanupTempFiles.path_exists (CleanupTempFiles.fs st) p = false \/
     exists line, line ∈ CleanupTempFiles.printed st /\
                  Py.startswith line "Error removing" = true) /\
  ((forall line, line ∈ CleanupTempFiles.printed st ->
                 Py.startswith line "Error removing" = false) ->
   let again :=
     CleanupTempFiles.cleanup files dirs (CleanupTempFiles.fs st) in
   CleanupTempFiles.fs again = CleanupTempFiles.fs st /\
   CleanupTempFiles.count again = 0).
Proof.
  intros st. split.
  - intros p Hin. now apply (cleanup_settles laws).
  - intros Hclean again.
    assert (forall p, p ∈ files ++ dirs ->
              CleanupTempFiles.path_exists (CleanupTempFiles.fs st) p = false)
      as Habsent.
    { intros p Hin.
      destruct (cleanup_settles laws files dirs fs0 p Hin)
        as [Hp|(line & Hline & Herr)]; [done|].
      apply Hclean in Hline. fold st in Hline. congruence. }
    unfold again, CleanupTempFiles.cleanup.
    destruct (fold_absent files
                {| CleanupTempFiles.fs := CleanupTempFiles.fs st;
                   CleanupTempFiles.count := 0;
                   CleanupTempFiles.printed := [] |}) as [Hfs Hcount].
    { intros p Hp. apply Habsent, elem_of_app. now left. }
    destruct (fold_absent_dirs dirs
                (fold_left CleanupTempFiles.remove_file files
                   {| CleanupTempFiles.fs := CleanupTempFiles.fs st;
                      CleanupTempFiles.count := 0;
                      CleanupTempFiles.printed := [] |})) as [Hfs' Hcount'].
    { intros p Hp. rewrite Hfs. apply Habsent, elem_of_app. now right. }
    rewrite Hfs', Hcount', Hfs, Hcount. done.
Qed.

(** The set of existing paths is such a file system. *)
Lemma set_fs_lawful : @RemovalLaws.lawful (gset string) Demo.set_fs.
Proof.
  split; cbn.
  - intros t p t'. destruct (Py.str_in "readonly" p); intros [= <-].
    apply bool_decide_eq_false. rewrite elem_of_difference.
    intros [_ Hnot]. apply Hnot. now apply elem_of_singleton.
  - intros t p t'. destruct (Py.str_in "readonly" p); intros [= <-].
    apply bool_decide_eq_false. rewrite elem_of_difference.
    intros [_ Hnot]. apply Hnot. now apply elem_of_singleton.
  - intros t p q. destruct (Py.str_in "readonly" p); cbn; [done|].
    rewrite !bool_decide_eq_true, elem_of_difference. tauto.
  - intros t p q. destruct (Py.str_in "readonly" p); cbn; [done|].
    rewrite !bool_decide_eq_true, elem_of_difference. tauto.
Qed.

Lemma cleanup_leaves_listed_paths_absent_witness :
  @CleanupTempFiles.path_exists _ Demo.set_fs
    (CleanupTempFiles.fs
       (@CleanupTempFiles.cleanup _ Demo.set_fs ["/tmp/a.md"] ["/tmp/d"]
          ({["/tmp/a.md"; "/tmp/d"; "/tmp/keep.md"]} : gset string)))
    "/tmp/a.md" = false \/
  exists line,
    line ∈ CleanupTempFiles.printed
             (@CleanupTempFiles.cleanup _ Demo.set_fs ["/tmp/a.md"] ["/tmp/d"]
                ({["/tmp/a.md"; "/tmp/d"; "/tmp/keep.md"]} : gset string)) /\
    Py.startswith line "Error removing" = true.
Proof.
  destruct (@cleanup_leaves_listed_paths_absent _ Demo.set_fs set_fs_lawful
              ["/tmp/a.md"] ["/tmp/d"]
              ({["/tmp/a.md"; "/tmp/d"; "/tmp/keep.md"]} : gset string))
    as [Hsettled _].
  apply Hsettled. by_eval.
Defined.

(* ================================================================== *)
(** * More on the file mover *)
(* ================================================================== *)

Section Slashes.
Import Py.

Lemma str_in_char_cons (c a : ascii) (r : string) :
  str_in (String c EmptyString) (String a r) =
  Ascii.eqb c a || str_in (String c EmptyString) r.
Proof.
  cbn [str_in String.prefix].
  destruct (Ascii.ascii_dec c a) as [->|Hne].
  - now rewrite prefix_empty, Ascii.eqb_refl.
  - now rewrite (proj2 (Ascii.eqb_neq c a) Hne).
Qed.

Lemma str_in_char_app (c : ascii) (a b : string) :
  str_in (String c EmptyString) (a +:+ b) =
  str_in (String c EmptyString) a || str_in (String c EmptyString) b.
Proof.
  induction a as [|x a IH].
  - rewrite string_app_empty_l. now destruct (str_in _ b).
  - now rewrite string_app_cons, !str_in_char_cons, IH, orb_assoc.
Qed.

Lemma rfind_None (c : ascii) (s : string) :
  rfind c s = None -> str_in (String c EmptyString) s = false.
Proof.
  induction s as [|a r IH]; [done|]. cbn [rfind].
  destruct (rfind c r); [discriminate|].
  destruct (Ascii.eqb a c) eqn:Hac; [discriminate|]. intros _.
  now rewrite str_in_char_cons, Ascii.eqb_sym, Hac, IH.
Qed.

Lemma rfind_slice_from (c : ascii) (s : string) (k : nat) :
  rfind c s = Some k -> rfind c (slice_from (S k) s) = None.
Proof.
  revert k; induction s as [|a r IH]; intros k; [discriminate|].
  cbn [rfind]. destruct (rfind c r) as [i|] eqn:Hr.
  - intros [= <-]. cbn [slice_from]. now apply IH.
  - destruct (Ascii.eqb a c); [|discriminate]. intros [= <-].
    cbn [slice_from]. now destruct r.
Qed.

Lemma basename_no_slash (p : string) : str_in "/" (basename p) = false.
Proof.
  unfold basename. apply rfind_None.
  destruct (rfind "/" p) as [k|] eqn:Hk; [|done].
  now apply rfind_slice_from.
Qed.

Lemma slice_to_no_char (c : ascii) (i : nat) (s : string) :
  str_in (String c EmptyString) s = false ->
  str_in (String c EmptyString) (slice_to i s) = false.
Proof.
  revert s; induction i as [|i IH]; intros [|a r]; try done.
  rewrite str_in_char_cons. intros [Ha Hr]%orb_false_elim.
  cbn [slice_to]. now rewrite str_in_char_cons, Ha, IH.
Qed.

Lemma slice_from_no_char (c : ascii) (i : nat) (s : string) :
  str_in (String c EmptyString) s = false ->
  str_in (String c EmptyString) (slice_from i s) = false.
Proof.
  revert s; induction i as [|i IH]; intros [|a r]; try done.
  rewrite str_in_char_cons. intros [Ha Hr]%orb_false_elim.
  cbn [slice_from]. now apply IH.
Qed.

Lemma str_of_nat_no_slash (n : nat) : str_in "/" (str_of_nat n) = false.
Proof.
  unfold str_of_nat.
  induction (Nat.to_uint n) as [|d IH|d IH|d IH|d IH|d IH|d IH|d IH|d IH
    |d IH|d IH]; [done|..];
    cbn [NilEmpty.string_of_uint]; now rewrite str_in_char_cons, IH.
Qed.

Lemma stem_no_slash (p : string) : str_in "/" (FinalBatchMove.stem p) = false.
Proof.
  unfold FinalBatchMove.stem, FinalBatchMove.name.
  pose proof (basename_no_slash p).
  destruct (rfind "." (basename p)); [|done].
  destruct (_ && _); [now apply slice_to_no_char | done].
Qed.

Lemma suffix_no_slash (p : string) :
  str_in "/" (FinalBatchMove.suffix p) = false.
Proof.
  unfold FinalBatchMove.suffix, FinalBatchMove.name.
  pose proof (basename_no_slash p).
  destruct (rfind "." (basename p)); [|done].
  destruct (_ && _); [now apply slice_from_no_char | done].
Qed.

(** A name without a slash is put directly into the consolidation
    directory. *)
Lemma path_div_consolidation (n : string) :
  str_in "/" n = false ->
  Moves.directly_inside FinalBatchMove.consolidation_path
    (FinalBatchMove.path_div FinalBatchMove.consolidation_path n).
Proof.
  intros Hn. exists n. split; [|done].
  unfold FinalBatchMove.path_div, join, startswith.
  assert (String.prefix "/" n = false) as ->.
  { destruct n as [|a r]; [done|].
    rewrite str_in_char_cons in Hn. apply orb_false_elim in Hn as [Ha _].
    cbn [String.prefix]. destruct (Ascii.ascii_dec "/" a) as [<-|]; [|done].
    now rewrite Ascii.eqb_refl in Ha. }
  reflexivity.
Qed.

Lemma plain_directly_inside (file_path : string) :
  Moves.directly_inside FinalBatchMove.consolidation_path
    (FinalBatchMove.path_div FinalBatchMove.consolidation_path
       (FinalBatchMove.name file_path)).
Proof. apply path_div_consolidation, basename_no_slash. Qed.

Lemma numbered_directly_inside (file_path : string) (k : nat) :
  Moves.directly_inside FinalBatchMove.consolidation_path
    (FinalBatchMove.numbered file_path k).
Proof.
  apply path_div_consolidation.
  rewrite !str_in_char_app, stem_no_slash, str_of_nat_no_slash,
    suffix_no_slash.
  reflexivity.
Qed.

End Slashes.

Section MoverRuns.
Import FinalBatchMove.
Context `{MoveFaults}.

Import Moves.

Lemma move_file_round (st : state) (file_rel_path : string) :
  exists st', move_file st file_rel_path = Some st' /\
              round st file_rel_path st'.
Proof.
  unfold move_file.
  set (file_path := path_div base_path file_rel_path).
  set (plain := path_div consolidation_path (name file_path)).
  destruct (fs st !! file_path) as [content|] eqn:Hsrc.
  2:{ rewrite (proj2 (exists_false _ _) Hsrc). exists st. split; [done|].
      now apply round_skipped. }
  rewrite (proj2 (exists_dom (fs st) file_path))
    by (apply elem_of_dom; eauto).
  destruct (free_dest_ends (fs st) file_path plain) as [dest Hdest].
  rewrite Hdest.
  destruct (free_dest_result _ _ _ _ _ _ Hdest) as (Hfree & Hplain & Hnum).
  assert (Moves.directly_inside consolidation_path dest) as Hin.
  { destruct (fs st !! plain) as [c|] eqn:Hp.
    - destruct Hnum as (k & _ & -> & _); [eauto|].
      apply numbered_directly_inside.
    - rewrite Hplain by done. apply plain_directly_inside. }
  unfold shutil_move. rewrite Hsrc.
  destruct (move_end_of (fs st) file_path dest) as [|e|e] eqn:Hend;
    eexists; (split; [reflexivity|]).
  - now apply round_moved.
  - apply (round_failed st file_rel_path content dest); auto.
  - apply (round_failed st file_rel_path content dest); auto.
    intros Hfree'. now destruct (Hfree' (fs st) file_path dest e).
Qed.

Lemma contents_insert (t : gmap string string) (p c : string) :
  t !! p = None -> Moves.contents (<[p := c]> t) ≡ₚ c :: Moves.contents t.
Proof.
  intros Hp. unfold Moves.contents.
  now rewrite (map_to_list_insert t p c Hp).
Qed.

Lemma contents_delete (t : gmap string string) (p c : string) :
  t !! p = Some c -> c :: Moves.contents (delete p t) ≡ₚ Moves.contents t.
Proof.
  intros Hp. unfold Moves.contents.
  now rewrite <- (map_to_list_delete t p c Hp).
Qed.

Lemma round_contents (st st' : state) (file_rel_path : string) :
  round st file_rel_path st' ->
  Moves.contents (fs st) ⊆+ Moves.contents (fs st') /\
  (Moves.copy_free -> Moves.contents (fs st) ≡ₚ Moves.contents (fs st')).
Proof.
  intros [Hsrc|content dest Hsrc Hdest Hin
         |content dest e t' Hsrc Hdest Hin Ht' Hfree]; cbn [fs].
  - done.
  - assert (Moves.contents (fs st) ≡ₚ
            Moves.contents (<[dest := content]>
              (delete (path_div base_path file_rel_path) (fs st)))) as Hperm.
    { rewrite contents_insert by now rewrite lookup_delete_ne by congruence.
      now rewrite contents_delete. }
    split; [now apply Permutation_submseteq | done].
  - split.
    + destruct Ht' as [->| ->]; [done|].
      rewrite contents_insert by done. now apply submseteq_cons.
    + intros Hcf. now rewrite Hfree.
Qed.

Lemma round_new_paths (st st' : state) (file_rel_path q : string) :
  round st file_rel_path st' ->
  fs st !! q = None -> is_Some (fs st' !! q) ->
  Moves.directly_inside consolidation_path q.
Proof.
  intros [Hsrc|content dest Hsrc Hdest Hin
         |content dest e t' Hsrc Hdest Hin Ht' Hfree]; cbn [fs]; intros Hq Hq'.
  - rewrite Hq in Hq'. now destruct Hq'.
  - destruct (decide (q = dest)) as [->|Hne]; [done|].
    rewrite lookup_insert_ne in Hq' by done.
    apply lookup_delete_is_Some in Hq' as [_ Hq']. rewrite Hq in Hq'.
    now destruct Hq'.
  - destruct Ht' as [->| ->].
    + rewrite Hq in Hq'. now destruct Hq'.
    + destruct (decide (q = dest)) as [->|Hne]; [done|].
      rewrite lookup_insert_ne, Hq in Hq' by done. now destruct Hq'.
Qed.

Lemma round_removes_sources_only (st st' : state) (file_rel_path q : string) :
  round st file_rel_path st' ->
  is_Some (fs st !! q) -> fs st' !! q = None ->
  q = path_div base_path file_rel_path.
Proof.
  intros [Hsrc|content dest Hsrc Hdest Hin
         |content dest e t' Hsrc Hdest Hin Ht' Hfree]; cbn [fs]; intros Hq Hq'.
  - rewrite Hq' in Hq. now destruct Hq.
  - destruct (decide (q = dest)) as [->|Hne].
    { now rewrite lookup_insert_eq in Hq'. }
    rewrite lookup_insert_ne in Hq' by done.
    apply lookup_delete_None in Hq' as [->|Hq']; [done|].
    rewrite Hq' in Hq. now destruct Hq.
  - destruct Ht' as [->| ->].
    + rewrite Hq' in Hq. now destruct Hq.
    + destruct (decide (q = dest)) as [->|Hne].
      { now rewrite lookup_insert_eq in Hq'. }
      rewrite lookup_insert_ne in Hq' by done.
      rewrite Hq' in Hq. now destruct Hq.
Qed.

Lemma startswith_own_prefix (p s : string) : Py.startswith (p +:+ s) p = true.
Proof.
  unfold Py.startswith. induction p as [|c p IH].
  - apply prefix_empty.
  - rewrite string_app_cons. cbn [String.prefix].
    now destruct (Ascii.ascii_dec c c).
Qed.



End MoverRuns.

Lemma no_faults_copy_free : @Moves.copy_free Demo.no_faults.
Proof. intros t src dst e. discriminate. Qed.

(** X10.  A source that does not exist is passed over in silence: over
    a list none of whose sources exist the loop ends in the state it
    started from, and on a tree that holds none of the listed files the
    script changes nothing, prints its first line and its two closing
    lines, and reports 0 files moved. *)
Theorem mover_passes_over_missing_sources `{FinalBatchMove.MoveFaults} :
  (forall st files,
     (forall file_rel_path, file_rel_path ∈ files ->
        FinalBatchMove.fs st !!
          FinalBatchMove.path_div FinalBatchMove.base_path file_rel_path
        = None) ->
     FinalBatchMove.move_files st files = Some st) /\
  (forall t : gmap string string,
     (forall file_rel_path,
        file_rel_path ∈ FinalBatchMove.files_to_move ->
        t !! FinalBatchMove.path_div FinalBatchMove.base_path file_rel_path
        = None) ->
     FinalBatchMove.script t =
     Some {| FinalBatchMove.fs := t;
             FinalBatchMove.moved_count := 0;
             FinalBatchMove.printed :=
               ["Moving cleanup files to consolidation directory...";
                String Py.newline "Moved 0 files to consolidation directory.";
                "Next step: Remove the entire /temp_consolidation directory."]
          |}).
Proof.
  assert (forall st files,
     (forall file_rel_path, file_rel_path ∈ files ->
        FinalBatchMove.fs st !!
          FinalBatchMove.path_div FinalBatchMove.base_path file_rel_path
        = None) ->
     FinalBatchMove.move_files st files = Some st) as Hloop.
  { intros st files. induction files as [|rel files IH]; intros Hnone;
      [done|].
    cbn [FinalBatchMove.move_files]. unfold FinalBatchMove.move_file.
    rewrite (proj2 (exists_false _ _) (Hnone rel (list_elem_of_here _ _))).
    apply IH. intros r Hr. apply Hnone. now right. }
  split; [exact Hloop|].
  intros t Hnone. unfold FinalBatchMove.script.
  now rewrite Hloop by exact Hnone.
Qed.

Lemma mover_passes_over_missing_sources_witness :
  @FinalBatchMove.script Demo.no_faults ∅ =
  Some {| FinalBatchMove.fs := ∅;
          FinalBatchMove.moved_count := 0;
          FinalBatchMove.printed :=
            ["Moving cleanup files to consolidation directory...";
             String Py.newline "Moved 0 files to consolidation directory.";
             "Next step: Remove the entire /temp_consolidation directory."]
       |}.
Proof.
  apply (proj2 (@mover_passes_over_missing_sources Demo.no_faults)).
  intros file_rel_path _. apply lookup_empty.
Defined.

(** X11.  The loop loses no content: what the files of the tree hold at
    the start is still held, with its multiplicity, at the end, whatever
    way the moves end.  When no move raises after its copy, the contents
    at the end are those of the start, and the tree has as many files as
    before. *)
Theorem mover_loses_no_content `{FinalBatchMove.MoveFaults}
    (st : FinalBatchMove.state) (files : list string) :
  exists st',
    FinalBatchMove.move_files st files = Some st' /\
    Moves.contents (FinalBatchMove.fs st) ⊆+
      Moves.contents (FinalBatchMove.fs st') /\
    (Moves.copy_free ->
     Moves.contents (FinalBatchMove.fs st) ≡ₚ
       Moves.contents (FinalBatchMove.fs st') /\
     size (FinalBatchMove.fs st') = size (FinalBatchMove.fs st)).
Proof.
  assert (exists st',
    FinalBatchMove.move_files st files = Some st' /\
    Moves.contents (FinalBatchMove.fs st) ⊆+
      Moves.contents (FinalBatchMove.fs st') /\
    (Moves.copy_free ->
     Moves.contents (FinalBatchMove.fs st) ≡ₚ
       Moves.contents (FinalBatchMove.fs st'))) as (st' & Hrun & Hsub & Hperm).
  { revert st. induction files as [|rel files IH]; intros st.
    - exists st. now split.
    - cbn [FinalBatchMove.move_files].
      destruct (move_file_round st rel) as (st1 & -> & Hround).
      apply round_contents in Hround as [Hsub1 Hperm1].
      destruct (IH st1) as (st' & -> & Hsub & Hperm).
      exists st'. split; [done|]. split; [now transitivity
        (Moves.contents (FinalBatchMove.fs st1))|].
      intros Hcf. now rewrite Hperm1, Hperm. }
  exists st'. split; [done|]. split; [done|]. intros Hcf.
  split; [now apply Hperm|].
  apply Hperm, Permutation_length in Hcf. unfold Moves.contents in Hcf.
  now rewrite !length_fmap, !length_map_to_list in Hcf.
Qed.

Lemma mover_loses_no_content_witness :
  @Moves.copy_free Demo.no_faults /\
  exists st',
    @FinalBatchMove.move_files Demo.no_faults Demo.crowded_start
      ["app/notes.md"] = Some st' /\
    size (FinalBatchMove.fs st') = size Demo.crowded.
Proof.
  split; [exact no_faults_copy_free|].
  destruct (@mover_loses_no_content Demo.no_faults Demo.crowded_start
              ["app/notes.md"]) as (st' & Hrun & _ & Hsame).
  exists st'. split; [exact Hrun|].
  exact (proj2 (Hsame no_faults_copy_free)).
Defined.

(** X12.  The loop flattens: every path it creates is an entry of the
    consolidation directory itself, [consolidation_path/<name>] with no
    further slash in the name, whatever directory the source was in; and
    every path it removes is the source of one of the listed files. *)
Theorem mover_creates_entries_of_consolidation_only
    `{FinalBatchMove.MoveFaults}
    (st : FinalBatchMove.state) (files : list string) :
  exists st',
    FinalBatchMove.move_files st files = Some st' /\
    (forall q, FinalBatchMove.fs st !! q = None ->
               is_Some (FinalBatchMove.fs st' !! q) ->
               Moves.directly_inside FinalBatchMove.consolidation_path q) /\
    (forall q, is_Some (FinalBatchMove.fs st !! q) ->
               FinalBatchMove.fs st' !! q = None ->
               exists file_rel_path,
                 file_rel_path ∈ files /\
                 q = FinalBatchMove.path_div FinalBatchMove.base_path
                       file_rel_path).
Proof.
  revert st. induction files as [|rel files IH]; intros st.
  - exists st. split; [done|]. split.
    + intros q Hq Hq'. rewrite Hq in Hq'. now destruct Hq'.
    + intros q Hq Hq'. rewrite Hq' in Hq. now destruct Hq.
  - cbn [FinalBatchMove.move_files].
    destruct (move_file_round st rel) as (st1 & -> & Hround).
    destruct (IH st1) as (st' & -> & Hnew & Hgone).
    exists st'. split; [done|]. split.
    + intros q Hq Hq'.
      destruct (FinalBatchMove.fs st1 !! q) as [c|] eqn:Hq1.
      * apply (round_new_paths st st1 rel q Hround Hq). rewrite Hq1. eauto.
      * now apply Hnew.
    + intros q Hq Hq'.
      destruct (FinalBatchMove.fs st1 !! q) as [c|] eqn:Hq1.
      * destruct (Hgone q) as (r & Hr & ->); [rewrite Hq1; eauto | done |].
        exists r. split; [now right | done].
      * exists rel. split; [now left|].
        apply (round_removes_sources_only st st1 rel q Hround Hq Hq1).
Qed.

Lemma mover_creates_entries_of_consolidation_only_witness :
  exists st',
    @FinalBatchMove.move_files Demo.no_faults Demo.crowded_start
      ["app/notes.md"] = Some st' /\
    Moves.directly_inside FinalBatchMove.consolidation_path
      "/Users/max/Development/active/fullmind/temp_consolidation/notes_2.md".
Proof.
  destruct (@mover_creates_entries_of_consolidation_only Demo.no_faults
              Demo.crowded_start ["app/notes.md"]) as (st' & Hrun & Hnew & _).
  exists st'. split; [exact Hrun|].
  apply Hnew; [vm_compute; reflexivity|].
  vm_compute in Hrun. injection Hrun as <-.
  exists "new notes". vm_compute. reflexivity.
Defined.


(* ================================================================== *)
(** * The phase 8B cleanup *)
(* ================================================================== *)

(** A run on a small disk: the report that two patterns match is removed
    and counted once; the source file stays. *)
Example phase8b_run :
  let run := @Phase8bCleanup.main _ Disk.disk_fs Disk.leftovers in
  (snd run,
   Phase8bCleanup.removed_marks (Phase8bCleanup.printed (fst run)),
   (map_to_list (Phase8bCleanup.fs (fst run))).*1)
  = (inl 3, 3,
     ["/Users/max/Development/active/fullmind/app/App.tsx";
      "/Users/max/Development/active/fullmind/app";
      "/Users/max/Development/active/fullmind/PHASE_8B_COMPLETION_REPORT.json"]).
Proof. vm_compute. reflexivity. Qed.

Section Phase8bLines.
Import Phase8bCleanup.
Context {FS : Type} `{FileSystem FS}.

Lemma removed_marks_app (a b : list string) :
  removed_marks (a ++ b) = removed_marks a + removed_marks b.
Proof. unfold removed_marks. now rewrite filter_app, length_app. Qed.

Lemma removed_marks_other (line : string) :
  Py.startswith line "✓ Removed" = false -> removed_marks [line] = 0.
Proof.
  intros Hline. unfold removed_marks.
  rewrite filter_cons_False by (rewrite Hline; exact id). reflexivity.
Qed.

Lemma removed_marks_mark (s : string) :
  removed_marks ["✓ Removed" +:+ s] = 1.
Proof.
  unfold removed_marks.
  rewrite filter_cons_True by now rewrite startswith_own_prefix.
  reflexivity.
Qed.

Lemma remove_directory_safely_lines (st : state FS) (dir_path : string) :
  exists new,
    printed (fst (remove_directory_safely st dir_path)) = printed st ++ new /\
    removed_marks new =
      (if snd (remove_directory_safely st dir_path) then 1 else 0).
Proof.
  unfold remove_directory_safely.
  destruct (_ && _).
  - destruct (shutil_rmtree (fs st) dir_path) as [t' [e|]];
      cbn [fst snd printed]; eexists [_]; (split; [reflexivity|]).
    + apply removed_marks_other. vm_compute. reflexivity.
    + apply (removed_marks_mark (" directory: " +:+ dir_path)).
  - exists []. now rewrite app_nil_r.
Qed.

Lemma remove_match_lines (st : state FS) (n : nat) (file_path : string) :
  exists new,
    printed (fst (remove_match (st, n) file_path)) = printed st ++ new /\
    snd (remove_match (st, n) file_path) = n + removed_marks new.
Proof.
  unfold remove_match.
  destruct (is_file (fs st) file_path) as [[|]|e].
  - destruct (unlink (fs st) file_path) as [t' [e|]];
      cbn [fst snd printed]; eexists [_]; (split; [reflexivity|]).
    + rewrite removed_marks_other by (vm_compute; reflexivity). lia.
    + reflexivity.
  - exists []. rewrite app_nil_r. cbn. split; [done | lia].
  - cbn [fst snd print printed]. eexists [_]. split; [reflexivity|].
    rewrite removed_marks_other by (vm_compute; reflexivity). lia.
Qed.

Lemma remove_matches_lines (paths : list string) (st : state FS) (n : nat) :
  exists new,
    printed (fst (fold_left remove_match paths (st, n))) = printed st ++ new /\
    snd (fold_left remove_match paths (st, n)) = n + removed_marks new.
Proof.
  revert st n. induction paths as [|p paths IH]; intros st n.
  - exists []. rewrite app_nil_r. cbn. split; [done | lia].
  - cbn [fold_left].
    destruct (remove_match_lines st n p) as (new1 & Hp1 & Hn1).
    destruct (remove_match (st, n) p) as [st1 n1]. cbn [fst snd] in Hp1, Hn1.
    destruct (IH st1 n1) as (new & Hp & Hn).
    exists (new1 ++ new).
    rewrite Hp, Hp1, Hn, Hn1, removed_marks_app, <- app_assoc.
    split; [done | lia].
Qed.

Lemma remove_patterns_lines (base_path : string) (patterns : list string)
    (st : state FS) (n : nat) :
  exists new,
    printed (fst (fold_left (remove_pattern base_path) patterns (st, n)))
      = printed st ++ new /\
    snd (fold_left (remove_pattern base_path) patterns (st, n))
      = n + removed_marks new.
Proof.
  revert st n. induction patterns as [|pattern patterns IH]; intros st n.
  - exists []. rewrite app_nil_r. cbn. split; [done | lia].
  - cbn [fold_left]. unfold remove_pattern at 2 4. cbn [fst].
    destruct (remove_matches_lines (glob (fs st) base_path pattern) st n)
      as (new1 & Hp1 & Hn1).
    destruct (fold_left remove_match _ (st, n)) as [st1 n1].
    cbn [fst snd] in Hp1, Hn1.
    destruct (IH st1 n1) as (new & Hp & Hn).
    exists (new1 ++ new).
    rewrite Hp, Hp1, Hn, Hn1, removed_marks_app, <- app_assoc.
    split; [done | lia].
Qed.

Lemma remove_files_pattern_lines (st : state FS) (base_path : string)
    (patterns : list string) :
  exists new,
    printed (fst (remove_files_pattern st base_path patterns))
      = printed st ++ new /\
    snd (remove_files_pattern st base_path patterns) = removed_marks new.
Proof. apply (remove_patterns_lines base_path patterns st 0). Qed.

Lemma remove_cleanup_script_lines (st : state FS) (n : nat) :
  exists new,
    printed (fst (remove_cleanup_script st n)) = printed st ++ new /\
    snd (remove_cleanup_script st n) = n + removed_marks new.
Proof.
  unfold remove_cleanup_script.
  destruct (path_exists (fs st) cleanup_script).
  - destruct (unlink (fs st) cleanup_script) as [t' [e|]];
      cbn [fst snd printed]; eexists [_]; (split; [reflexivity|]).
    + rewrite removed_marks_other by (vm_compute; reflexivity). lia.
    + reflexivity.
  - exists []. rewrite app_nil_r. cbn. split; [done | lia].
Qed.

Lemma cleaning_lines (t : FS) :
  snd (cleaning t) = removed_marks (printed (fst (cleaning t))) /\
  "Phase 8B Complete: " +:+ Py.str_of_nat (snd (cleaning t)) +:+
    " artifacts removed" ∈ printed (fst (cleaning t)).
Proof.
  unfold cleaning.
  do 2 match goal with |- context [remove_directory_safely ?s ?p] =>
    let new := fresh "new" in let Hp := fresh "Hp" in let Hk := fresh "Hk" in
    destruct (remove_directory_safely_lines s p) as (new & Hp & Hk);
    destruct (remove_directory_safely s p) as [? ?]; cbn [fst snd] in Hp, Hk
  end.
  do 2 match goal with |- context [remove_files_pattern ?s ?b ?ps] =>
    let new := fresh "new" in let Hp := fresh "Hp" in let Hk := fresh "Hk" in
    destruct (remove_files_pattern_lines s b ps) as (new & Hp & Hk);
    destruct (remove_files_pattern s b ps) as [? ?]; cbn [fst snd] in Hp, Hk
  end.
  match goal with |- context [path_exists ?t test_results_dir] =>
    destruct (path_exists t test_results_dir) end.
  1: match goal with |- context [remove_files_pattern ?s ?b ?ps] =>
    let new := fresh "new" in let Hp := fresh "Hp" in let Hk := fresh "Hk" in
    destruct (remove_files_pattern_lines s b ps) as (new & Hp & Hk);
    destruct (remove_files_pattern s b ps) as [? ?]; cbn [fst snd] in Hp, Hk
  end.
  all: match goal with |- context [remove_cleanup_script ?s ?n] =>
    let new := fresh "new" in let Hp := fresh "Hp" in let Hk := fresh "Hk" in
    destruct (remove_cleanup_script_lines s n) as (new & Hp & Hk);
    destruct (remove_cleanup_script s n) as [? ?]; cbn [fst snd] in Hp, Hk
  end.
  all: cbn [fst snd print printed fs] in *.
  all: split;
    [| apply elem_of_app; left; apply elem_of_app; right; now left].
  all: repeat match goal with
         | Hp : printed _ = _ |- _ => rewrite Hp; clear Hp
         end.
  all: rewrite !removed_marks_app.
  all: rewrite !removed_marks_other by (vm_compute; reflexivity).
  all: change (removed_marks []) with 0.
  all: subst.
  all: repeat match goal with
         | Hk : removed_marks ?new = (if ?r then 1 else 0) |- _ =>
             rewrite Hk; destruct r; clear Hk
         end.
  all: lia.
Qed.

End Phase8bLines.

(** X14.  The number that [main] reports is the number of removals it
    printed: [artifacts_removed], as the closing line [Phase 8B
    Complete: n artifacts removed] shows it and as the report takes it,
    is the number of printed lines that start with [✓ Removed]; the line
    on the saved report adds none.  When writing the report returns,
    [main] prints that line and returns this number; when it raises,
    [main] prints nothing more and the exception leaves it. *)
Theorem phase8b_reports_the_removals_it_printed
    {FS : Type} `{Phase8bCleanup.FileSystem FS} (t : FS) :
  let st := fst (Phase8bCleanup.cleaning t) in
  let n := snd (Phase8bCleanup.cleaning t) in
  n = Phase8bCleanup.removed_marks (Phase8bCleanup.printed st) /\
  "Phase 8B Complete: " +:+ Py.str_of_nat n +:+ " artifacts removed"
    ∈ Phase8bCleanup.printed st /\
  Phase8bCleanup.removed_marks
    (Phase8bCleanup.printed (fst (Phase8bCleanup.main t))) = n /\
  Phase8bCleanup.fs (fst (Phase8bCleanup.main t)) =
    fst (Phase8bCleanup.json_dump (Phase8bCleanup.fs st)
           Phase8bCleanup.report_path (Phase8bCleanup.completion_report n)) /\
  match snd (Phase8bCleanup.json_dump (Phase8bCleanup.fs st)
               Phase8bCleanup.report_path
               (Phase8bCleanup.completion_report n)) with
  | None =>
      snd (Phase8bCleanup.main t) = inl n /\
      Phase8bCleanup.printed (fst (Phase8bCleanup.main t)) =
        Phase8bCleanup.printed st ++
        ["✓ Completion report saved: " +:+ Phase8bCleanup.report_path]
  | Some e =>
      snd (Phase8bCleanup.main t) = inr e /\
      Phase8bCleanup.printed (fst (Phase8bCleanup.main t)) =
        Phase8bCleanup.printed st
  end.
Proof.
  intros st n. destruct (cleaning_lines t) as [Hn Hline].
  fold st in Hn, Hline. fold n in Hn, Hline.
  split; [exact Hn|]. split; [exact Hline|].
  unfold Phase8bCleanup.main.
  destruct (Phase8bCleanup.cleaning t) as [st' n'] eqn:Hrun.
  cbn [fst snd] in st, n. subst st n.
  destruct (Phase8bCleanup.json_dump _ _ _) as [t' [e|]];
    cbn [fst snd Phase8bCleanup.printed Phase8bCleanup.fs].
  - split; [now symmetry|]. split; [done|]. now split.
  - rewrite removed_marks_app, <- Hn.
    rewrite removed_marks_other by (vm_compute; reflexivity).
    split; [lia|]. split; [done|]. now split.
Qed.

Section Phase8bOnce.
Import Phase8bCleanup.
Context {FS : Type} `{FileSystem FS}.
Hypothesis laws : lawful FS.

Lemma once_start (st : state FS) (n : nat) : once st n (st, n).
Proof.
  exists [], []. cbn [fst snd length]. rewrite app_nil_r.
  split; [done|]. split; [done|]. split; [apply NoDup_nil_2|].
  split; [lia|]. split; [|done].
  intros p Hp. now apply elem_of_nil in Hp.
Qed.

Lemma reports_files_other (new removed : list string) (line : string) :
  Py.startswith line "✓ Removed file: " = false ->
  reports_files new removed -> reports_files (new ++ [line]) removed.
Proof.
  unfold reports_files. intros Hline Hnew.
  rewrite filter_app, filter_cons_False by (rewrite Hline; exact id).
  now rewrite app_nil_r.
Qed.

Lemma reports_files_mark (new removed : list string) (p : string) :
  reports_files new removed ->
  reports_files (new ++ ["✓ Removed file: " +:+ p]) (removed ++ [p]).
Proof.
  unfold reports_files. intros Hnew.
  rewrite filter_app, filter_cons_True by now rewrite startswith_own_prefix.
  now rewrite map_app, Hnew.
Qed.

Lemma once_remove_match (st0 : state FS) (n0 : nat) (acc : state FS * nat)
    (file_path : string) :
  once st0 n0 acc -> once st0 n0 (remove_match acc file_path).
Proof.
  destruct acc as [st n].
  intros (new & removed & Hp & Hnew & Hnodup & Hn & Hrem & Hmono).
  cbn [fst snd] in *. unfold remove_match.
  destruct (is_file (fs st) file_path) as [[|]|e] eqn:Hfile.
  - pose proof (unlink_removes laws (fs st) file_path) as Hgone.
    pose proof (unlink_creates_nothing laws (fs st) file_path) as Hnone.
    destruct (unlink (fs st) file_path) as [t' [e|]]; cbn [fst] in Hnone.
    + exists (new ++ ["✗ Failed to remove " +:+ file_path +:+ ": " +:+ e]),
        removed.
      cbn [fst snd printed fs]. rewrite Hp, app_assoc.
      split; [done|]. split.
      { apply reports_files_other; [vm_compute; reflexivity | done]. }
      split; [done|]. split; [done|]. split.
      * intros p Hin. destruct (Hrem p Hin) as [Hwas Hnow].
        split; [done|]. intros Hf. apply Hnow, Hnone, Hf.
      * intros q Hq. apply Hmono, Hnone, Hq.
    + exists (new ++ ["✓ Removed file: " +:+ file_path]),
        (removed ++ [file_path]).
      cbn [fst snd printed fs]. rewrite Hp, app_assoc.
      split; [done|]. split; [now apply reports_files_mark|]. split.
      { apply NoDup_app. split; [done|]. split; [|apply NoDup_singleton].
        intros p Hin ->%list_elem_of_singleton.
        now destruct (Hrem file_path Hin) as [_ Hnow]. }
      split; [rewrite length_app; cbn [length]; lia|]. split.
      * intros p [Hin| ->%list_elem_of_singleton]%elem_of_app.
        -- destruct (Hrem p Hin) as [Hwas Hnow].
           split; [done|]. intros Hf. apply Hnow, Hnone, Hf.
        -- split; [now apply Hmono | now apply Hgone].
      * intros q Hq. apply Hmono, Hnone, Hq.
  - exists new, removed. cbn [fst snd]. repeat split; auto; now apply Hrem.
  - exists (new ++ ["✗ Failed to remove " +:+ file_path +:+ ": " +:+ e]),
      removed.
    cbn [fst snd print printed fs]. rewrite Hp, app_assoc.
    split; [done|]. split.
    { apply reports_files_other; [vm_compute; reflexivity | done]. }
    repeat split; auto; now apply Hrem.
Qed.

Lemma once_remove_pattern (st0 : state FS) (n0 : nat) (base_path : string)
    (acc : state FS * nat) (pattern : string) :
  once st0 n0 acc -> once st0 n0 (remove_pattern base_path acc pattern).
Proof.
  unfold remove_pattern.
  generalize (glob (fs (fst acc)) base_path pattern). intros paths.
  revert acc. induction paths as [|p paths IH]; intros acc Hacc; [done|].
  cbn [fold_left]. now apply IH, once_remove_match.
Qed.

Lemma once_remove_files_pattern (st : state FS) (base_path : string)
    (patterns : list string) :
  once st 0 (remove_files_pattern st base_path patterns).
Proof.
  unfold remove_files_pattern.
  assert (forall acc, once st 0 acc ->
            once st 0 (fold_left (remove_pattern base_path) patterns acc))
    as Hfold.
  { induction patterns as [|pattern patterns IH]; intros acc Hacc; [done|].
    cbn [fold_left]. now apply IH, once_remove_pattern. }
  apply Hfold, once_start.
Qed.

End Phase8bOnce.

Lemma disk_fs_lawful : @Phase8bCleanup.lawful (gmap string bool) Disk.disk_fs.
Proof.
  split.
  - intros t p t'. cbn. destruct (Py.str_in "readonly" p); [discriminate|].
    intros [= <-]. rewrite lookup_delete_eq. discriminate.
  - intros t p q. cbn. destruct (Py.str_in "readonly" p); [done|].
    cbn [fst]. intros [= Hb]. apply bool_decide_eq_true in Hb.
    apply lookup_delete_Some in Hb as [_ Hb].
    f_equal. now apply bool_decide_eq_true.
Qed.

(** X15.  On a file system where an unlinked file is no file any more
    and unlinking makes no file, [remove_files_pattern] removes and
    counts each file once, however many of the patterns match it: the
    lines [✓ Removed file: p] it prints name pairwise different paths,
    its result is their number, and each of them was a file before the
    call and is none after it. *)
Theorem phase8b_removes_each_match_once
    {FS : Type} `{Phase8bCleanup.FileSystem FS}
    (laws : Phase8bCleanup.lawful FS)
    (st : Phase8bCleanup.state FS) (base_path : string)
    (patterns : list string) :
  let run := Phase8bCleanup.remove_files_pattern st base_path patterns in
  exists new removed,
    Phase8bCleanup.printed (fst run) = Phase8bCleanup.printed st ++ new /\
    Phase8bCleanup.reports_files new removed /\
    NoDup removed /\
    snd run = length removed /\
    forall p, p ∈ removed ->
      Phase8bCleanup.is_file (Phase8bCleanup.fs st) p
        = Phase8bCleanup.Holds true /\
      Phase8bCleanup.is_file (Phase8bCleanup.fs (fst run)) p
        <> Phase8bCleanup.Holds true.
Proof.
  intros run.
  destruct (once_remove_files_pattern laws st base_path patterns)
    as (new & removed & Hp & Hnew & Hnodup & Hn & Hrem & _).
  exists new, removed. repeat split; auto; now apply Hrem.
Qed.

Lemma phase8b_removes_each_match_once_witness :
  @Phase8bCleanup.lawful (gmap string bool) Disk.disk_fs /\
  exists removed : list string,
    NoDup removed /\
    snd (@Phase8bCleanup.remove_files_pattern _ Disk.disk_fs
           {| Phase8bCleanup.fs := Disk.leftovers;
              Phase8bCleanup.printed := [] |}
           Phase8bCleanup.app_dir Phase8bCleanup.phase_patterns)
    = length removed.
Proof.
  split; [exact disk_fs_lawful|].
  destruct (@phase8b_removes_each_match_once _ Disk.disk_fs disk_fs_lawful
              {| Phase8bCleanup.fs := Disk.leftovers;
                 Phase8bCleanup.printed := [] |}
              Phase8bCleanup.app_dir Phase8bCleanup.phase_patterns)
    as (new & removed & _ & _ & Hnodup & Hn & _).
  exists removed. split; [exact Hnodup | exact Hn].
Defined.

Section Phase8bNothing.
Import Phase8bCleanup.
Context {FS : Type} `{FileSystem FS}.





End Phase8bNothing.


